(** * Modem bring-up and PPP link supervision: a model of the two GPRS scripts

    The development embeds the one-shot script [GPRS_Internet_1.py] and the
    persistent script [GPRS_Internet_Service_1.py].

    Conventions of the model.
    - A Python [str] is the list of its code points ([pystr]); a [bytes]
      object is a [list byte].
    - Wall-clock time is an integer number of milliseconds; [time.sleep]
      advances it by exactly the requested amount, [output_queue.get] by the
      time it waits for a line (at most its timeout), and every other
      operation takes no time.  Timeouts that the scripts give in seconds are given
      here in milliseconds (5 s is [5000]).
    - The serial line, the output queue of the negotiation process and the
      external commands are played by scripted oracles held in the [world].
    - External commands are recorded in the log; what they do to the system
      is not modelled: [files] and [procs] change only through what a script
      does itself ([NamedTemporaryFile], [os.remove], [Popen], signals sent
      through a process handle), not through [pkill], [poff], [rm] or the
      files that [pppd] writes.  Paths are paths of regular files.
    - [handles] counts the [Serial] objects on which [close()] has not been
      called.  Finalizers are not modelled: an object dropped without
      [close()] stays counted, although the interpreter closes its port when
      it collects the object.
    - What the scripts print is left out, except the signal report of the
      one-shot script and the status line of the monitor.
    - A signal reaches the main thread during [time.sleep] or
      [output_queue.get]; other calls are not interrupted. *)

From Stdlib Require Import List String Ascii Bool ZArith NArith Lia.
From Stdlib Require Import Strings.Byte.
Import ListNotations.
Open Scope Z_scope.

(** ** Python strings *)

Module Text.

Definition pystr := list N.

(** An ASCII literal of the source as a Python string. *)
Definition lit (s : string) : pystr :=
  map N_of_ascii (list_ascii_of_string s).

Fixpoint starts_with (p s : pystr) : bool :=
  match p, s with
  | [], _ => true
  | _ :: _, [] => false
  | a :: p', b :: s' => N.eqb a b && starts_with p' s'
  end.

(** [needle in hay] *)
Fixpoint contains (needle hay : pystr) : bool :=
  starts_with needle hay ||
  match hay with
  | [] => false
  | _ :: hay' => contains needle hay'
  end.

(** [str.isspace] on one code point. *)
Definition is_space (c : N) : bool :=
  ((9 <=? c) && (c <=? 13) || (28 <=? c) && (c <=? 32) ||
   (c =? 133) || (c =? 160) || (c =? 5760) ||
   (8192 <=? c) && (c <=? 8202) || (c =? 8232) || (c =? 8233) ||
   (c =? 8239) || (c =? 8287) || (c =? 12288))%N.

Fixpoint lstrip (s : pystr) : pystr :=
  match s with
  | c :: s' => if is_space c then lstrip s' else s
  | [] => []
  end.

Definition rstrip (s : pystr) : pystr := rev (lstrip (rev s)).

(** [s.strip()] *)
Definition strip (s : pystr) : pystr := rstrip (lstrip s).

(** [s.split(sep)] for a non-empty separator: [skip] counts the code points
    of a separator occurrence still to be passed over, [acc] is the current
    piece, reversed. *)
Fixpoint split_go (sep : pystr) (skip : nat) (acc s : pystr) : list pystr :=
  match s with
  | [] => [rev acc]
  | c :: s' =>
      match skip with
      | S k => split_go sep k acc s'
      | O =>
          if starts_with sep s
          then rev acc :: split_go sep (List.length sep - 1) [] s'
          else split_go sep 0 (c :: acc) s'
      end
  end.

Definition split (sep s : pystr) : list pystr := split_go sep 0 [] s.

(** The code points at which the ten decimal digits of a script start
    (the characters with a decimal value in Unicode 14.0, the data of
    CPython 3.11): ASCII, Arabic-Indic, Devanagari, fullwidth and so on. *)
Definition decimal_blocks : list N :=
  [48; 1632; 1776; 1984; 2406; 2534; 2662; 2790; 2918; 3046; 3174; 3302;
   3430; 3558; 3664; 3792; 3872; 4160; 4240; 6112; 6160; 6470; 6608; 6784;
   6800; 6992; 7088; 7232; 7248; 42528; 43216; 43264; 43472; 43504; 43600;
   44016; 65296; 66720; 68912; 69734; 69872; 69942; 70096; 70384; 70736;
   70864; 71248; 71360; 71472; 71904; 72016; 72784; 73040; 73120; 92768;
   92864; 93008; 120782; 120792; 120802; 120812; 120822; 123200; 123632;
   125264; 130032]%N.

(** [Py_UNICODE_TODECIMAL]: the value of a decimal digit of any script. *)
Definition decimal_value (c : N) : option N :=
  option_map (fun s => c - s)%N
    (find (fun s => (s <=? c) && (c <? s + 10))%N decimal_blocks).

Definition is_digit (c : N) : bool :=
  match decimal_value c with Some _ => true | None => false end.

(** The digits of a decimal literal: single underscores are allowed between
    digits.  [prev_digit] tells whether the previous code point was a digit,
    [count] is the number of digits read. *)
Fixpoint digits_go (acc : Z) (count : nat) (prev_digit : bool) (s : pystr)
    : option (Z * nat) :=
  match s with
  | [] => if prev_digit then Some (acc, count) else None
  | c :: s' =>
      match decimal_value c with
      | Some d => digits_go (10 * acc + Z.of_N d) (S count) true s'
      | None =>
          if (c =? 95)%N && prev_digit then
            match s' with
            | d :: _ => if is_digit d then digits_go acc count false s' else None
            | [] => None
            end
          else None
      end
  end.

(** The white space [int] passes over at both ends: that of [str.isspace]
    without the four separators U+001C to U+001F. *)
Definition is_int_space (c : N) : bool :=
  is_space c && negb ((28 <=? c) && (c <=? 31))%N.

Fixpoint int_lstrip (s : pystr) : pystr :=
  match s with
  | c :: s' => if is_int_space c then int_lstrip s' else s
  | [] => []
  end.

Definition int_strip (s : pystr) : pystr :=
  rev (int_lstrip (rev (int_lstrip s))).

(** The longest literal [int] converts (the default of
    [sys.get_int_max_str_digits()]). *)
Definition max_str_digits : nat := 4300.

(** [int(s)] in base ten; [None] stands for [ValueError].  The digits of
    every script count, a sign is [+] or [-], and a literal of more than
    [max_str_digits] digits is refused. *)
Definition py_int (s : pystr) : option Z :=
  match int_strip s with
  | [] => None
  | c :: s' =>
      let digits :=
        if (c =? 43)%N then digits_go 0 0 false s'
        else if (c =? 45)%N then
          option_map (fun r => (Z.opp (fst r), snd r)) (digits_go 0 0 false s')
        else digits_go 0 0 false (c :: s') in
      match digits with
      | Some (value, count) =>
          if Nat.ltb max_str_digits count then None else Some value
      | None => None
      end
  end.

End Text.

Import Text.

(** ** [bytes.decode('utf-8', errors=...)] *)

Module Utf8.

(** The [errors] argument. *)
Inductive errors := Ignore | Replace.

Definition on_error (h : errors) : pystr :=
  match h with Ignore => [] | Replace => [65533%N] end.

Definition cont (b : N) : bool := ((128 <=? b) && (b <=? 191))%N.

Definition second3_ok (b1 b2 : N) : bool :=
  (cont b2 &&
   (if b1 =? 224 then 160 <=? b2 else if b1 =? 237 then b2 <? 160 else true))%N.

Definition second4_ok (b1 b2 : N) : bool :=
  (cont b2 &&
   (if b1 =? 240 then 144 <=? b2 else if b1 =? 244 then b2 <? 144 else true))%N.

(** The decoder of CPython: an ill-formed sequence is reported up to, and
    not including, the first byte that cannot continue it, the handler
    answers for it, and decoding resumes at that byte. *)
Fixpoint decode_N (h : errors) (bs : list N) : pystr :=
  match bs with
  | [] => []
  | b1 :: t1 =>
    (if b1 <? 128 then b1 :: decode_N h t1
     else if b1 <? 194 then on_error h ++ decode_N h t1
     else if b1 <? 224 then
       match t1 with
       | [] => on_error h
       | b2 :: t2 =>
           if cont b2 then ((b1 - 192) * 64 + (b2 - 128)) :: decode_N h t2
           else on_error h ++ decode_N h t1
       end
     else if b1 <? 240 then
       match t1 with
       | [] => on_error h
       | b2 :: t2 =>
           if second3_ok b1 b2 then
             match t2 with
             | [] => on_error h
             | b3 :: t3 =>
                 if cont b3
                 then ((b1 - 224) * 4096 + (b2 - 128) * 64 + (b3 - 128))
                      :: decode_N h t3
                 else on_error h ++ decode_N h t2
             end
           else on_error h ++ decode_N h t1
       end
     else if b1 <? 245 then
       match t1 with
       | [] => on_error h
       | b2 :: t2 =>
           if second4_ok b1 b2 then
             match t2 with
             | [] => on_error h
             | b3 :: t3 =>
                 if cont b3 then
                   match t3 with
                   | [] => on_error h
                   | b4 :: t4 =>
                       if cont b4
                       then ((b1 - 240) * 262144 + (b2 - 128) * 4096 +
                             (b3 - 128) * 64 + (b4 - 128)) :: decode_N h t4
                       else on_error h ++ decode_N h t3
                   end
                 else on_error h ++ decode_N h t2
             end
           else on_error h ++ decode_N h t1
       end
     else on_error h ++ decode_N h t1)%N
  end.

Definition decode (h : errors) (bs : list byte) : pystr :=
  decode_N h (map Byte.to_N bs).

(** The bytes of an ASCII literal. *)
Definition bytes_of (s : string) : list byte := list_byte_of_string s.

End Utf8.

Import Utf8.

(** ** The world the scripts run in *)

(** [Error] is an instance of [Exception].  Its argument stands for the text
    [str(e)] that the scripts format into their messages; the model does not
    compute that text and puts the name of the exception's class in its
    place. *)
Inductive exn :=
  | Error (msg : string)
  | KeyboardInterrupt
  | SystemExit (code : Z).

(** One poll of the serial line: the bytes waiting, or a transport error. *)
Inductive rx := Bytes (bs : list byte) | Broken.

(** One [output_queue.get(timeout=0.5)]: a line of the negotiation process
    that is there [wait] milliseconds into the call, or [queue.Empty]
    together with whether the process has exited by then. *)
Inductive qres := Got (wait : Z) (line : pystr) | Empty (exited : bool).

Inductive pstate := Running | Exited.

(** The messages the one-shot script prints for a signal reading: [No signal
    detected!], [Weak signal: rssi], [Signal strength: rssi (good)] and
    [Could not parse signal quality]. *)
Inductive signal_report :=
  | NoSignalDetected
  | WeakSignal (rssi : Z)
  | SignalStrengthGood (rssi : Z)
  | CouldNotParse.

Inductive action :=
  | SerialOpen
  | SerialClose
  | SerialWrite (data : string)
  | Sleep (ms : Z)
  | Run (argv : list string)
  | Popen (argv : list string)
  | Sigterm (pid : nat)
  | Kill (pid : nat)
  | CreateFile (path content : string)
  | Remove (path : string)
  | StopReader
  | Report (r : signal_report)
  | StatusLine (rssi : option Z) (quality icon : string).

Definition signal_info := (option Z * string * string)%type.

Record world := mkWorld {
  now : Z;                              (* wall clock, in milliseconds *)
  blocked : nat;                        (* blocking calls made so far *)
  sigint_at : option nat;               (* the blocking call during which SIGINT arrives *)
  handler : bool;                       (* [signal.signal] has installed [signal_handler] *)
  can_open : bool;                      (* [serial.Serial(device, ...)] succeeds *)
  wire : list rx;                       (* what the successive polls of [ser.in_waiting] find *)
  handles : nat;                        (* [Serial] objects opened and not closed by [close()] *)
  files : list string;                  (* the regular files the scripts know of that exist *)
  fresh : string;                       (* the name [NamedTemporaryFile] picks *)
  procs : list pstate;                  (* spawned processes, by pid *)
  obeys_term : bool;                    (* a spawned process exits on SIGTERM *)
  queue : list qres;                    (* what the successive [output_queue.get] calls find *)
  captured : list (Z * pystr);          (* results of the successive capturing [subprocess.run] calls *)
  tmp_chat_path : option string;        (* global of the persistent script *)
  ppp_process : option nat;             (* global of the persistent script *)
  last_signal_info : signal_info;       (* global of the persistent script *)
  log : list action                     (* the effects performed, newest first *)
}.

Definition set_now (v : Z) (w : world) : world :=
  mkWorld v (blocked w) (sigint_at w) (handler w) (can_open w) (wire w) (handles w) (files w) (fresh w) (procs w) (obeys_term w) (queue w) (captured w) (tmp_chat_path w) (ppp_process w) (last_signal_info w) (log w).
Definition set_blocked (v : nat) (w : world) : world :=
  mkWorld (now w) v (sigint_at w) (handler w) (can_open w) (wire w) (handles w) (files w) (fresh w) (procs w) (obeys_term w) (queue w) (captured w) (tmp_chat_path w) (ppp_process w) (last_signal_info w) (log w).
Definition set_sigint_at (v : option nat) (w : world) : world :=
  mkWorld (now w) (blocked w) v (handler w) (can_open w) (wire w) (handles w) (files w) (fresh w) (procs w) (obeys_term w) (queue w) (captured w) (tmp_chat_path w) (ppp_process w) (last_signal_info w) (log w).
Definition set_handler (v : bool) (w : world) : world :=
  mkWorld (now w) (blocked w) (sigint_at w) v (can_open w) (wire w) (handles w) (files w) (fresh w) (procs w) (obeys_term w) (queue w) (captured w) (tmp_chat_path w) (ppp_process w) (last_signal_info w) (log w).
Definition set_can_open (v : bool) (w : world) : world :=
  mkWorld (now w) (blocked w) (sigint_at w) (handler w) v (wire w) (handles w) (files w) (fresh w) (procs w) (obeys_term w) (queue w) (captured w) (tmp_chat_path w) (ppp_process w) (last_signal_info w) (log w).
Definition set_wire (v : list rx) (w : world) : world :=
  mkWorld (now w) (blocked w) (sigint_at w) (handler w) (can_open w) v (handles w) (files w) (fresh w) (procs w) (obeys_term w) (queue w) (captured w) (tmp_chat_path w) (ppp_process w) (last_signal_info w) (log w).
Definition set_handles (v : nat) (w : world) : world :=
  mkWorld (now w) (blocked w) (sigint_at w) (handler w) (can_open w) (wire w) v (files w) (fresh w) (procs w) (obeys_term w) (queue w) (captured w) (tmp_chat_path w) (ppp_process w) (last_signal_info w) (log w).
Definition set_files (v : list string) (w : world) : world :=
  mkWorld (now w) (blocked w) (sigint_at w) (handler w) (can_open w) (wire w) (handles w) v (fresh w) (procs w) (obeys_term w) (queue w) (captured w) (tmp_chat_path w) (ppp_process w) (last_signal_info w) (log w).
Definition set_fresh (v : string) (w : world) : world :=
  mkWorld (now w) (blocked w) (sigint_at w) (handler w) (can_open w) (wire w) (handles w) (files w) v (procs w) (obeys_term w) (queue w) (captured w) (tmp_chat_path w) (ppp_process w) (last_signal_info w) (log w).
Definition set_procs (v : list pstate) (w : world) : world :=
  mkWorld (now w) (blocked w) (sigint_at w) (handler w) (can_open w) (wire w) (handles w) (files w) (fresh w) v (obeys_term w) (queue w) (captured w) (tmp_chat_path w) (ppp_process w) (last_signal_info w) (log w).
Definition set_obeys_term (v : bool) (w : world) : world :=
  mkWorld (now w) (blocked w) (sigint_at w) (handler w) (can_open w) (wire w) (handles w) (files w) (fresh w) (procs w) v (queue w) (captured w) (tmp_chat_path w) (ppp_process w) (last_signal_info w) (log w).
Definition set_queue (v : list qres) (w : world) : world :=
  mkWorld (now w) (blocked w) (sigint_at w) (handler w) (can_open w) (wire w) (handles w) (files w) (fresh w) (procs w) (obeys_term w) v (captured w) (tmp_chat_path w) (ppp_process w) (last_signal_info w) (log w).
Definition set_captured (v : list (Z * pystr)) (w : world) : world :=
  mkWorld (now w) (blocked w) (sigint_at w) (handler w) (can_open w) (wire w) (handles w) (files w) (fresh w) (procs w) (obeys_term w) (queue w) v (tmp_chat_path w) (ppp_process w) (last_signal_info w) (log w).
Definition set_tmp_chat_path (v : option string) (w : world) : world :=
  mkWorld (now w) (blocked w) (sigint_at w) (handler w) (can_open w) (wire w) (handles w) (files w) (fresh w) (procs w) (obeys_term w) (queue w) (captured w) v (ppp_process w) (last_signal_info w) (log w).
Definition set_ppp_process (v : option nat) (w : world) : world :=
  mkWorld (now w) (blocked w) (sigint_at w) (handler w) (can_open w) (wire w) (handles w) (files w) (fresh w) (procs w) (obeys_term w) (queue w) (captured w) (tmp_chat_path w) v (last_signal_info w) (log w).
Definition set_last_signal_info (v : signal_info) (w : world) : world :=
  mkWorld (now w) (blocked w) (sigint_at w) (handler w) (can_open w) (wire w) (handles w) (files w) (fresh w) (procs w) (obeys_term w) (queue w) (captured w) (tmp_chat_path w) (ppp_process w) v (log w).
Definition set_log (v : list action) (w : world) : world :=
  mkWorld (now w) (blocked w) (sigint_at w) (handler w) (can_open w) (wire w) (handles w) (files w) (fresh w) (procs w) (obeys_term w) (queue w) (captured w) (tmp_chat_path w) (ppp_process w) (last_signal_info w) v.

Arguments set_now v w /.
Arguments set_blocked v w /.
Arguments set_sigint_at v w /.
Arguments set_handler v w /.
Arguments set_can_open v w /.
Arguments set_wire v w /.
Arguments set_handles v w /.
Arguments set_files v w /.
Arguments set_fresh v w /.
Arguments set_procs v w /.
Arguments set_obeys_term v w /.
Arguments set_queue v w /.
Arguments set_captured v w /.
Arguments set_tmp_chat_path v w /.
Arguments set_ppp_process v w /.
Arguments set_last_signal_info v w /.
Arguments set_log v w /.

Inductive outcome (A : Type) :=
  | Ret (a : A) (w : world)
  | Raise (e : exn) (w : world)
  | OutOfFuel.
Arguments Ret {A} a w.
Arguments Raise {A} e w.
Arguments OutOfFuel {A}.

Definition M (A : Type) := world -> outcome A.

Definition ret {A} (a : A) : M A := fun w => Ret a w.

Definition bind {A B} (c : M A) (k : A -> M B) : M B :=
  fun w =>
    match c w with
    | Ret a w' => k a w'
    | Raise e w' => Raise e w'
    | OutOfFuel => OutOfFuel
    end.

Declare Scope py_scope.
Delimit Scope py_scope with py.
Notation "x <- c ;; k" := (bind c (fun x => k))
  (at level 100, c at next level, right associativity) : py_scope.
Notation "c ;; k" := (bind c (fun _ => k))
  (at level 100, right associativity) : py_scope.
Open Scope py_scope.

Definition raise {A} (e : exn) : M A := fun w => Raise e w.

(** [try: body except Exception as e: h(e)]: [KeyboardInterrupt] and
    [SystemExit] are not instances of [Exception] and pass through. *)
Definition try_except {A} (body : M A) (h : string -> M A) : M A :=
  fun w =>
    match body w with
    | Raise (Error msg) w' => h msg w'
    | r => r
    end.

(** [try: body finally: fin] *)
Definition try_finally {A} (body : M A) (fin : M unit) : M A :=
  fun w =>
    match body w with
    | Ret a w' => (fin ;; ret a) w'
    | Raise e w' => (fin ;; raise e) w'
    | OutOfFuel => OutOfFuel
    end.

Definition emit (a : action) : M unit :=
  fun w => Ret tt (set_log (a :: log w) w).

Definition time_time : M Z := fun w => Ret (now w) w.

(** ** Files and external commands *)

Definition file_exists (p : string) (w : world) : bool :=
  existsb (String.eqb p) (files w).

Definition os_path_exists (p : string) : M bool :=
  fun w => Ret (file_exists p w) w.

(** [os.remove(p)] raises [FileNotFoundError] when [p] does not exist.  The
    paths of the model are paths of regular files: [os.remove] of a
    directory, which raises as well, is outside it. *)
Definition os_remove (p : string) : M unit :=
  fun w =>
    if file_exists p w
    then Ret tt (set_log (Remove p :: log w)
                   (set_files (filter (fun q => negb (String.eqb p q)) (files w)) w))
    else Raise (Error "FileNotFoundError") w.

(** [subprocess.run(argv, stderr=DEVNULL)], result ignored.  The command is
    recorded; what it does to the system is outside the model: the processes
    that [pkill] and [poff] stop and the lock file that [rm] removes are not
    followed, so [files] and [procs] say nothing about them. *)
Definition subprocess_run (argv : list string) : M unit := emit (Run argv).

(** [subprocess.run(argv, capture_output=True, text=True)]: return code and
    standard output. *)
Definition subprocess_run_captured (argv : list string) : M (Z * pystr) :=
  fun w =>
    let w1 := set_log (Run argv :: log w) w in
    match captured w with
    | r :: rest => Ret r (set_captured rest w1)
    | [] => Ret (1, []) w1
    end.

(** Truth value of [path and ...] for a path that may be [None]. *)
Definition truthy_path (p : option string) : option string :=
  match p with
  | Some path => if String.eqb path "" then None else Some path
  | None => None
  end.

(** ** Teardown of the persistent script, and its signal handler *)

(** [if tmp_chat_path and os.path.exists(tmp_chat_path):
    os.remove(tmp_chat_path)], the last step of both teardown routines. *)
Definition remove_chat_script (tmp_chat_path : option string) : M unit :=
  match truthy_path tmp_chat_path with
  | Some path =>
      e <- os_path_exists path ;;
      if e then os_remove path else ret tt
  | None => ret tt
  end.

Definition load_tmp_chat_path : M (option string) :=
  fun w => Ret (tmp_chat_path w) w.

Definition cleanup_connection : M unit :=
  subprocess_run ["sudo"; "poff"; "-a"]%string ;;
  subprocess_run ["sudo"; "pkill"; "-f"; "pppd"]%string ;;
  path <- load_tmp_chat_path ;;
  remove_chat_script path.

Definition sys_exit {A} (code : Z) : M A := raise (SystemExit code).

Definition signal_handler : M unit :=
  cleanup_connection ;; sys_exit 0.

(** ** Blocking calls and signal delivery

    A signal is delivered during a blocking call of the main thread: with
    [signal_handler] installed the handler runs there, otherwise Python
    raises [KeyboardInterrupt] there. *)

Definition blocking_call : M unit :=
  fun w =>
    let w' := set_blocked (S (blocked w)) w in
    match sigint_at w with
    | Some n =>
        if Nat.eqb n (blocked w)
        then if handler w then signal_handler w' else Raise KeyboardInterrupt w'
        else Ret tt w'
    | None => Ret tt w'
    end.

(** [time.sleep(ms / 1000)] *)
Definition sleep (ms : Z) : M unit :=
  blocking_call ;;
  fun w => Ret tt (set_log (Sleep ms :: log w) (set_now (now w + ms) w)).

(** ** The serial device *)

Definition serial_open : M unit :=
  fun w =>
    if can_open w
    then Ret tt (set_log (SerialOpen :: log w) (set_handles (S (handles w)) w))
    else Raise (Error "SerialException") w.

Definition ser_close : M unit :=
  fun w => Ret tt (set_log (SerialClose :: log w) (set_handles (pred (handles w)) w)).

Definition ser_write (data : string) : M unit := emit (SerialWrite data).

(** [ser.read(ser.in_waiting)], empty when nothing is waiting. *)
Definition ser_read_waiting : M (list byte) :=
  fun w =>
    match wire w with
    | [] => Ret [] w
    | Bytes bs :: rest => Ret bs (set_wire rest w)
    | Broken :: rest => Raise (Error "SerialException") (set_wire rest w)
    end.

(** ** The AT channel (the same function in both scripts) *)

Definition has_final_token (response : pystr) : bool :=
  contains (lit "OK") response || contains (lit "ERROR") response.

(** The [while time.time() - start_time < timeout] loop of
    [send_at_command]; [h] is the error handler given to [decode]. *)
Fixpoint read_response (h : errors) (fuel : nat) (start_time timeout : Z)
    (response : pystr) : M pystr :=
  match fuel with
  | O => fun _ => OutOfFuel
  | S fuel' =>
      t <- time_time ;;
      if t - start_time <? timeout then
        bs <- ser_read_waiting ;;
        match bs with
        | [] => sleep 100 ;; read_response h fuel' start_time timeout response
        | _ :: _ =>
            let response' := (response ++ decode h bs)%list in
            if has_final_token response' then ret response'
            else sleep 100 ;; read_response h fuel' start_time timeout response'
        end
      else ret response
  end.

(** The line ending ["\r\n"]. *)
Definition CRLF : string := String "013" (String "010" EmptyString).

Definition send_at_command_with (h : errors) (fuel : nat) (command : string)
    (timeout : Z) : M pystr :=
  ser_write (command ++ CRLF) ;;
  sleep 200 ;;
  start_time <- time_time ;;
  response <- read_response h fuel start_time timeout [] ;;
  ret (strip response).

(** [send_at_command(ser, command, timeout)]: the source decodes with
    [errors='ignore']. *)
Definition send_at_command : nat -> string -> Z -> M pystr :=
  send_at_command_with Ignore.

(** The channel as the specification words it: invalid sequences are
    replaced. *)
Definition send_at_command_replacing : nat -> string -> Z -> M pystr :=
  send_at_command_with Replace.

(** ** Signal quality *)

(** The bucket chain of [get_signal_strength_at_init]. *)
Definition classify (rssi : Z) : signal_info :=
  if rssi =? 99 then (Some 99, "No Signal", "❌")%string
  else if rssi <? 10 then (Some rssi, "Poor", "⚠️")%string
  else if rssi <? 15 then (Some rssi, "Fair", "⚙️")%string
  else if rssi <? 20 then (Some rssi, "Good", "✓")%string
  else (Some rssi, "Excellent", "✓✓")%string.

(** [int(response.split("+CSQ:")[1].split(",")[0].strip())] *)
Definition parse_rssi (response : pystr) : M Z :=
  match nth_error (split (lit "+CSQ:") response) 1 with
  | None => raise (Error "IndexError")
  | Some after =>
      match nth_error (split (lit ",") after) 0 with
      | None => raise (Error "IndexError")
      | Some field =>
          match py_int (strip field) with
          | None => raise (Error "ValueError")
          | Some rssi => ret rssi
          end
      end
  end.

Definition rssi_of (i : signal_info) : option Z := fst (fst i).
Definition quality_of (i : signal_info) : string := snd (fst i).

(** What [get_signal_strength_at_init] does with the response. *)
Definition signal_of_response (response : pystr) : M signal_info :=
  if contains (lit "+CSQ:") response then
    rssi <- parse_rssi response ;;
    ret (classify rssi)
  else ret (None, "Unknown", "?")%string.

(** [get_signal_strength_at_init(device)].  The tuple of the [except] branch
    is [(None, f"Error: {e}", "?")]; the text of [e] is not computed by the
    model, see [exn]. *)
Definition get_signal_strength_at_init (fuel : nat) : M signal_info :=
  try_except
    (serial_open ;;
     response <- send_at_command fuel "AT+CSQ" 5000 ;;
     ser_close ;;
     signal_of_response response)
    (fun e => ret (None, ("Error: " ++ e)%string, "?"%string)).

(** The signal check of the one-shot [initialize_modem]; [None] when the
    response carries no [+CSQ:]. *)
Definition report_signal (response : pystr) : option signal_report :=
  if contains (lit "+CSQ:") response then
    match nth_error (split (lit "+CSQ:") response) 1 with
    | None => Some CouldNotParse
    | Some after =>
        match nth_error (split (lit ",") after) 0 with
        | None => Some CouldNotParse
        | Some field =>
            match py_int (strip field) with
            | None => Some CouldNotParse
            | Some rssi =>
                if rssi =? 99 then Some NoSignalDetected
                else if rssi <? 10 then Some (WeakSignal rssi)
                else Some (SignalStrengthGood rssi)
            end
        end
    end
  else None.

(** ** Bring-up *)

Definition is_registered (response : pystr) : bool :=
  contains (lit "+CREG: 0,1") response || contains (lit "+CREG: 0,5") response.

Definition is_attached (response : pystr) : bool :=
  contains (lit "+CGATT: 1") response.

(** The registration loop, [while time.time() - start_time < max_wait]; the
    two scripts differ in the pause between polls.  [true] when the loop is
    left by [break]. *)
Fixpoint registration_wait (interval : Z) (fuel : nat) (start_time max_wait : Z)
    (loop_fuel : nat) : M bool :=
  match loop_fuel with
  | O => fun _ => OutOfFuel
  | S loop_fuel' =>
      t <- time_time ;;
      if t - start_time <? max_wait then
        response <- send_at_command fuel "AT+CREG?" 5000 ;;
        if is_registered response then ret true
        else sleep interval ;;
             registration_wait interval fuel start_time max_wait loop_fuel'
      else ret false
  end.

(** The attach loop, [for i in range(n)]; [true] when it is left on an
    attached response. *)
Fixpoint attach_confirm (fuel : nat) (n : nat) : M bool :=
  match n with
  | O => ret false
  | S n' =>
      response <- send_at_command fuel "AT+CGATT?" 5000 ;;
      if is_attached response then ret true
      else sleep 2000 ;; attach_confirm fuel n'
  end.


(** [try: body except KeyboardInterrupt: h] *)
Definition try_except_interrupt {A} (body : M A) (h : M A) : M A :=
  fun w =>
    match body w with
    | Raise KeyboardInterrupt w' => h w'
    | r => r
    end.

(** ** Processes, the output queue, the chat script *)

Definition set_proc (pid : nat) (st : pstate) (w : world) : world :=
  set_procs (firstn pid (procs w) ++
             match skipn pid (procs w) with
             | [] => []
             | _ :: rest => st :: rest
             end)%list w.

(** [process.poll() is None] *)
Definition still_running (pid : nat) : M bool :=
  fun w =>
    Ret match nth_error (procs w) pid with
        | Some Running => true
        | _ => false
        end w.

Definition subprocess_Popen (argv : list string) : M nat :=
  fun w =>
    Ret (List.length (procs w))
        (set_log (Popen argv :: log w) (set_procs (procs w ++ [Running]) w)).

(** [process.send_signal(signal.SIGTERM)] *)
Definition send_sigterm (pid : nat) : M unit :=
  fun w =>
    let w1 := set_log (Sigterm pid :: log w) w in
    Ret tt (if obeys_term w then set_proc pid Exited w1 else w1).

(** [process.kill()] *)
Definition kill (pid : nat) : M unit :=
  fun w => Ret tt (set_proc pid Exited (set_log (Kill pid :: log w) w)).

(** How long a [get] that yields a line has waited for it: not at all when
    the line was there already, and no longer than the half second of the
    timeout. *)
Definition get_wait (wait : Z) : Z := Z.max 0 (Z.min wait 500).

(** [output_queue.get(timeout=0.5)] in the supervisor of process [pid]: a
    line comes as soon as it is there, which may be part-way through the
    half second; [None] is [queue.Empty], met after the half second; an exit
    of the process observed then is recorded. *)
Definition queue_get (pid : nat) : M (option pystr) :=
  blocking_call ;;
  fun w =>
    match queue w with
    | Got wait line :: rest =>
        Ret (Some line) (set_now (now w + get_wait wait) (set_queue rest w))
    | Empty exited :: rest =>
        let w1 := set_now (now w + 500) (set_queue rest w) in
        Ret None (if exited then set_proc pid Exited w1 else w1)
    | [] => Ret None (set_now (now w + 500) w)
    end.

Definition NL : string := String "010" EmptyString.

Definition chat_script (no_dialtone : bool) (apn : string) : string :=
  (NL ++ "TIMEOUT 10" ++ NL ++ "ABORT 'BUSY'" ++ NL ++ "ABORT 'NO CARRIER'" ++ NL ++
   "ABORT 'ERROR'" ++ NL ++
   (if no_dialtone then "ABORT 'NO DIALTONE'" ++ NL else "") ++
   "'' AT" ++ NL ++ "OK ATZ" ++ NL ++ "OK ATE0" ++ NL ++
   "OK 'AT+CGDCONT=1," ++ String "034" "IP" ++ String "034" "," ++
   String "034" apn ++ String "034" "'" ++ NL ++
   "OK ATD*99#" ++ NL ++ "TIMEOUT 30" ++ NL ++ "CONNECT ''" ++ NL)%string.

(** [tempfile.NamedTemporaryFile(mode="w", delete=False)], written and
    closed. *)
Definition named_temporary_file (content : string) : M string :=
  fun w =>
    let path := fresh w in
    Ret path (set_log (CreateFile path content :: log w)
                (set_files (path :: files w) w)).

Definition clean_environment : M unit :=
  subprocess_run ["sudo"; "pkill"; "-f"; "pppd"]%string ;;
  sleep 1000 ;;
  subprocess_run ["sudo"; "rm"; "-f"; "/var/lock/LCK..ttyS0"]%string.

Module OneShot.

(** Steps 1 to 3 of [initialize_modem]: open the device, reset, echo off,
    signal check. *)
Definition check_in (fuel : nat) : M unit :=
  serial_open ;;
  sleep 1000 ;;
  _ <- send_at_command fuel "ATZ" 5000 ;;
  _ <- send_at_command fuel "ATE0" 5000 ;;
  response <- send_at_command fuel "AT+CSQ" 5000 ;;
  match report_signal response with
  | Some r => emit (Report r)
  | None => ret tt
  end.

(** The steps of [initialize_modem] after registration: attach, confirm,
    operator query. *)
Definition attach_phase (fuel : nat) : M bool :=
  _ <- send_at_command fuel "AT+CGATT=1" 30000 ;;
  attached <- attach_confirm fuel 10 ;;
  if negb attached then ser_close ;; ret false
  else
    _ <- send_at_command fuel "AT+COPS?" 5000 ;;
    ser_close ;;
    sleep 1000 ;;
    ret true.

(** The [try] block of [initialize_modem]. *)
Definition bring_up (fuel : nat) (max_wait : Z) : M bool :=
  check_in fuel ;;
  start_time <- time_time ;;
  registered <- registration_wait 2000 fuel start_time max_wait fuel ;;
  if negb registered then ser_close ;; ret false
  else attach_phase fuel.

(** [initialize_modem(device, max_wait)] of the one-shot script. *)
Definition initialize_modem (fuel : nat) (max_wait : Z) : M bool :=
  try_except (bring_up fuel max_wait) (fun _ => ret false).

(** The [try] block of [cleanup_ppp]: SIGTERM, two seconds, then SIGKILL
    if the process is still there. *)
Definition terminate (process : option nat) : M unit :=
  match process with
  | Some pid =>
      alive <- still_running pid ;;
      if alive then
        send_sigterm pid ;;
        sleep 2000 ;;
        alive' <- still_running pid ;;
        if alive' then kill pid else ret tt
      else ret tt
  | None => ret tt
  end.

(** [cleanup_ppp(process, tmp_chat_path, stop_event)] *)
Definition cleanup_ppp (process : option nat) (tmp_chat_path : option string)
    (stop_event : bool) : M unit :=
  (if stop_event then emit StopReader else ret tt) ;;
  try_except (terminate process) (fun _ => ret tt) ;;
  subprocess_run ["sudo"; "poff"; "-a"]%string ;;
  subprocess_run ["sudo"; "pkill"; "-f"; "pppd"]%string ;;
  subprocess_run ["sudo"; "rm"; "-f"; "/var/lock/LCK..ttyS0"]%string ;;
  remove_chat_script tmp_chat_path.

Definition is_link_up (line : pystr) : bool :=
  contains (lit "Connect: ppp0") line.

Definition is_ip_assigned (line : pystr) : bool :=
  contains (lit "local  IP address") line ||
  contains (lit "remote IP address") line.

Definition is_lcp_failure (line : pystr) : bool :=
  contains (lit "LCP: timeout") line || contains (lit "LCP terminated") line.

Definition is_script_failure (line : pystr) : bool :=
  contains (lit "Connect script failed") line.

(** The [while time.time() < timeout] loop of [start_ppp]; the result is the
    pair [(connected, ip_assigned)] when the loop is left. *)
Fixpoint wait_for_link (pid : nat) (timeout : Z) (connected ip_assigned : bool)
    (fuel : nat) : M (bool * bool) :=
  match fuel with
  | O => fun _ => OutOfFuel
  | S fuel' =>
      t <- time_time ;;
      if t <? timeout then
        item <- queue_get pid ;;
        match item with
        | Some line =>
            let connected := if is_link_up line then true else connected in
            if is_ip_assigned line then ret (connected, true)
            else if is_lcp_failure line then ret (connected, ip_assigned)
            else if is_script_failure line then ret (connected, ip_assigned)
            else wait_for_link pid timeout connected ip_assigned fuel'
        | None =>
            running <- still_running pid ;;
            if negb running then ret (connected, ip_assigned)
            else wait_for_link pid timeout connected ip_assigned fuel'
        end
      else ret (connected, ip_assigned)
  end.

Definition ppp_cmd (tmp_chat_path : string) : list string :=
  ["sudo"; "pppd"; "/dev/ttyS0"; "9600"; "connect";
   "chat -v -f " ++ tmp_chat_path; "noauth"; "defaultroute";
   "replacedefaultroute"; "usepeerdns"; "persist"; "maxfail"; "3";
   "holdoff"; "10"; "nocrtscts"; "local"; "debug"; "nodetach"]%string.

(** The advisory reports and probes after a successful negotiation. *)
Definition diagnostics : M unit :=
  _ <- subprocess_run_captured ["ifconfig"; "ppp0"]%string ;;
  _ <- subprocess_run_captured ["ip"; "route"; "show"]%string ;;
  _ <- subprocess_run_captured ["cat"; "/etc/resolv.conf"]%string ;;
  ping <- subprocess_run_captured
            ["ping"; "-I"; "ppp0"; "-c"; "3"; "-W"; "5"; "8.8.8.8"]%string ;;
  if contains (lit "bytes from") (snd ping) ||
     contains (lit "0% packet loss") (snd ping)
  then _ <- subprocess_run_captured
              ["ping"; "-I"; "ppp0"; "-c"; "2"; "-W"; "5"; "google.com"]%string ;;
       ret tt
  else ret tt.

(** [start_ppp(apn)]: the process and the chat-script path on success,
    [None] on failure. *)
Definition start_ppp (fuel : nat) (apn : string) : M (option (nat * string)) :=
  ok <- initialize_modem fuel 60000 ;;
  if negb ok then ret None
  else
    tmp_chat_path <- named_temporary_file (chat_script true apn) ;;
    clean_environment ;;
    process <- subprocess_Popen (ppp_cmd tmp_chat_path) ;;
    t <- time_time ;;
    r <- wait_for_link process (t + 90000) false false fuel ;;
    if negb (fst r) || negb (snd r) then
      emit StopReader ;;
      cleanup_ppp (Some process) (Some tmp_chat_path) false ;;
      ret None
    else
      sleep 8000 ;;
      diagnostics ;;
      ret (Some (process, tmp_chat_path)).

(** The script body under [if __name__ == "__main__"]. *)
Definition main (fuel : nat) : M unit :=
  r <- start_ppp fuel "airtelgprs.com" ;;
  match r with
  | Some (ppp_process, chat_file) =>
      try_finally
        (try_except_interrupt (sleep 60000) (ret tt))
        (cleanup_ppp (Some ppp_process) (Some chat_file) true)
  | None => ret tt
  end.

End OneShot.

Module Service.

Definition store_last_signal_info (info : signal_info) : M unit :=
  fun w => Ret tt (set_last_signal_info info w).

(** The first steps of [initialize_modem]: open the device, reset, echo
    off, and the signal check, whose result is stored in the global
    [last_signal_info]. *)
Definition check_in (fuel : nat) : M unit :=
  serial_open ;;
  sleep 1000 ;;
  _ <- send_at_command fuel "ATZ" 5000 ;;
  _ <- send_at_command fuel "ATE0" 5000 ;;
  info <- get_signal_strength_at_init fuel ;;
  store_last_signal_info info.

(** The steps of [initialize_modem] after registration: operator query,
    attach, confirm. *)
Definition attach_phase (fuel : nat) : M bool :=
  _ <- send_at_command fuel "AT+COPS?" 5000 ;;
  _ <- send_at_command fuel "AT+CGATT=1" 30000 ;;
  attached <- attach_confirm fuel 10 ;;
  if attached then ser_close ;; ret true
  else ser_close ;; ret false.

(** The [try] block of [initialize_modem]. *)
Definition bring_up (fuel : nat) (max_wait : Z) : M bool :=
  check_in fuel ;;
  start_time <- time_time ;;
  registered <- registration_wait 5000 fuel start_time max_wait fuel ;;
  if negb registered then ser_close ;; ret false
  else attach_phase fuel.

(** [initialize_modem(device, max_wait)] of the persistent script. *)
Definition initialize_modem (fuel : nat) (max_wait : Z) : M bool :=
  try_except (bring_up fuel max_wait) (fun _ => ret false).

Definition ppp_cmd (tmp_chat_path : string) : list string :=
  ["sudo"; "pppd"; "/dev/ttyS0"; "9600"; "connect";
   "chat -v -f " ++ tmp_chat_path; "noauth"; "defaultroute";
   "replacedefaultroute"; "usepeerdns"; "persist"; "maxfail"; "0";
   "holdoff"; "30"; "nocrtscts"; "local"; "logfile"; "/var/log/pppd.log"]%string.

(** [test_ping_with_latency()]: only whether the probe succeeded is kept. *)
Definition test_ping_with_latency : M bool :=
  r <- subprocess_run_captured
         ["ping"; "-I"; "ppp0"; "-c"; "1"; "-W"; "3"; "8.8.8.8"]%string ;;
  ret (fst r =? 0).

(** [get_uptime()] and [get_connection_stats()]: each runs one external
    command and reads its output; the values read are not kept here. *)
Definition get_uptime : M unit :=
  _ <- subprocess_run_captured ["ps"; "-eo"; "pid,etime,cmd"]%string ;;
  ret tt.

Definition get_connection_stats : M bool :=
  r <- subprocess_run_captured ["ifconfig"; "ppp0"]%string ;;
  ret (fst r =? 0).

(** The [for i in range(n)] loop of [start_persistent_connection]. *)
Fixpoint wait_for_interface (n : nat) : M bool :=
  match n with
  | O => ret false
  | S n' =>
      sleep 2000 ;;
      result <- subprocess_run_captured ["ifconfig"; "ppp0"]%string ;;
      if (fst result =? 0) && contains (lit "inet ") (snd result) then
        _ <- test_ping_with_latency ;;
        ret true
      else wait_for_interface n'
  end.

Definition store_tmp_chat_path (path : string) : M unit :=
  fun w => Ret tt (set_tmp_chat_path (Some path) w).

Definition store_ppp_process (pid : nat) : M unit :=
  fun w => Ret tt (set_ppp_process (Some pid) w).

(** [signal.signal(SIGTERM, signal_handler)] and the same for [SIGINT]. *)
Definition install_handler : M unit :=
  fun w => Ret tt (set_handler true w).

(** [start_persistent_connection(apn, device)] *)
Definition start_persistent_connection (fuel : nat) (apn : string) : M bool :=
  ok <- initialize_modem fuel 60000 ;;
  if negb ok then ret false
  else
    path <- named_temporary_file (chat_script false apn) ;;
    store_tmp_chat_path path ;;
    clean_environment ;;
    process <- subprocess_Popen (ppp_cmd path) ;;
    store_ppp_process process ;;
    wait_for_interface 30.

(** [print_status_line(..., last_signal_info, ...)]: the line shows the
    cached signal reading. *)
Definition print_status_line : M unit :=
  fun w =>
    let '(rssi, quality, icon) := last_signal_info w in
    emit (StatusLine rssi quality icon) w.

(** One turn of the [while True] monitor loop, with its line counter. *)
Definition monitor_tick (line_counter : nat) : M nat :=
  get_uptime ;;
  _ <- get_connection_stats ;;
  _ <- test_ping_with_latency ;;
  print_status_line ;;
  let line_counter := S line_counter in
  let line_counter := if Nat.leb 20 line_counter then O else line_counter in
  sleep 30000 ;;
  ret line_counter.

(** The first [n] turns of the monitor loop. *)
Fixpoint monitor_ticks (n : nat) (line_counter : nat) : M nat :=
  match n with
  | O => ret line_counter
  | S n' =>
      line_counter' <- monitor_tick line_counter ;;
      monitor_ticks n' line_counter'
  end.

(** The monitor loop has no exit of its own: the model follows [ticks]
    turns of it and then gives up. *)
Definition monitor_loop (ticks : nat) (line_counter : nat) : M unit :=
  _ <- monitor_ticks ticks line_counter ;;
  fun _ => OutOfFuel.

(** The script body under [if __name__ == "__main__"]. *)
Definition main (fuel ticks : nat) : M unit :=
  install_handler ;;
  ok <- start_persistent_connection fuel "airtelgprs.com" ;;
  if ok then
    try_except_interrupt (monitor_loop ticks 0) cleanup_connection
  else
    cleanup_connection ;;
    sys_exit 1.

End Service.

(** ** Scenarios *)

(** The state of the globals and of the system when a script starts: the
    device can be opened, nothing is on the line, no signal will arrive. *)
Definition boot : world :=
  mkWorld 0 0 None false true [] 0 [] "/tmp/tmpq1w2e3" [] true [] [] None None
          (None, "Unknown", "?")%string [].

(** A modem answer that arrives whole at one poll. *)
Definition reply (text : string) : rx := Bytes (bytes_of text).

(** A modem that answers every command of the one-shot bring-up at once:
    registered, attached. *)
Definition cooperative_line : list rx :=
  [reply "OK"; reply "OK"; reply "+CSQ: 18,0 OK"; reply "+CREG: 0,1 OK";
   reply "OK"; reply "+CGATT: 1 OK"; reply "+COPS: 0 OK"].

(** The same for the persistent script, which asks for the operator before
    attaching. *)
Definition cooperative_line_service : list rx :=
  [reply "OK"; reply "OK"; reply "+CSQ: 18,0 OK"; reply "+CREG: 0,1 OK";
   reply "+COPS: 0 OK"; reply "OK"; reply "+CGATT: 1 OK"].

(** A modem that keeps searching: every registration query is answered
    [+CREG: 0,2]. *)
Definition searching_line (n : nat) : list rx :=
  [reply "OK"; reply "OK"; reply "+CSQ: 18,0 OK"] ++
  repeat (reply "+CREG: 0,2 OK") n.

(** The effects of a run, oldest first. *)
Definition history (w : world) : list action := rev (log w).

Definition final_world {A} (r : outcome A) : option world :=
  match r with
  | Ret _ w => Some w
  | Raise _ w => Some w
  | OutOfFuel => None
  end.

(** ** Relations between the world before and after a computation *)

(** Only the clock, the count of blocking calls, the serial line and the
    log have changed, and time has not gone back. *)
Definition only_serial (w w' : world) : Prop :=
  sigint_at w' = sigint_at w /\ handler w' = handler w /\
  can_open w' = can_open w /\ handles w' = handles w /\
  files w' = files w /\ fresh w' = fresh w /\ procs w' = procs w /\
  obeys_term w' = obeys_term w /\ queue w' = queue w /\
  captured w' = captured w /\ tmp_chat_path w' = tmp_chat_path w /\
  ppp_process w' = ppp_process w /\
  last_signal_info w' = last_signal_info w /\ now w <= now w'.

Definition is_error (e : exn) : Prop := exists msg, e = Error msg.

(** The actions performed between [w] and [w'], newest first. *)
Definition performed (w w' : world) (delta : list action) : Prop :=
  log w' = (delta ++ log w)%list.

(** What a computation on the serial line may end in, when it has fuel:
    a result, a transport error, or a signal. *)
Definition serial_outcome {A} (w : world) (r : outcome A)
    (post : A -> world -> Prop) : Prop :=
  match r with
  | Ret a w' => only_serial w w' /\ post a w'
  | Raise e w' => is_error e \/ sigint_at w <> None
  | OutOfFuel => False
  end.

(** The text decoded from the first [n] polls of a line. *)
Definition accumulated (h : errors) (chunks : list (list byte)) (n : nat) : pystr :=
  List.concat (map (decode h) (firstn n chunks)).

(** ** Unrolled loops of bring-up *)

(** [failed_attempts fuel k w w']: from [w], [k] attach-status queries in a
    row were answered without [+CGATT: 1], each followed by the pause of
    2 s, and left the world [w']. *)
Inductive failed_attempts (fuel : nat) : nat -> world -> world -> Prop :=
  | failed_attempts_0 w : failed_attempts fuel 0 w w
  | failed_attempts_S k w response w1 w2 w3 :
      send_at_command fuel "AT+CGATT?" 5000 w = Ret response w1 ->
      is_attached response = false ->
      sleep 2000 w1 = Ret tt w2 ->
      failed_attempts fuel k w2 w3 ->
      failed_attempts fuel (S k) w w3.

(** [failed_polls interval fuel start_time max_wait k w w']: from [w], [k]
    registration queries in a row were each started before the deadline,
    answered without a registered status and followed by the pause of
    [interval]. *)
Inductive failed_polls (interval : Z) (fuel : nat) (start_time max_wait : Z) :
    nat -> world -> world -> Prop :=
  | failed_polls_0 w : failed_polls interval fuel start_time max_wait 0 w w
  | failed_polls_S k w response w1 w2 w3 :
      now w - start_time < max_wait ->
      send_at_command fuel "AT+CREG?" 5000 w = Ret response w1 ->
      is_registered response = false ->
      sleep interval w1 = Ret tt w2 ->
      failed_polls interval fuel start_time max_wait k w2 w3 ->
      failed_polls interval fuel start_time max_wait (S k) w w3.

(** The world after [serial.Serial(device, ...)] has opened the device. *)
Definition opened (w : world) : world :=
  set_log (SerialOpen :: log w) (set_handles (S (handles w)) w).

(** The world after [ser.close()]. *)
Definition closed (w : world) : world :=
  set_log (SerialClose :: log w) (set_handles (pred (handles w)) w).

(** No signal will arrive and the line has no transport error. *)
Definition quiet_line (w : world) : Prop :=
  sigint_at w = None /\ exists chunks, wire w = map Bytes chunks.

(** The data written to the serial device, in order. *)
Definition writes (h : list action) : list string :=
  flat_map (fun a => match a with SerialWrite d => [d] | _ => [] end) h.

(** The pauses other than those of the AT channel itself, in order. *)
Definition pauses (h : list action) : list Z :=
  flat_map (fun a =>
              match a with
              | Sleep ms => if (ms =? 200) || (ms =? 100) then [] else [ms]
              | _ => []
              end) h.

(** ** Items of the output queue, as the supervisor's wait sorts them *)

Definition link_up_item (q : qres) : bool :=
  match q with Got _ line => OneShot.is_link_up line | Empty _ => false end.

Definition ip_item (q : qres) : bool :=
  match q with Got _ line => OneShot.is_ip_assigned line | Empty _ => false end.

(** A line with one of the three failure texts. *)
Definition is_failure_line (line : pystr) : bool :=
  OneShot.is_lcp_failure line || OneShot.is_script_failure line.

(** A failure line without an IP-assignment text, or the queue found empty
    with the process gone. *)
Definition failure_item (q : qres) : bool :=
  match q with
  | Got _ line => negb (OneShot.is_ip_assigned line) && is_failure_line line
  | Empty exited => exited
  end.

Definition stops (q : qres) : bool := ip_item q || failure_item q.

(** The time one [get] takes, and the time a run of them takes. *)
Definition item_time (q : qres) : Z :=
  match q with Got wait _ => get_wait wait | Empty _ => 500 end.

Definition elapsed (items : list qres) : Z :=
  fold_right (fun q t => item_time q + t) 0 items.

(** Process [pid] has been spawned and has not exited. *)
Definition running (pid : nat) (w : world) : Prop :=
  nth_error (procs w) pid = Some Running.

(** The world after [os.remove(path)] of an existing file. *)
Definition removed (path : string) (w : world) : world :=
  set_log (Remove path :: log w)
    (set_files (filter (fun q => negb (String.eqb path q)) (files w)) w).

Definition is_remove (a : action) : bool :=
  match a with Remove _ => true | _ => false end.

Definition is_signal (a : action) : bool :=
  match a with Sigterm _ | Kill _ => true | _ => false end.

(** A world in which negotiation is under way: the chat script exists and
    the negotiation process runs and ignores SIGTERM. *)
Definition negotiating : world :=
  set_obeys_term false
    (set_procs [Running] (set_files ["/tmp/tmpq1w2e3"%string] boot)).

(** ** Relations kept by every step of a computation *)

(** [c] takes every world to one related to it by [R], whether it returns or
    raises. *)
Definition respects (R : world -> world -> Prop) {A} (c : M A) : Prop :=
  forall w,
    match c w with
    | Ret _ w' => R w w'
    | Raise _ w' => R w w'
    | OutOfFuel => True
    end.


(** An action that neither opens nor writes to the serial device, and that
    shows the reading [info] if it is a status line. *)
Definition off_the_radio (info : signal_info) (a : action) : Prop :=
  match a with
  | SerialOpen | SerialWrite _ => False
  | StatusLine rssi quality icon => (rssi, quality, icon) = info
  | _ => True
  end.

(** The cached signal reading is unchanged, the radio was not queried, and
    every status line printed shows the cached reading. *)
Definition snapshot_kept (w w' : world) : Prop :=
  last_signal_info w' = last_signal_info w /\
  exists delta,
    performed w w' delta /\ Forall (off_the_radio (last_signal_info w)) delta.

Definition is_close (a : action) : bool :=
  match a with SerialClose => true | _ => false end.

(** The output of a negotiation that succeeds. *)
Definition good_negotiation : list qres :=
  [Got 0 (lit "Connect: ppp0 <--> /dev/ttyS0"); Empty false;
   Got 0 (lit "local  IP address 10.64.64.64")].

(** A run ended, by return or exception, with the chat script removed. *)
Definition chat_script_gone {A} (r : outcome A) : bool :=
  match r with
  | Ret _ w' | Raise _ w' =>
      existsb is_remove (log w') && negb (file_exists "/tmp/tmpq1w2e3" w')
  | OutOfFuel => false
  end.

(** What the capturing commands print while the interface comes up: no
    address at first, then one. *)
Definition interface_comes_up : list (Z * pystr) :=
  [(1, []); (0, lit "inet 10.64.64.64")].

(** ** Further functions of the two scripts *)

(** [read_pppd_output(process, output_queue, stop_event)], the reader thread
    of the one-shot script, as the list of lines it puts on the queue.  Each
    turn of its loop is given by whether [stop_event] is found set and by
    what [process.stdout.readline()] gives then: [Bytes []] at the end of the
    stream, [Broken] when it raises.  Decoding with [errors='replace'] does
    not raise, so the fallback to latin-1 is never taken. *)
Fixpoint read_pppd_output (reads : list (bool * rx)) : list pystr :=
  match reads with
  | [] => []
  | (stop, r) :: rest =>
      if stop then []
      else
        match r with
        | Broken => []
        | Bytes [] => []
        | Bytes (b :: bs) =>
            match strip (decode Replace (b :: bs)) with
            | [] => read_pppd_output rest
            | c :: line => (c :: line) :: read_pppd_output rest
            end
        end
  end.

(** The test of [start_persistent_connection] on a result of [ifconfig ppp0]:
    [result.returncode == 0 and "inet " in result.stdout]. *)
Definition interface_up (result : Z * pystr) : bool :=
  (fst result =? 0) && contains (lit "inet ") (snd result).

(** The status lines printed, counted. *)
Definition status_lines (h : list action) : nat :=
  List.length
    (filter (fun a => match a with StatusLine _ _ _ => true | _ => false end) h).

(** The signals sent to processes, in order. *)
Definition signals (h : list action) : list action :=
  filter is_signal h.

(** Between [w] and [w'] nothing was written to the serial device. *)
Definition no_write (w w' : world) : Prop :=
  exists delta, performed w w' delta /\ writes delta = [].

(** Only the modem side has changed: the clock, the count of blocking calls,
    the serial line and its handles, the cached signal reading and the
    log.  Time has not gone back. *)
Definition only_modem (w w' : world) : Prop :=
  sigint_at w' = sigint_at w /\ handler w' = handler w /\
  can_open w' = can_open w /\
  files w' = files w /\ fresh w' = fresh w /\ procs w' = procs w /\
  obeys_term w' = obeys_term w /\ queue w' = queue w /\
  captured w' = captured w /\ tmp_chat_path w' = tmp_chat_path w /\
  ppp_process w' = ppp_process w /\ now w <= now w'.






(** * Properties *)

Example split_csq :
  split (lit "+CSQ:") (lit "+CSQ: 18,0 OK") = [ []; lit " 18,0 OK" ].
Proof. reflexivity. Qed.

Example split_overlap : split (lit "aa") (lit "aaa") = [ []; lit "a" ].
Proof. reflexivity. Qed.

Example py_int_samples :
  py_int (lit " 18") = Some 18 /\ py_int (lit "-3") = Some (-3) /\
  py_int (lit "1_0") = Some 10 /\ py_int (lit "1__0") = None /\
  py_int (lit "") = None /\ py_int (lit "9x") = None /\
  py_int [1633; 1640]%N = Some 18 /\ py_int [49; 1632]%N = Some 10 /\
  py_int [45; 65297; 65304]%N = Some (-18) /\
  py_int [160; 49; 56; 11]%N = Some 18 /\ py_int [28; 49; 56]%N = None /\
  py_int (repeat 48%N 4300) = Some 0 /\ py_int (repeat 48%N 4301) = None.
Proof. vm_compute. repeat split. Qed.

Example decode_samples :
  decode Ignore (bytes_of "OK") = lit "OK" /\
  decode Ignore [xff; x4f; x4b] = lit "OK" /\
  decode Replace [xff; x4f; x4b] = 65533%N :: lit "OK" /\
  decode Replace [xe2; x82; xac] = [8364%N] /\
  decode Replace [xe2; x28; xa1] = [65533; 40; 65533]%N /\
  decode Replace [xe2; x82] = [65533%N] /\
  decode Replace [xf0; x9f; x98; x80] = [128512%N] /\
  decode Ignore [xed; xa0; x80; x41] = [65%N].
Proof. repeat split; reflexivity. Qed.

Example crlf_codes : lit CRLF = [13; 10]%N.
Proof. reflexivity. Qed.

(** ** Signal classification *)

Lemma classify_rssi (rssi : Z) : rssi_of (classify rssi) = Some rssi.
Proof.
  unfold classify.
  destruct (rssi =? 99) eqn:E99; [apply Z.eqb_eq in E99; now subst|].
  destruct (rssi <? 10); [reflexivity|].
  destruct (rssi <? 15); [reflexivity|].
  destruct (rssi <? 20); reflexivity.
Qed.

Ltac bucket :=
  unfold classify, quality_of;
  repeat match goal with
         | |- context [?a =? ?b] =>
             destruct (Z.eqb_spec a b); try lia
         | |- context [?a <? ?b] =>
             destruct (Z.ltb_spec a b); try lia
         end;
  try reflexivity.

(** C1. For every reading in [0,31] or equal to 99 the bucket is fixed by
    the documented boundaries: 99 is no signal, below 10 poor, from 10 below
    15 fair, from 15 below 20 good, from 20 on excellent. *)
Theorem classify_boundaries (rssi : Z) (Hdom : 0 <= rssi <= 31 \/ rssi = 99) :
  rssi_of (classify rssi) = Some rssi /\
  (rssi = 99 -> quality_of (classify rssi) = "No Signal"%string) /\
  (rssi < 10 -> quality_of (classify rssi) = "Poor"%string) /\
  (10 <= rssi < 15 -> quality_of (classify rssi) = "Fair"%string) /\
  (15 <= rssi < 20 -> quality_of (classify rssi) = "Good"%string) /\
  (20 <= rssi <= 31 -> quality_of (classify rssi) = "Excellent"%string) /\
  (forall response w,
      parse_rssi response w = Ret rssi w ->
      contains (lit "+CSQ:") response = true ->
      signal_of_response response w = Ret (classify rssi) w).
Proof.
  split; [apply classify_rssi|].
  repeat split; intros; try solve [bucket].
  unfold signal_of_response, bind. rewrite H0, H. reflexivity.
Qed.

Lemma classify_boundaries_witness :
  (0 <= 14 <= 31 \/ 14 = 99) /\ quality_of (classify 14) = "Fair"%string.
Proof.
  split; [left; lia|].
  apply (classify_boundaries 14); [left; lia | lia].
Defined.

Example classify_samples :
  map (fun r => quality_of (classify r)) [9; 10; 14; 15; 19; 20; 31; 99] =
  ["Poor"; "Fair"; "Fair"; "Good"; "Good"; "Excellent"; "Excellent";
   "No Signal"]%string.
Proof. reflexivity. Qed.

Example signal_of_response_sample :
  signal_of_response (lit "+CSQ: 18,0 OK") boot = Ret (classify 18) boot.
Proof. reflexivity. Qed.

(** The coarser report of the one-shot script uses the same two lower
    boundaries. *)
Lemma report_signal_boundaries (response : pystr) (rssi : Z)
    (Hcsq : contains (lit "+CSQ:") response = true)
    (Hparse : parse_rssi response boot = Ret rssi boot) :
  report_signal response =
  Some (if rssi =? 99 then NoSignalDetected
        else if rssi <? 10 then WeakSignal rssi else SignalStrengthGood rssi).
Proof.
  unfold report_signal, parse_rssi in *. rewrite Hcsq.
  destruct (nth_error (split (lit "+CSQ:") response) 1); [|discriminate].
  destruct (nth_error (split (lit ",") p) 0); [|discriminate].
  destruct (py_int (strip p0)); [|discriminate].
  injection Hparse as ->.
  destruct (rssi =? 99); [reflexivity|]. destruct (rssi <? 10); reflexivity.
Qed.

(** ** Blocking calls, the serial line, the AT channel *)

Lemma only_serial_refl w : only_serial w w.
Proof. unfold only_serial; repeat split; try reflexivity; lia. Qed.

Lemma only_serial_trans w1 w2 w3 :
  only_serial w1 w2 -> only_serial w2 w3 -> only_serial w1 w3.
Proof.
  unfold only_serial; intros H1 H2.
  repeat match goal with H : _ /\ _ |- _ => destruct H end.
  repeat split; try congruence; lia.
Qed.

(** Case analysis on the innermost scrutinee of the goal. *)
Ltac case_step :=
  match goal with
  | |- context [match ?x with _ => _ end] =>
      lazymatch x with
      | context [match _ with _ => _ end] => fail
      | _ => destruct x eqn:?
      end
  end.

Ltac run_cases := repeat (cbn; case_step); cbn.

Lemma cleanup_connection_returns w :
  exists w', cleanup_connection w = Ret tt w'.
Proof.
  unfold cleanup_connection, bind, subprocess_run, emit, load_tmp_chat_path,
    remove_chat_script, os_path_exists, os_remove, ret, file_exists.
  run_cases; eauto; congruence.
Qed.

Lemma blocking_call_spec w :
  match blocking_call w with
  | Ret _ w' => w' = set_blocked (S (blocked w)) w
  | Raise e w' =>
      sigint_at w = Some (blocked w) /\
      (if handler w then e = SystemExit 0 else e = KeyboardInterrupt)
  | OutOfFuel => False
  end.
Proof.
  unfold blocking_call.
  destruct (sigint_at w) as [n|] eqn:Es; [|reflexivity].
  destruct (Nat.eqb_spec n (blocked w)) as [->|]; [|reflexivity].
  destruct (handler w); [|split; reflexivity].
  unfold signal_handler, bind, sys_exit, raise.
  destruct (cleanup_connection_returns (set_blocked (S (blocked w)) w)) as [w' ->].
  split; reflexivity.
Qed.

Lemma sleep_spec ms w :
  match sleep ms w with
  | Ret _ w' =>
      w' = set_log (Sleep ms :: log w)
             (set_now (now w + ms) (set_blocked (S (blocked w)) w))
  | Raise e w' => sigint_at w = Some (blocked w) /\ ~ is_error e
  | OutOfFuel => False
  end.
Proof.
  unfold sleep, bind. pose proof (blocking_call_spec w) as H.
  destruct (blocking_call w) as [[] w'|e w'|]; [subst; reflexivity| |exact H].
  destruct H as [H He]. split; [exact H|].
  intros [m ->]. destruct (handler w); discriminate.
Qed.

Lemma ser_read_waiting_spec w :
  match ser_read_waiting w with
  | Ret bs w' =>
      w' = set_wire (tl (wire w)) w /\
      match wire w with
      | Bytes bs' :: _ => bs = bs'
      | Broken :: _ => False
      | [] => bs = []
      end
  | Raise e w' => is_error e /\ hd (Bytes []) (wire w) = Broken
  | OutOfFuel => False
  end.
Proof.
  unfold ser_read_waiting.
  destruct (wire w) as [|[bs|] rest] eqn:E; cbn.
  - split; [|reflexivity]. destruct w; cbn in *; subst; reflexivity.
  - split; reflexivity.
  - split; [eexists; reflexivity|reflexivity].
Qed.

Lemma only_serial_step w w' :
  sigint_at w' = sigint_at w -> handler w' = handler w ->
  can_open w' = can_open w -> handles w' = handles w ->
  files w' = files w -> fresh w' = fresh w -> procs w' = procs w ->
  obeys_term w' = obeys_term w -> queue w' = queue w ->
  captured w' = captured w -> tmp_chat_path w' = tmp_chat_path w ->
  ppp_process w' = ppp_process w ->
  last_signal_info w' = last_signal_info w -> now w <= now w' ->
  only_serial w w'.
Proof. unfold only_serial; tauto. Qed.

Ltac frame := apply only_serial_step; cbn; try reflexivity; try lia.

Lemma read_response_safe h fuel : forall start_time timeout response w,
  (0 < fuel)%nat ->
  timeout - (now w - start_time) <= 100 * (Z.of_nat fuel - 1) ->
  serial_outcome w (read_response h fuel start_time timeout response w)
    (fun _ w' => now w' = now w \/ now w' < start_time + timeout + 100).
Proof.
  induction fuel as [|fuel IH]; intros start_time timeout response w Hpos Hfuel;
    [lia|].
  rewrite Nat2Z.inj_succ in Hfuel.
  cbn [read_response]. unfold bind at 1, time_time at 1.
  destruct (Z.ltb_spec (now w - start_time) timeout) as [Hlt|Hge];
    [|cbn; split; [apply only_serial_refl|left; reflexivity]].
  assert (Hrec : forall response',
      serial_outcome w
        ((sleep 100;; read_response h fuel start_time timeout response')
           (set_wire (tl (wire w)) w))
        (fun _ w' => now w' = now w \/ now w' < start_time + timeout + 100)).
  { intros response'. unfold bind.
    pose proof (sleep_spec 100 (set_wire (tl (wire w)) w)) as Hs.
    destruct (sleep 100 (set_wire (tl (wire w)) w)) as [[] w2|e w2|];
      [|right; destruct Hs as [Hs _]; cbn in Hs; congruence|exact Hs].
    assert (Hos : only_serial w w2) by (subst w2; frame).
    assert (Hnow : now w2 = now w + 100) by (subst w2; reflexivity).
    clear Hs.
    specialize (IH start_time timeout response' w2 ltac:(lia) ltac:(lia)).
    destruct (read_response h fuel start_time timeout response' w2)
      as [a w3|e w3|]; cbn in IH |- *; [| |exact IH].
    - destruct IH as [Hos' Ht]. split; [eapply only_serial_trans; eauto|lia].
    - destruct IH as [IH|IH]; [left; exact IH|right].
      destruct Hos as [Hs _]. congruence. }
  unfold bind.
  pose proof (ser_read_waiting_spec w) as Hr.
  destruct (ser_read_waiting w) as [bs w1|e w1|];
    [|left; apply Hr|exact Hr].
  destruct Hr as [-> _].
  destruct bs as [|b bs]; [apply Hrec|].
  destruct (has_final_token (response ++ decode h (b :: bs))).
  - split; [frame|left; reflexivity].
  - apply Hrec.
Qed.

Lemma send_at_command_safe h fuel command timeout w :
  0 <= timeout <= 100 * (Z.of_nat fuel - 1) ->
  serial_outcome w (send_at_command_with h fuel command timeout w)
    (fun _ w' => now w + 200 <= now w' < now w + timeout + 300).
Proof.
  intros Hfuel. unfold send_at_command_with, bind at 1, ser_write, emit.
  unfold bind at 1.
  pose proof (sleep_spec 200 (set_log (SerialWrite (command ++ CRLF) :: log w) w)) as Hs.
  destruct (sleep 200 _) as [[] w1|e w1|];
    [|right; destruct Hs as [Hs _]; cbn in Hs; congruence|exact Hs].
  assert (Hos : only_serial w w1) by (subst w1; frame).
  assert (Hnow : now w1 = now w + 200) by (subst w1; reflexivity).
  clear Hs.
  unfold bind at 1, time_time at 1. unfold bind.
  pose proof (read_response_safe h fuel (now w1) timeout [] w1 ltac:(lia) ltac:(lia)) as Hr.
  destruct (read_response h fuel (now w1) timeout [] w1) as [r w2|e w2|];
    cbn in Hr |- *; [| |exact Hr].
  - destruct Hr as [Hos' Ht]. split; [eapply only_serial_trans; eauto|].
    destruct Hos' as (_&_&_&_&_&_&_&_&_&_&_&_&_&Hle). lia.
  - destruct Hr as [Hr|Hr]; [left; exact Hr|right].
    destruct Hos as [Hs _]. congruence.
Qed.

(** ** The signal query never fails *)

Lemma signal_of_response_cases response w :
  (exists rssi, signal_of_response response w = Ret (classify rssi) w) \/
  signal_of_response response w = Ret (None, "Unknown", "?")%string w \/
  (exists msg, signal_of_response response w = Raise (Error msg) w).
Proof.
  unfold signal_of_response, parse_rssi, bind, raise, ret.
  destruct (contains (lit "+CSQ:") response); [|right; left; reflexivity].
  destruct (nth_error (split (lit "+CSQ:") response) 1) as [after|];
    [|right; right; eexists; reflexivity].
  destruct (nth_error (split (lit ",") after) 0) as [field|];
    [|right; right; eexists; reflexivity].
  destruct (py_int (strip field)) as [rssi|];
    [left; exists rssi; reflexivity|right; right; eexists; reflexivity].
Qed.

(** C10. The classification is defined on every integer, and every reading
    from 20 on other than 99 is excellent, also above 31.  The signal query
    returns a tuple whatever the line does, and which tuple is fixed by what
    happened: the classified reading when the response carries a reading
    that parses; [(None, "Unknown", "?")] when the response carries no
    [+CSQ:]; and [(None, "Error: ...", "?")] when the reading does not parse,
    when the device cannot be opened and when the line fails.  Only a signal
    delivered during the query leaves it by an exception. *)
Theorem signal_query_total (fuel : nat) (w : world) (Hfuel : (51 <= fuel)%nat) :
  (forall rssi, rssi_of (classify rssi) = Some rssi) /\
  (forall rssi, 20 <= rssi -> rssi <> 99 ->
     classify rssi = (Some rssi, "Excellent", "✓✓")%string) /\
  classify 45 = (Some 45, "Excellent", "✓✓")%string /\
  match get_signal_strength_at_init fuel w with
  | Ret info w' =>
      if can_open w then
        match send_at_command fuel "AT+CSQ" 5000 (opened w) with
        | Ret response w1 =>
            w' = closed w1 /\
            if contains (lit "+CSQ:") response then
              match parse_rssi response w' with
              | Ret rssi _ => info = classify rssi
              | Raise (Error msg) _ =>
                  info = (None, "Error: " ++ msg, "?")%string
              | _ => False
              end
            else info = (None, "Unknown", "?")%string
        | Raise (Error msg) w1 =>
            w' = w1 /\ info = (None, "Error: " ++ msg, "?")%string
        | _ => False
        end
      else
        w' = w /\ exists msg, info = (None, "Error: " ++ msg, "?")%string
  | Raise e w' => ~ is_error e /\ sigint_at w <> None
  | OutOfFuel => False
  end.
Proof.
  split; [apply classify_rssi|].
  split; [intros rssi H20 H99; unfold classify;
          destruct (Z.eqb_spec rssi 99); [lia|];
          destruct (Z.ltb_spec rssi 10); [lia|];
          destruct (Z.ltb_spec rssi 15); [lia|];
          destruct (Z.ltb_spec rssi 20); [lia|reflexivity]|].
  split; [reflexivity|].
  unfold get_signal_strength_at_init, try_except, bind at 1, serial_open.
  destruct (can_open w) eqn:Eopen;
    [|split; [reflexivity|eexists; reflexivity]].
  fold (opened w). unfold bind at 1.
  pose proof (send_at_command_safe Ignore fuel "AT+CSQ" 5000 (opened w)
                ltac:(lia)) as Hs.
  fold send_at_command in Hs.
  destruct (send_at_command fuel "AT+CSQ" 5000 (opened w))
    as [response w1|e w1|]; cbn in Hs; [| |exact Hs].
  - unfold bind at 1, ser_close. fold (closed w1).
    unfold signal_of_response.
    destruct (contains (lit "+CSQ:") response); [|split; reflexivity].
    unfold bind.
    destruct (parse_rssi response (closed w1)) as [rssi w2|e w2|] eqn:Ep.
    + assert (w2 = closed w1) as ->.
      { revert Ep. unfold parse_rssi, raise, ret.
        repeat match goal with
               | |- context [match ?x with _ => _ end] => destruct x
               end; congruence. }
      split; [reflexivity|]. rewrite Ep. reflexivity.
    + assert (exists msg, e = Error msg /\ w2 = closed w1) as (msg & -> & ->).
      { revert Ep. unfold parse_rssi, raise, ret.
        repeat match goal with
               | |- context [match ?x with _ => _ end] => destruct x
               end; intros [= <- <-] || intros [=]; eauto. }
      split; [reflexivity|]. rewrite Ep. reflexivity.
    + exfalso. revert Ep. unfold parse_rssi, raise, ret.
      repeat match goal with
             | |- context [match ?x with _ => _ end] => destruct x
             end; discriminate.
  - destruct e as [msg| |code]; [split; reflexivity| |];
      (split; [intros [m Hm]; discriminate|];
       destruct Hs as [[m Hm]|Hs]; [discriminate|exact Hs]).
Qed.

Lemma signal_query_total_witness :
  (51 <= 60)%nat /\
  exists w', get_signal_strength_at_init 60
               (set_wire [reply "+CSQ: 45,0 OK"] boot) =
             Ret (classify 45) w'.
Proof.
  split; [lia|].
  pose proof (signal_query_total 60 (set_wire [reply "+CSQ: 45,0 OK"] boot)
                ltac:(lia)) as (_ & _ & _ & H).
  destruct (get_signal_strength_at_init 60
              (set_wire [reply "+CSQ: 45,0 OK"] boot)) as [info w'|e w'|] eqn:E;
    [|exfalso; apply (proj2 H); reflexivity|destruct H].
  exists w'. vm_compute in E. injection E as <- _. reflexivity.
Defined.

(** A reading that does not parse, a line that fails and a device that
    cannot be opened each give the error tuple. *)
Example signal_query_errors :
  (exists msg w',
     get_signal_strength_at_init 60 (set_wire [reply "+CSQ: ,0 OK"] boot) =
     Ret (None, "Error: " ++ msg, "?")%string w') /\
  (exists msg w',
     get_signal_strength_at_init 60 (set_wire [Broken] boot) =
     Ret (None, "Error: " ++ msg, "?")%string w') /\
  (exists msg w',
     get_signal_strength_at_init 60 (set_can_open false boot) =
     Ret (None, "Error: " ++ msg, "?")%string w') /\
  (exists w',
     get_signal_strength_at_init 60 (set_wire [reply "OK"] boot) =
     Ret (None, "Unknown", "?")%string w').
Proof.
  split; [exists "ValueError"%string; eexists; vm_compute; reflexivity|].
  split; [exists "SerialException"%string; eexists; vm_compute; reflexivity|].
  split; [exists "SerialException"%string; eexists; vm_compute; reflexivity|].
  eexists; vm_compute; reflexivity.
Qed.

(** ** The AT channel on a line without transport errors *)

Lemma sleep_quiet ms w :
  sigint_at w = None ->
  sleep ms w = Ret tt (set_log (Sleep ms :: log w)
                         (set_now (now w + ms) (set_blocked (S (blocked w)) w))).
Proof.
  intros Hq. pose proof (sleep_spec ms w) as H.
  destruct (sleep ms w) as [[] w'|e w'|]; [congruence| |destruct H].
  destruct H as [H _]. congruence.
Qed.

Lemma decode_nil h : decode h [] = [].
Proof. reflexivity. Qed.

Lemma accumulated_nil h n : accumulated h [] n = [].
Proof. unfold accumulated. destruct n; reflexivity. Qed.

Lemma accumulated_cons h c rest n :
  accumulated h (c :: rest) (S n) = (decode h c ++ accumulated h rest n)%list.
Proof. reflexivity. Qed.

Lemma accumulated_0 h chunks : accumulated h chunks 0 = [].
Proof. reflexivity. Qed.

(** The reading loop, started with [response] in hand on a line that
    delivers [chunks]: it stops at the first poll after which a final token
    is in the buffer, or when the timeout has elapsed. *)
Lemma read_response_run h fuel :
  forall start_time timeout response chunks w,
    wire w = map Bytes chunks ->
    sigint_at w = None ->
    has_final_token response = false ->
    (0 < fuel)%nat ->
    timeout - (now w - start_time) <= 100 * (Z.of_nat fuel - 1) ->
    exists n k w',
      read_response h fuel start_time timeout response w =
        Ret (response ++ accumulated h chunks n)%list w' /\
      log w' = (repeat (Sleep 100) k ++ log w)%list /\
      wire w' = map Bytes (skipn n chunks) /\
      now w' = now w + 100 * Z.of_nat k /\
      only_serial w w' /\
      (forall j, (j < n)%nat ->
         has_final_token (response ++ accumulated h chunks j) = false) /\
      (has_final_token (response ++ accumulated h chunks n) = true /\
       now w' - start_time < timeout /\ n = S k
       \/
       has_final_token (response ++ accumulated h chunks n) = false /\
       timeout <= now w' - start_time /\ n = k /\
       (k = O \/ now w' - start_time < timeout + 100)).
Proof.
  induction fuel as [|fuel IH];
    intros start_time timeout response chunks w Hwire Hq Hresp Hpos Hfuel; [lia|].
  rewrite Nat2Z.inj_succ in Hfuel.
  cbn [read_response]. unfold bind at 1, time_time at 1.
  destruct (Z.ltb_spec (now w - start_time) timeout) as [Hlt|Hge].
  2:{ exists O, O, w. rewrite accumulated_0, app_nil_r.
      split; [reflexivity|]. split; [reflexivity|].
      split; [exact Hwire|]. split; [cbn; lia|].
      split; [apply only_serial_refl|].
      split; [intros j Hj; lia|].
      right. repeat split; auto. }
  (* what the recursive call gives after an unsuccessful poll *)
  assert (Hrec : forall c rest response',
      chunks = c :: rest \/ (chunks = [] /\ c = [] /\ rest = []) ->
      response' = (response ++ decode h c)%list ->
      has_final_token response' = false ->
      exists n k w',
        (sleep 100;; read_response h fuel start_time timeout response')
          (set_wire (tl (wire w)) w) =
          Ret (response ++ accumulated h chunks n)%list w' /\
        log w' = (repeat (Sleep 100) k ++ log w)%list /\
        wire w' = map Bytes (skipn n chunks) /\
        now w' = now w + 100 * Z.of_nat k /\
        only_serial w w' /\
        (forall j, (j < n)%nat ->
           has_final_token (response ++ accumulated h chunks j) = false) /\
        (has_final_token (response ++ accumulated h chunks n) = true /\
         now w' - start_time < timeout /\ n = S k
         \/
         has_final_token (response ++ accumulated h chunks n) = false /\
         timeout <= now w' - start_time /\ n = k /\
         (k = O \/ now w' - start_time < timeout + 100))).
  { intros c rest response' Hch -> Hresp'.
    unfold bind. rewrite sleep_quiet by exact Hq.
    match goal with |- context [read_response h fuel _ _ _ ?x] =>
      set (w2 := x) end.
    assert (Hw2 : wire w2 = map Bytes rest).
    { subst w2; cbn. rewrite Hwire.
      destruct Hch as [->|(-> & _ & ->)]; reflexivity. }
    assert (Hn2 : now w2 = now w + 100) by reflexivity.
    destruct (IH start_time timeout (response ++ decode h c)%list rest w2
                Hw2 Hq Hresp' ltac:(lia) ltac:(lia))
      as (n & k & w' & Hrun & Hlog & Hwire' & Hnow & Hos & Hmin & Hstop).
    assert (Hacc : forall m,
        (response ++ accumulated h chunks (S m))%list =
        ((response ++ decode h c) ++ accumulated h rest m)%list).
    { intros m. destruct Hch as [->|(-> & -> & ->)].
      - rewrite accumulated_cons, app_assoc. reflexivity.
      - rewrite !accumulated_nil, decode_nil, !app_nil_r. reflexivity. }
    exists (S n), (S k), w'. rewrite !Hacc.
    split; [exact Hrun|].
    split; [rewrite Hlog;
            change (log w2) with ([Sleep 100] ++ log w)%list;
            rewrite app_assoc, <- repeat_cons; reflexivity|].
    split; [rewrite Hwire'; destruct Hch as [->|(-> & _ & ->)];
            [reflexivity|destruct n; reflexivity]|].
    split; [rewrite Hnow, Hn2; lia|].
    split; [eapply only_serial_trans; [|exact Hos];
            subst w2; apply only_serial_step; cbn; try reflexivity; lia|].
    split.
    - intros [|j] Hj; [rewrite accumulated_0, app_nil_r; exact Hresp|].
      rewrite Hacc. apply Hmin. lia.
    - replace (now w' - start_time) with (now w' - start_time) by reflexivity.
      destruct Hstop as [(Ht & Hb & Hn)|(Ht & Hb & Hn & Hk)].
      + left. repeat split; auto.
      + right. repeat split; auto. right.
        destruct Hk as [->|Hk]; [|exact Hk].
        rewrite Hnow, Hn2. cbn. lia. }
  unfold bind.
  assert (Hread : ser_read_waiting w =
                  Ret (hd [] chunks) (set_wire (tl (wire w)) w)).
  { unfold ser_read_waiting. rewrite Hwire.
    destruct chunks as [|c rest]; cbn; [|reflexivity].
    destruct w; cbn in *; subst; reflexivity. }
  rewrite Hread.
  destruct chunks as [|c rest]; cbn [hd].
  - apply (Hrec [] [] response);
      [right; auto
      |rewrite decode_nil, app_nil_r; reflexivity
      |exact Hresp].
  - destruct c as [|b c].
    + apply (Hrec [] rest response);
        [left; reflexivity
        |rewrite decode_nil, app_nil_r; reflexivity
        |exact Hresp].
    + destruct (has_final_token (response ++ decode h (b :: c))) eqn:Etok.
      * exists 1%nat, O, (set_wire (tl (wire w)) w).
        rewrite accumulated_cons, accumulated_0, app_nil_r.
        split; [reflexivity|].
        split; [reflexivity|].
        split; [cbn; rewrite Hwire; reflexivity|].
        split; [cbn; lia|].
        split; [apply only_serial_step; cbn; try reflexivity; lia|].
        split.
        -- intros j Hj. assert (j = O) by lia. subst j.
           rewrite accumulated_0, app_nil_r. exact Hresp.
        -- left. repeat split; auto.
      * apply (Hrec (b :: c) rest _); auto.
Qed.

Lemma send_at_command_with_run h fuel command timeout chunks w :
  wire w = map Bytes chunks ->
  sigint_at w = None ->
  0 <= timeout <= 100 * (Z.of_nat fuel - 1) ->
  exists n k w',
    send_at_command_with h fuel command timeout w =
      Ret (strip (accumulated h chunks n)) w' /\
    log w' = (repeat (Sleep 100) k ++
              Sleep 200 :: SerialWrite (command ++ CRLF) :: log w)%list /\
    wire w' = map Bytes (skipn n chunks) /\
    now w' = now w + 200 + 100 * Z.of_nat k /\
    only_serial w w' /\
    (forall j, (j < n)%nat -> has_final_token (accumulated h chunks j) = false) /\
    (has_final_token (accumulated h chunks n) = true /\
     100 * Z.of_nat k < timeout /\ n = S k
     \/
     has_final_token (accumulated h chunks n) = false /\
     timeout <= 100 * Z.of_nat k < timeout + 100 /\ n = k).
Proof.
  intros Hwire Hq Hfuel.
  unfold send_at_command_with, bind at 1, ser_write, emit. cbv beta iota.
  unfold bind at 1. rewrite sleep_quiet by exact Hq. cbv beta iota.
  match goal with |- exists _ _ _, ?c ?x = _ /\ _ => set (w1 := x) end.
  unfold bind at 1, time_time at 1.
  assert (Hn1 : now w1 = now w + 200) by reflexivity.
  destruct (read_response_run h fuel (now w1) timeout [] chunks w1
              Hwire Hq eq_refl ltac:(lia) ltac:(lia))
    as (n & k & w' & Hrun & Hlog & Hwire' & Hnow & Hos & Hmin & Hstop).
  exists n, k, w'. unfold bind. rewrite Hrun. cbn [app].
  split; [reflexivity|].
  split; [exact Hlog|].
  split; [exact Hwire'|].
  split; [lia|].
  split; [eapply only_serial_trans; [|exact Hos];
          subst w1; apply only_serial_step; cbn; try reflexivity; lia|].
  split; [exact Hmin|].
  cbn [app] in Hstop.
  destruct Hstop as [(Ht & Hb & Hn)|(Ht & Hb & Hn & Hk)].
  - left. repeat split; auto. lia.
  - right. split; [exact Ht|]. split; [|exact Hn].
    destruct Hk as [->|Hk]; lia.
Qed.

(** C7, as the code has it.  On a line without transport error and with no
    signal pending, [send_at_command] writes the command followed by CR LF
    once, waits 0.2 s, and then polls every 0.1 s; each chunk read is decoded
    with invalid byte sequences dropped and appended to the buffer.  Polling
    stops at the first poll after which OK or ERROR is in the buffer, or when
    the timeout has elapsed, and the buffer is returned stripped of
    surrounding whitespace.  Nothing is written a second time. *)
Theorem send_at_command_channel (fuel : nat) (command : string) (timeout : Z)
    (chunks : list (list byte)) (w : world)
    (Hwire : wire w = map Bytes chunks)
    (Hquiet : sigint_at w = None)
    (Hfuel : 0 <= timeout <= 100 * (Z.of_nat fuel - 1)) :
  exists n k w',
    send_at_command fuel command timeout w =
      Ret (strip (accumulated Ignore chunks n)) w' /\
    log w' = (repeat (Sleep 100) k ++
              Sleep 200 :: SerialWrite (command ++ CRLF) :: log w)%list /\
    wire w' = map Bytes (skipn n chunks) /\
    now w' = now w + 200 + 100 * Z.of_nat k /\
    (forall j, (j < n)%nat ->
       has_final_token (accumulated Ignore chunks j) = false) /\
    (has_final_token (accumulated Ignore chunks n) = true /\
     100 * Z.of_nat k < timeout /\ n = S k
     \/
     has_final_token (accumulated Ignore chunks n) = false /\
     timeout <= 100 * Z.of_nat k < timeout + 100 /\ n = k).
Proof.
  destruct (send_at_command_with_run Ignore fuel command timeout chunks w
              Hwire Hquiet Hfuel)
    as (n & k & w' & Hrun & Hlog & Hwire' & Hnow & _ & Hmin & Hstop).
  exists n, k, w'. repeat split; assumption.
Qed.

Lemma send_at_command_channel_witness :
  let chunks := [[]; bytes_of " O"; [xff; x4b]] in
  let w := set_wire (map Bytes chunks) boot in
  exists n k w',
    send_at_command 60 "AT" 5000 w =
      Ret (strip (accumulated Ignore chunks n)) w' /\
    log w' = (repeat (Sleep 100) k ++
              Sleep 200 :: SerialWrite ("AT" ++ CRLF) :: log w)%list /\
    wire w' = map Bytes (skipn n chunks) /\
    now w' = now w + 200 + 100 * Z.of_nat k /\
    (forall j, (j < n)%nat ->
       has_final_token (accumulated Ignore chunks j) = false) /\
    (has_final_token (accumulated Ignore chunks n) = true /\
     100 * Z.of_nat k < 5000 /\ n = S k
     \/
     has_final_token (accumulated Ignore chunks n) = false /\
     5000 <= 100 * Z.of_nat k < 5000 + 100 /\ n = k).
Proof.
  intros chunks w.
  apply (send_at_command_channel 60 "AT" 5000 chunks w);
    [reflexivity|reflexivity|lia].
Defined.

Example send_at_command_sample :
  exists w',
    send_at_command 60 "AT" 5000
      (set_wire [Bytes []; Bytes (bytes_of " O"); Bytes [xff; x4b]] boot) =
    Ret (lit "OK") w' /\ now w' = 400 /\
    history w' = [SerialWrite ("AT" ++ CRLF); Sleep 200; Sleep 100; Sleep 100].
Proof. eexists. vm_compute. repeat split. Qed.

(** C7 as stated fails on its last clause: an invalid byte is dropped, not
    replaced.  The byte FF before OK leaves no trace in the response, where
    decoding with replacement gives U+FFFD. *)
Lemma send_at_command_drops_invalid_byte :
  exists w',
    send_at_command 60 "AT" 5000 (set_wire [Bytes [xff; x4f; x4b]] boot) =
      Ret (lit "OK") w' /\
    send_at_command_replacing 60 "AT" 5000
      (set_wire [Bytes [xff; x4f; x4b]] boot) =
      Ret (65533%N :: lit "OK") w' /\
    lit "OK" <> 65533%N :: lit "OK".
Proof.
  eexists. split; [vm_compute; reflexivity|].
  split; [vm_compute; reflexivity|discriminate].
Qed.

(** ** The attach-confirm loop *)

(** Two runs of the same computation from the same world agree. *)
Ltac same_run :=
  repeat match goal with
         | H1 : ?c = Ret _ _, H2 : ?c = Ret _ _ |- _ =>
             rewrite H1 in H2; injection H2; intros; subst; clear H2
         | H1 : ?c = Ret _ _, H2 : ?c = Raise _ _ |- _ =>
             rewrite H1 in H2; discriminate
         | H1 : ?c = Ret _ _, H2 : ?c = OutOfFuel |- _ =>
             rewrite H1 in H2; discriminate
         end.

Lemma attach_confirm_unrolled fuel n : forall w b w',
  attach_confirm fuel n w = Ret b w' <->
  (b = true /\
   exists k w1 response,
     (k < n)%nat /\ failed_attempts fuel k w w1 /\
     send_at_command fuel "AT+CGATT?" 5000 w1 = Ret response w' /\
     is_attached response = true)
  \/
  (b = false /\ failed_attempts fuel n w w').
Proof.
  induction n as [|n IH]; intros w b w'.
  - cbn. unfold ret. split.
    + intros H. injection H as <- <-. right. split; [reflexivity|constructor].
    + intros [(_ & k & _ & _ & Hk & _)|(-> & H)]; [lia|].
      inversion H; subst. reflexivity.
  - cbn [attach_confirm]. unfold bind at 1.
    destruct (send_at_command fuel "AT+CGATT?" 5000 w) as [r w1|e w1|] eqn:Es.
    + destruct (is_attached r) eqn:Ea.
      * unfold ret. split.
        -- intros H. injection H as <- <-. left. split; [reflexivity|].
           exists O, w, r. repeat split; auto; [lia|constructor].
        -- intros [(-> & k & wa & ra & Hk & Hf & Hs & Hr)|(-> & Hf)].
           ++ inversion Hf; subst; [congruence|]. congruence.
           ++ inversion Hf; subst. congruence.
      * unfold bind at 1.
        destruct (sleep 2000 w1) as [[] w2|e w2|] eqn:Esl.
        -- rewrite IH. split.
           ++ intros [(-> & k & wa & ra & Hk & Hf & Hs & Hr)|(-> & Hf)].
              ** left. split; [reflexivity|].
                 exists (S k), wa, ra. repeat split; auto; [lia|].
                 econstructor; eauto.
              ** right. split; [reflexivity|]. econstructor; eauto.
           ++ intros [(-> & k & wa & ra & Hk & Hf & Hs & Hr)|(-> & Hf)].
              ** inversion Hf; subst; [congruence|].
                 left. split; [reflexivity|].
                 same_run.
                 match goal with H : failed_attempts _ ?k0 _ wa |- _ =>
                   exists k0, wa, ra end.
                 repeat split; auto. lia.
              ** inversion Hf; subst. right. split; [reflexivity|].
                 same_run. assumption.
        -- split; [discriminate|].
           intros [(-> & k & wa & ra & Hk & Hf & Hs & Hr)|(-> & Hf)];
             inversion Hf; subst; congruence.
        -- split; [discriminate|].
           intros [(-> & k & wa & ra & Hk & Hf & Hs & Hr)|(-> & Hf)];
             inversion Hf; subst; congruence.
    + split; [discriminate|].
      intros [(-> & k & wa & ra & Hk & Hf & Hs & Hr)|(-> & Hf)];
        inversion Hf; subst; congruence.
    + split; [discriminate|].
      intros [(-> & k & wa & ra & Hk & Hf & Hs & Hr)|(-> & Hf)];
        inversion Hf; subst; congruence.
Qed.

Lemma send_at_command_quiet fuel command timeout w :
  quiet_line w ->
  0 <= timeout <= 100 * (Z.of_nat fuel - 1) ->
  exists response w',
    send_at_command fuel command timeout w = Ret response w' /\
    quiet_line w' /\ only_serial w w' /\
    now w + 200 <= now w' < now w + timeout + 300.
Proof.
  intros [Hq [chunks Hwire]] Hfuel.
  destruct (send_at_command_with_run Ignore fuel command timeout chunks w
              Hwire Hq Hfuel)
    as (n & k & w' & Hrun & Hlog & Hwire' & Hnow & Hos & Hmin & Hstop).
  exists (strip (accumulated Ignore chunks n)), w'.
  split; [exact Hrun|].
  split; [split; [destruct Hos as [Hs _]; congruence|eexists; exact Hwire']|].
  split; [exact Hos|].
  destruct Hstop as [(_ & Hk & _)|(_ & Hk & _)]; lia.
Qed.

Lemma sleep_quiet_line ms w :
  quiet_line w ->
  exists w', sleep ms w = Ret tt w' /\ quiet_line w' /\ only_serial w w' \/
             ms < 0 /\ sleep ms w = Ret tt w' /\ quiet_line w'.
Proof.
  intros [Hq [chunks Hwire]]. rewrite (sleep_quiet ms w Hq).
  eexists. destruct (Z.ltb_spec ms 0).
  - right. split; [lia|]. split; [reflexivity|].
    split; [exact Hq|exists chunks; exact Hwire].
  - left. split; [reflexivity|].
    split; [split; [exact Hq|exists chunks; exact Hwire]|].
    apply only_serial_step; cbn; try reflexivity; lia.
Qed.

Lemma attach_confirm_returns fuel n : forall w,
  quiet_line w -> (51 <= fuel)%nat ->
  exists b w', attach_confirm fuel n w = Ret b w' /\ quiet_line w'.
Proof.
  induction n as [|n IH]; intros w Hq Hfuel.
  - exists false, w. split; [reflexivity|exact Hq].
  - cbn [attach_confirm]. unfold bind at 1.
    destruct (send_at_command_quiet fuel "AT+CGATT?" 5000 w Hq ltac:(lia))
      as (r & w1 & -> & Hq1 & _).
    destruct (is_attached r); [exists true, w1; split; [reflexivity|exact Hq1]|].
    unfold bind.
    destruct (sleep_quiet_line 2000 w1 Hq1) as [w2 [(-> & Hq2 & _)|(Hneg & _)]];
      [|lia].
    apply IH; assumption.
Qed.

Lemma attach_confirm_exhausted fuel n w w' :
  failed_attempts fuel n w w' -> attach_confirm fuel n w = Ret false w'.
Proof. intros H. apply attach_confirm_unrolled. right. auto. Qed.

Lemma oneshot_attach_failure fuel max_wait w w0 w1 response w2 w3 :
  OneShot.check_in fuel w = Ret tt w0 ->
  registration_wait 2000 fuel (now w0) max_wait fuel w0 = Ret true w1 ->
  send_at_command fuel "AT+CGATT=1" 30000 w1 = Ret response w2 ->
  failed_attempts fuel 10 w2 w3 ->
  OneShot.initialize_modem fuel max_wait w = Ret false (closed w3).
Proof.
  intros Hc Hr Hs Hf.
  unfold OneShot.initialize_modem, try_except, OneShot.bring_up.
  unfold bind at 1. rewrite Hc.
  unfold bind at 1, time_time at 1. unfold bind at 1. rewrite Hr.
  cbn [negb]. unfold OneShot.attach_phase, bind at 1. rewrite Hs.
  unfold bind at 1. rewrite (attach_confirm_exhausted _ _ _ _ Hf).
  reflexivity.
Qed.

Lemma service_attach_failure fuel max_wait w w0 w1 operator w1' response w2 w3 :
  Service.check_in fuel w = Ret tt w0 ->
  registration_wait 5000 fuel (now w0) max_wait fuel w0 = Ret true w1 ->
  send_at_command fuel "AT+COPS?" 5000 w1 = Ret operator w1' ->
  send_at_command fuel "AT+CGATT=1" 30000 w1' = Ret response w2 ->
  failed_attempts fuel 10 w2 w3 ->
  Service.initialize_modem fuel max_wait w = Ret false (closed w3).
Proof.
  intros Hc Hr Ho Hs Hf.
  unfold Service.initialize_modem, try_except, Service.bring_up.
  unfold bind at 1. rewrite Hc.
  unfold bind at 1, time_time at 1. unfold bind at 1. rewrite Hr.
  cbn [negb]. unfold Service.attach_phase, bind at 1. rewrite Ho.
  unfold bind at 1. rewrite Hs.
  unfold bind at 1. rewrite (attach_confirm_exhausted _ _ _ _ Hf).
  reflexivity.
Qed.

(** C4. The attach-confirm loop of both scripts makes at most ten queries.
    It returns success exactly when a query is answered with [+CGATT: 1],
    in the world that answer left, every earlier query having been followed
    by a pause of 2 s; it returns failure exactly after ten unanswered
    queries, each followed by that pause.  On a line without transport error
    and signal it does return.  After the ten failures bring-up closes the
    serial channel and returns failure. *)
Theorem attach_confirm_bounded (fuel : nat) (w : world) :
  (forall b w',
     attach_confirm fuel 10 w = Ret b w' <->
     (b = true /\
      exists k w1 response,
        (k < 10)%nat /\ failed_attempts fuel k w w1 /\
        send_at_command fuel "AT+CGATT?" 5000 w1 = Ret response w' /\
        is_attached response = true)
     \/
     (b = false /\ failed_attempts fuel 10 w w')) /\
  (quiet_line w -> (51 <= fuel)%nat ->
   exists b w', attach_confirm fuel 10 w = Ret b w') /\
  (forall max_wait s0 s1 s2 response w3,
     OneShot.check_in fuel s0 = Ret tt s1 ->
     registration_wait 2000 fuel (now s1) max_wait fuel s1 = Ret true s2 ->
     send_at_command fuel "AT+CGATT=1" 30000 s2 = Ret response w ->
     failed_attempts fuel 10 w w3 ->
     OneShot.initialize_modem fuel max_wait s0 = Ret false (closed w3)) /\
  (forall max_wait s0 s1 s2 operator s3 response w3,
     Service.check_in fuel s0 = Ret tt s1 ->
     registration_wait 5000 fuel (now s1) max_wait fuel s1 = Ret true s2 ->
     send_at_command fuel "AT+COPS?" 5000 s2 = Ret operator s3 ->
     send_at_command fuel "AT+CGATT=1" 30000 s3 = Ret response w ->
     failed_attempts fuel 10 w w3 ->
     Service.initialize_modem fuel max_wait s0 = Ret false (closed w3)).
Proof.
  split; [apply attach_confirm_unrolled|].
  split; [intros Hq Hf;
          destruct (attach_confirm_returns fuel 10 w Hq Hf) as (b & w' & H & _);
          eauto|].
  split; intros; [eapply oneshot_attach_failure|eapply service_attach_failure];
    eauto.
Qed.

Lemma boot_quiet : quiet_line boot.
Proof. split; [reflexivity|exists []; reflexivity]. Qed.

Lemma attach_confirm_bounded_witness :
  quiet_line boot /\ (51 <= 60)%nat /\
  exists b w', attach_confirm 60 10 boot = Ret b w'.
Proof.
  split; [exact boot_quiet|]. split; [lia|].
  apply (proj1 (proj2 (attach_confirm_bounded 60 boot)));
    [exact boot_quiet|lia].
Defined.

(** A modem that never attaches: ten queries 2 s apart, then the channel is
    closed and bring-up fails. *)
Example never_attached :
  exists w',
    OneShot.initialize_modem 400 60000
      (set_wire ([reply "OK"; reply "OK"; reply "+CSQ: 18,0 OK";
                  reply "+CREG: 0,1 OK"; reply "OK"] ++
                 repeat (reply "+CGATT: 0 OK") 12) boot) = Ret false w' /\
    handles w' = O /\
    skipn 5 (writes (history w')) = repeat ("AT+CGATT?" ++ CRLF)%string 10 /\
    skipn 1 (pauses (history w')) = repeat 2000 10 /\
    hd SerialOpen (log w') = SerialClose.
Proof. eexists. vm_compute. repeat split. Qed.

(** ** The registration wait *)

Lemma registration_wait_unrolled interval fuel start_time max_wait loop_fuel :
  forall w b w',
    registration_wait interval fuel start_time max_wait loop_fuel w = Ret b w' <->
    (b = true /\
     exists k w1 response,
       (k < loop_fuel)%nat /\
       failed_polls interval fuel start_time max_wait k w w1 /\
       now w1 - start_time < max_wait /\
       send_at_command fuel "AT+CREG?" 5000 w1 = Ret response w' /\
       is_registered response = true)
    \/
    (b = false /\
     exists k,
       (k < loop_fuel)%nat /\
       failed_polls interval fuel start_time max_wait k w w' /\
       max_wait <= now w' - start_time).
Proof.
  induction loop_fuel as [|lf IH]; intros w b w'.
  - cbn. split; [discriminate|].
    intros [(_ & k & _ & _ & Hk & _)|(_ & k & Hk & _)]; lia.
  - cbn [registration_wait]. unfold bind at 1, time_time at 1.
    destruct (Z.ltb_spec (now w - start_time) max_wait) as [Hlt|Hge].
    + unfold bind at 1.
      destruct (send_at_command fuel "AT+CREG?" 5000 w) as [r w1|e w1|] eqn:Es.
      * destruct (is_registered r) eqn:Er.
        -- unfold ret. split.
           ++ intros H. injection H as <- <-. left. split; [reflexivity|].
              exists O, w, r. repeat split; auto; [lia|constructor].
           ++ intros [(-> & k & wa & ra & Hk & Hf & Ht & Hs & Hr)
                     |(-> & k & Hk & Hf & Ht)].
              ** inversion Hf; subst; same_run; [reflexivity|congruence].
              ** inversion Hf; subst; same_run; [lia|congruence].
        -- unfold bind at 1.
           destruct (sleep interval w1) as [[] w2|e w2|] eqn:Esl.
           ++ rewrite IH. split.
              ** intros [(-> & k & wa & ra & Hk & Hf & Ht & Hs & Hr)
                        |(-> & k & Hk & Hf & Ht)].
                 --- left. split; [reflexivity|].
                     exists (S k), wa, ra. repeat split; auto; [lia|].
                     econstructor; eauto.
                 --- right. split; [reflexivity|].
                     exists (S k). repeat split; auto; [lia|].
                     econstructor; eauto.
              ** intros [(-> & k & wa & ra & Hk & Hf & Ht & Hs & Hr)
                        |(-> & k & Hk & Hf & Ht)].
                 --- inversion Hf; subst; same_run; [congruence|].
                     left. split; [reflexivity|].
                     match goal with H : failed_polls _ _ _ _ ?k0 _ wa |- _ =>
                       exists k0, wa, ra end.
                     repeat split; auto. lia.
                 --- inversion Hf; subst; same_run; [lia|].
                     right. split; [reflexivity|].
                     match goal with H : failed_polls _ _ _ _ ?k0 _ w' |- _ =>
                       exists k0 end.
                     repeat split; auto. lia.
           ++ split; [discriminate|].
              intros [(-> & k & wa & ra & Hk & Hf & Ht & Hs & Hr)
                     |(-> & k & Hk & Hf & Ht)];
                inversion Hf; subst; same_run; try congruence; lia.
           ++ split; [discriminate|].
              intros [(-> & k & wa & ra & Hk & Hf & Ht & Hs & Hr)
                     |(-> & k & Hk & Hf & Ht)];
                inversion Hf; subst; same_run; try congruence; lia.
      * split; [discriminate|].
        intros [(-> & k & wa & ra & Hk & Hf & Ht & Hs & Hr)
               |(-> & k & Hk & Hf & Ht)];
          inversion Hf; subst; same_run; try congruence; lia.
      * split; [discriminate|].
        intros [(-> & k & wa & ra & Hk & Hf & Ht & Hs & Hr)
               |(-> & k & Hk & Hf & Ht)];
          inversion Hf; subst; same_run; try congruence; lia.
    + unfold ret. split.
      * intros H. injection H as <- <-. right. split; [reflexivity|].
        exists O. repeat split; [lia|constructor|lia].
      * intros [(-> & k & wa & ra & Hk & Hf & Ht & Hs & Hr)
               |(-> & k & Hk & Hf & Ht)].
        -- inversion Hf; subst; lia.
        -- inversion Hf; subst; [reflexivity|lia].
Qed.

Lemma only_serial_now w w' : only_serial w w' -> now w <= now w'.
Proof. unfold only_serial. tauto. Qed.

Lemma only_serial_sigint w w' : only_serial w w' -> sigint_at w' = sigint_at w.
Proof. unfold only_serial. tauto. Qed.

(** With enough fuel the registration wait ends, whatever the line does,
    and a poll is never started at or after the deadline: the wait is over
    less than 5.3 s plus one pause after it. *)
Lemma registration_wait_safe interval fuel start_time max_wait :
  forall loop_fuel w,
    (51 <= fuel)%nat -> 0 <= interval -> (0 < loop_fuel)%nat ->
    max_wait - (now w - start_time) <=
      (200 + interval) * (Z.of_nat loop_fuel - 1) ->
    serial_outcome w
      (registration_wait interval fuel start_time max_wait loop_fuel w)
      (fun b w' =>
         (b = false -> max_wait <= now w' - start_time) /\
         (now w' = now w \/
          now w' - start_time < max_wait + 5300 + interval)).
Proof.
  induction loop_fuel as [|lf IH]; intros w Hfuel Hint Hpos Hlf; [lia|].
  rewrite Nat2Z.inj_succ in Hlf.
  cbn [registration_wait]. unfold bind at 1, time_time at 1.
  destruct (Z.ltb_spec (now w - start_time) max_wait) as [Hlt|Hge].
  2:{ cbn. split; [apply only_serial_refl|]. split; [intros _; lia|left; reflexivity]. }
  unfold bind at 1.
  pose proof (send_at_command_safe Ignore fuel "AT+CREG?" 5000 w ltac:(lia)) as Hs.
  fold send_at_command in Hs.
  destruct (send_at_command fuel "AT+CREG?" 5000 w) as [r w1|e w1|];
    cbn in Hs; [|exact Hs|exact Hs].
  destruct Hs as [Hos1 Ht1].
  destruct (is_registered r).
  - cbn. split; [exact Hos1|]. split; [discriminate|right; lia].
  - unfold bind at 1.
    pose proof (sleep_spec interval w1) as Hsl.
    destruct (sleep interval w1) as [[] w2|e w2|];
      [|right; destruct Hsl as [Hsl _];
        rewrite <- (only_serial_sigint _ _ Hos1); congruence|exact Hsl].
    assert (Hos2 : only_serial w1 w2)
      by (subst w2; apply only_serial_step; cbn; try reflexivity; lia).
    assert (Hn2 : now w2 = now w1 + interval) by (subst w2; reflexivity).
    clear Hsl.
    assert (Hlf' : (0 < lf)%nat) by nia.
    specialize (IH w2 Hfuel Hint Hlf' ltac:(nia)).
    destruct (registration_wait interval fuel start_time max_wait lf w2)
      as [b w3|e w3|]; cbn in IH |- *; [| |exact IH].
    + destruct IH as [Hos3 [Hb Ht3]].
      split; [eapply only_serial_trans; [exact Hos1|];
              eapply only_serial_trans; eauto|].
      split; [exact Hb|right; lia].
    + destruct IH as [IH|IH]; [left; exact IH|right].
      rewrite <- (only_serial_sigint _ _ Hos1),
              <- (only_serial_sigint _ _ Hos2). exact IH.
Qed.

Lemma registration_wait_returns interval fuel start_time max_wait :
  forall loop_fuel w,
    quiet_line w ->
    (51 <= fuel)%nat -> 0 <= interval -> (0 < loop_fuel)%nat ->
    max_wait - (now w - start_time) <=
      (200 + interval) * (Z.of_nat loop_fuel - 1) ->
    exists b w',
      registration_wait interval fuel start_time max_wait loop_fuel w =
        Ret b w' /\ quiet_line w'.
Proof.
  induction loop_fuel as [|lf IH]; intros w Hq Hfuel Hint Hpos Hlf; [lia|].
  rewrite Nat2Z.inj_succ in Hlf.
  cbn [registration_wait]. unfold bind at 1, time_time at 1.
  destruct (Z.ltb_spec (now w - start_time) max_wait) as [Hlt|Hge];
    [|exists false, w; split; [reflexivity|exact Hq]].
  unfold bind at 1.
  destruct (send_at_command_quiet fuel "AT+CREG?" 5000 w Hq ltac:(lia))
    as (r & w1 & -> & Hq1 & Hos1 & Ht1).
  destruct (is_registered r); [exists true, w1; split; [reflexivity|exact Hq1]|].
  unfold bind at 1.
  destruct (sleep_quiet_line interval w1 Hq1)
    as [w2 [(Hsl & Hq2 & Hos2)|(Hneg & _)]]; [|lia].
  pose proof (sleep_quiet interval w1 (proj1 Hq1)) as Hsl'.
  rewrite Hsl. rewrite Hsl in Hsl'. injection Hsl' as Hw2.
  assert (Hn2 : now w2 = now w1 + interval) by (subst w2; reflexivity).
  apply IH; auto; nia.
Qed.

Lemma oneshot_registration_timeout fuel max_wait s0 s1 s2 :
  OneShot.check_in fuel s0 = Ret tt s1 ->
  registration_wait 2000 fuel (now s1) max_wait fuel s1 = Ret false s2 ->
  OneShot.initialize_modem fuel max_wait s0 = Ret false (closed s2).
Proof.
  intros Hc Hr.
  unfold OneShot.initialize_modem, try_except, OneShot.bring_up.
  unfold bind at 1. rewrite Hc.
  unfold bind at 1, time_time at 1. unfold bind at 1. rewrite Hr.
  reflexivity.
Qed.

Lemma service_registration_timeout fuel max_wait s0 s1 s2 :
  Service.check_in fuel s0 = Ret tt s1 ->
  registration_wait 5000 fuel (now s1) max_wait fuel s1 = Ret false s2 ->
  Service.initialize_modem fuel max_wait s0 = Ret false (closed s2).
Proof.
  intros Hc Hr.
  unfold Service.initialize_modem, try_except, Service.bring_up.
  unfold bind at 1. rewrite Hc.
  unfold bind at 1, time_time at 1. unfold bind at 1. rewrite Hr.
  reflexivity.
Qed.

(** C3, as the code has it.  The registration wait starts a query only
    while the time elapsed is below the deadline and pauses after each
    query that shows no registration: 2 s in the one-shot script, 5 s in the
    persistent one.  It returns success exactly when a query is answered
    [+CREG: 0,1] or [+CREG: 0,5], in the world that answer left, and failure
    exactly when the deadline is found passed at the head of a turn.  A query
    and a pause under way are not cut short, so the wait is over less than
    5.3 s plus one pause after the deadline.  With enough fuel it ends,
    whatever the line does.  On failure bring-up closes the serial channel
    and returns failure. *)
Theorem registration_wait_bounded (interval : Z) (fuel : nat)
    (start_time max_wait : Z) (loop_fuel : nat) (w : world)
    (Hfuel : (51 <= fuel)%nat) (Hint : 0 <= interval)
    (Hpos : (0 < loop_fuel)%nat)
    (Hloop : max_wait - (now w - start_time) <=
             (200 + interval) * (Z.of_nat loop_fuel - 1)) :
  serial_outcome w
    (registration_wait interval fuel start_time max_wait loop_fuel w)
    (fun b w' =>
       (b = false -> max_wait <= now w' - start_time) /\
       (now w' = now w \/
        now w' - start_time < max_wait + 5300 + interval)) /\
  (forall b w',
     registration_wait interval fuel start_time max_wait loop_fuel w = Ret b w' <->
     (b = true /\
      exists k w1 response,
        (k < loop_fuel)%nat /\
        failed_polls interval fuel start_time max_wait k w w1 /\
        now w1 - start_time < max_wait /\
        send_at_command fuel "AT+CREG?" 5000 w1 = Ret response w' /\
        is_registered response = true)
     \/
     (b = false /\
      exists k,
        (k < loop_fuel)%nat /\
        failed_polls interval fuel start_time max_wait k w w' /\
        max_wait <= now w' - start_time)) /\
  (quiet_line w ->
   exists b w',
     registration_wait interval fuel start_time max_wait loop_fuel w = Ret b w') /\
  (forall s0 s2,
     OneShot.check_in fuel s0 = Ret tt w ->
     registration_wait 2000 fuel (now w) max_wait fuel w = Ret false s2 ->
     OneShot.initialize_modem fuel max_wait s0 = Ret false (closed s2)) /\
  (forall s0 s2,
     Service.check_in fuel s0 = Ret tt w ->
     registration_wait 5000 fuel (now w) max_wait fuel w = Ret false s2 ->
     Service.initialize_modem fuel max_wait s0 = Ret false (closed s2)).
Proof.
  split; [apply registration_wait_safe; assumption|].
  split; [apply registration_wait_unrolled|].
  split; [intros Hq;
          destruct (registration_wait_returns interval fuel start_time max_wait
                      loop_fuel w Hq Hfuel Hint Hpos Hloop) as (b & w' & H & _);
          eauto|].
  split; intros;
    [eapply oneshot_registration_timeout|eapply service_registration_timeout];
    eauto.
Qed.

Lemma registration_wait_bounded_witness :
  (51 <= 60)%nat /\ 0 <= 2000 /\ (0 < 60)%nat /\
  60000 - (now boot - 0) <= (200 + 2000) * (Z.of_nat 60 - 1) /\
  exists b w', registration_wait 2000 60 0 60000 60 boot = Ret b w'.
Proof.
  assert (H1 : (51 <= 60)%nat) by lia.
  assert (H2 : 0 <= 2000) by lia.
  assert (H3 : (0 < 60)%nat) by lia.
  assert (H4 : 60000 - (now boot - 0) <= (200 + 2000) * (Z.of_nat 60 - 1))
    by (cbn; lia).
  repeat (split; [assumption|]).
  apply (proj1 (proj2 (proj2
           (registration_wait_bounded 2000 60 0 60000 60 boot H1 H2 H3 H4)))).
  exact boot_quiet.
Defined.

(** C3 as stated fails twice.  A modem that keeps searching is polled every
    5 s, not 2 s, by the persistent script; and in the one-shot script the
    wait with the deadline of 60 s is over after 61.6 s. *)
Lemma registration_wait_not_as_stated :
  (exists w',
     Service.initialize_modem 60 60000 (set_wire (searching_line 40) boot) =
       Ret false w' /\
     pauses (history w') = 1000 :: repeat 5000 12) /\
  (exists w',
     registration_wait 2000 60 0 60000 60
       (set_wire (repeat (reply "+CREG: 0,2 OK") 40) boot) = Ret false w' /\
     now w' = 61600 /\ 60000 < now w' - 0).
Proof.
  split; eexists; vm_compute; repeat split.
Qed.

(** The scenario of a modem that keeps searching, in the one-shot script:
    bring-up fails after the deadline with the device closed. *)
Example registration_timeout_scenario :
  exists w',
    OneShot.initialize_modem 60 60000 (set_wire (searching_line 40) boot) =
      Ret false w' /\
    handles w' = O /\ hd SerialOpen (log w') = SerialClose /\
    pauses (history w') = 1000 :: repeat 2000 28.
Proof. eexists. vm_compute. repeat split. Qed.

(** ** The supervisor's wait *)

Lemma blocking_call_quiet w :
  sigint_at w = None -> blocking_call w = Ret tt (set_blocked (S (blocked w)) w).
Proof. intros H. unfold blocking_call. rewrite H. reflexivity. Qed.

Lemma queue_get_quiet pid w :
  sigint_at w = None ->
  queue_get pid w =
  match queue w with
  | Got wait line :: rest =>
      Ret (Some line)
          (set_now (now w + get_wait wait)
             (set_queue rest (set_blocked (S (blocked w)) w)))
  | Empty exited :: rest =>
      let w1 := set_now (now w + 500)
                  (set_queue rest (set_blocked (S (blocked w)) w)) in
      Ret None (if exited then set_proc pid Exited w1 else w1)
  | [] => Ret None (set_now (now w + 500) (set_blocked (S (blocked w)) w))
  end.
Proof.
  intros Hq. unfold queue_get, bind. rewrite (blocking_call_quiet w Hq).
  reflexivity.
Qed.

Lemma get_wait_bounds wait : 0 <= get_wait wait <= 500.
Proof. unfold get_wait. lia. Qed.

Lemma item_time_bounds q : 0 <= item_time q <= 500.
Proof. destruct q as [wait line|exited]; cbn; [apply get_wait_bounds|lia]. Qed.

Lemma elapsed_app a b : elapsed (a ++ b) = elapsed a + elapsed b.
Proof.
  unfold elapsed. induction a as [|q a IH]; cbn [app fold_right]; lia.
Qed.

Lemma elapsed_nonneg items : 0 <= elapsed items.
Proof.
  unfold elapsed. induction items as [|q l IH]; cbn [fold_right]; [lia|].
  pose proof (item_time_bounds q). lia.
Qed.

(** When the first item was taken before the deadline and the later ones as
    well, counted from the end of the first, every item was. *)
Lemma begun_before_cons q consumed t timeout :
  t < timeout ->
  (forall pre x post,
      consumed = (pre ++ x :: post)%list ->
      t + item_time q + elapsed pre < timeout) ->
  forall pre x post,
    q :: consumed = (pre ++ x :: post)%list -> t + elapsed pre < timeout.
Proof.
  intros Ht H pre x post E. destruct pre as [|p pre]; cbn in E.
  - cbn. lia.
  - injection E as <- E. cbn [elapsed fold_right]. fold (elapsed pre).
    specialize (H pre x post E). lia.
Qed.

Lemma begun_before_single q t timeout :
  t < timeout ->
  forall pre x post,
    [q] = (pre ++ x :: post)%list -> t + elapsed pre < timeout.
Proof.
  intros Ht [|p pre] x post E; cbn in E.
  - cbn. lia.
  - injection E as _ E. destruct pre; discriminate.
Qed.

Lemma set_proc_exited pid w :
  running pid w ->
  nth_error (procs (set_proc pid Exited w)) pid = Some Exited.
Proof.
  unfold running, set_proc. cbn. generalize (procs w) as l.
  induction pid as [|pid IH]; intros [|p l] H; cbn in *; try discriminate.
  - reflexivity.
  - apply IH. exact H.
Qed.

Lemma stops_first_cons q consumed :
  stops q = false ->
  (forall pre x post, consumed = (pre ++ x :: post)%list -> stops x = true -> post = []) ->
  forall pre x post,
    q :: consumed = (pre ++ x :: post)%list -> stops x = true -> post = [].
Proof.
  intros Hq H pre x post E Hx. destruct pre as [|p pre]; cbn in E.
  - injection E as -> _. congruence.
  - injection E as _ E. eapply H; eauto.
Qed.

Lemma stops_first_single q :
  forall pre x post, [q] = (pre ++ x :: post)%list -> stops x = true -> post = [].
Proof.
  intros [|p pre] x post E _; cbn in E.
  - injection E as _ <-. reflexivity.
  - injection E as _ E. destruct pre; discriminate.
Qed.

Lemma wait_for_link_run pid timeout : forall fuel connected w,
  sigint_at w = None ->
  running pid w ->
  (0 < fuel)%nat ->
  timeout - now w <=
    500 * (Z.of_nat fuel - 2 - Z.of_nat (List.length (queue w))) ->
  exists connected' ip w' consumed,
    OneShot.wait_for_link pid timeout connected false fuel w =
      Ret (connected', ip) w' /\
    queue w = (consumed ++ queue w')%list /\
    connected' = connected || existsb link_up_item consumed /\
    ip = existsb ip_item consumed /\
    (forall pre x post,
        consumed = (pre ++ x :: post)%list -> stops x = true -> post = []) /\
    (forall pre x post,
        consumed = (pre ++ x :: post)%list -> now w + elapsed pre < timeout) /\
    now w + elapsed consumed <= now w' /\
    (existsb stops consumed = true -> now w' = now w + elapsed consumed) /\
    (existsb stops consumed = false -> timeout <= now w').
Proof.
  induction fuel as [|fuel IH]; intros connected w Hq Hrun Hpos Hfuel; [lia|].
  rewrite Nat2Z.inj_succ in Hfuel.
  cbn [OneShot.wait_for_link]. unfold bind at 1, time_time at 1.
  destruct (Z.ltb_spec (now w) timeout) as [Hlt|Hge].
  2:{ exists connected, false, w, [].
      split; [reflexivity|]. split; [reflexivity|].
      split; [cbn; rewrite orb_false_r; reflexivity|].
      split; [reflexivity|].
      split; [intros [|] ? ? E; discriminate|].
      split; [intros [|] ? ? E; discriminate|].
      split; [cbn; lia|]. split; [discriminate|]. intros _. exact Hge. }
  unfold bind at 1. rewrite (queue_get_quiet pid w Hq).
  destruct (queue w) as [|[wait line|exited] rest] eqn:Equeue.
  - (* nothing in the queue for half a second *)
    set (w2 := set_now (now w + 500) (set_blocked (S (blocked w)) w)).
    assert (Hr2 : still_running pid w2 = Ret true w2).
    { unfold still_running. subst w2; cbn. unfold running in Hrun.
      rewrite Hrun. reflexivity. }
    unfold bind. rewrite Hr2. cbn [negb].
    destruct (IH connected w2 Hq Hrun)
      as (c' & ip & w' & consumed & IHrun & IHq & IHc & IHip & IHs & IHb &
          IHe & IHx & IHd).
    { cbn [List.length] in Hfuel. lia. }
    { change (now w2) with (now w + 500). change (queue w2) with (queue w).
      rewrite Equeue. cbn [List.length] in *. lia. }
    change (queue w2) with (queue w) in IHq. rewrite Equeue in IHq.
    symmetry in IHq. apply app_eq_nil in IHq as [Hnil Hq'].
    change (now w2) with (now w + 500) in *.
    exists c', ip, w', consumed. rewrite IHrun.
    split; [reflexivity|].
    split; [rewrite Hnil, Hq'; reflexivity|].
    split; [exact IHc|]. split; [exact IHip|]. split; [exact IHs|].
    split; [intros pre x post E; specialize (IHb pre x post E); lia|].
    split; [lia|].
    split; [subst consumed; discriminate|exact IHd].
  - (* a line *)
    cbn [List.length] in Hfuel. rewrite Nat2Z.inj_succ in Hfuel.
    pose proof (get_wait_bounds wait) as Hwait.
    set (w1 := set_now (now w + get_wait wait)
                 (set_queue rest (set_blocked (S (blocked w)) w))).
    set (connected1 := if OneShot.is_link_up line then true else connected).
    assert (Hc1 : connected1 = connected || OneShot.is_link_up line).
    { subst connected1. destruct (OneShot.is_link_up line), connected; reflexivity. }
    assert (Hone : forall ip,
        ip = OneShot.is_ip_assigned line ->
        stops (Got wait line) = true ->
        exists connected' ip' w' consumed,
          Ret (connected1, ip) w1 = Ret (connected', ip') w' /\
          (Got wait line :: rest = consumed ++ queue w')%list /\
          connected' = connected || existsb link_up_item consumed /\
          ip' = existsb ip_item consumed /\
          (forall pre x post,
              consumed = (pre ++ x :: post)%list -> stops x = true -> post = []) /\
          (forall pre x post,
              consumed = (pre ++ x :: post)%list ->
              now w + elapsed pre < timeout) /\
          now w + elapsed consumed <= now w' /\
          (existsb stops consumed = true ->
           now w' = now w + elapsed consumed) /\
          (existsb stops consumed = false -> timeout <= now w')).
    { intros ip Hip Hst. exists connected1, ip, w1, [Got wait line].
      split; [reflexivity|]. split; [reflexivity|].
      split; [cbn; rewrite orb_false_r; exact Hc1|].
      split; [cbn; rewrite orb_false_r; exact Hip|].
      split; [apply stops_first_single|].
      split; [apply begun_before_single; exact Hlt|].
      split; [subst w1; cbn; lia|].
      split; [intros _; subst w1; cbn; lia|].
      cbn [existsb]. rewrite Hst. discriminate. }
    destruct (OneShot.is_ip_assigned line) eqn:Eip.
    { apply Hone; [reflexivity|].
      unfold stops, ip_item. rewrite Eip. reflexivity. }
    destruct (OneShot.is_lcp_failure line) eqn:Elcp.
    { apply Hone; [reflexivity|].
      unfold stops, ip_item, failure_item, is_failure_line.
      rewrite Eip, Elcp. reflexivity. }
    destruct (OneShot.is_script_failure line) eqn:Escr.
    { apply Hone; [reflexivity|].
      unfold stops, ip_item, failure_item, is_failure_line.
      rewrite Eip, Elcp, Escr. reflexivity. }
    destruct (IH connected1 w1 Hq Hrun)
      as (c' & ip & w' & consumed & IHrun & IHq & IHc & IHip & IHs & IHb &
          IHe & IHx & IHd).
    { lia. }
    { change (now w1) with (now w + get_wait wait).
      change (queue w1) with rest. lia. }
    change (now w1) with (now w + get_wait wait) in *.
    exists c', ip, w', (Got wait line :: consumed). unfold bind. rewrite IHrun.
    assert (Hstop : stops (Got wait line) = false).
    { unfold stops, ip_item, failure_item, is_failure_line.
      rewrite Eip, Elcp, Escr. reflexivity. }
    split; [reflexivity|].
    split; [cbn; rewrite <- IHq; reflexivity|].
    split; [cbn [existsb link_up_item]; rewrite IHc, Hc1, orb_assoc; reflexivity|].
    split; [cbn [existsb ip_item]; rewrite Eip; exact IHip|].
    split; [apply stops_first_cons; assumption|].
    split; [apply begun_before_cons; [exact Hlt|exact IHb]|].
    cbn [elapsed fold_right item_time]. fold (elapsed consumed).
    split; [lia|].
    cbn [existsb]. rewrite Hstop. cbn [orb].
    split; [intros H; rewrite (IHx H); lia|exact IHd].
  - (* nothing in the queue, and the process polled *)
    cbn [List.length] in Hfuel. rewrite Nat2Z.inj_succ in Hfuel.
    destruct exited.
    + cbv zeta.
      match goal with |- context [Ret None ?x] => set (w1 := x) end.
      exists connected, false, w1, [Empty true].
      unfold bind, still_running.
      assert (Hex : nth_error (procs w1) pid = Some Exited).
      { subst w1. apply set_proc_exited. exact Hrun. }
      rewrite Hex. cbn [negb].
      split; [reflexivity|]. split; [reflexivity|].
      split; [cbn; rewrite orb_false_r; reflexivity|].
      split; [reflexivity|].
      split; [apply stops_first_single|].
      split; [apply begun_before_single; exact Hlt|].
      split; [subst w1; cbn; lia|].
      split; [intros _; subst w1; cbn; lia|discriminate].
    + cbv zeta.
      match goal with |- context [Ret None ?x] => set (w1 := x) end.
      unfold bind, still_running.
      assert (Hr1 : nth_error (procs w1) pid = Some Running) by exact Hrun.
      rewrite Hr1. cbn [negb].
      destruct (IH connected w1 Hq Hrun)
        as (c' & ip & w' & consumed & IHrun & IHq & IHc & IHip & IHs & IHb &
            IHe & IHx & IHd).
      { lia. }
      { change (now w1) with (now w + 500). change (queue w1) with rest. lia. }
      change (now w1) with (now w + 500) in *.
      exists c', ip, w', (Empty false :: consumed). rewrite IHrun.
      split; [reflexivity|].
      split; [cbn; rewrite <- IHq; reflexivity|].
      split; [exact IHc|].
      split; [exact IHip|].
      split; [apply stops_first_cons; [reflexivity|assumption]|].
      split; [apply (begun_before_cons (Empty false)); [exact Hlt|exact IHb]|].
      cbn [elapsed fold_right item_time]. fold (elapsed consumed).
      split; [lia|].
      cbn [existsb stops ip_item failure_item orb].
      split; [intros H; rewrite (IHx H); lia|exact IHd].
Qed.

Lemma ip_item_stops consumed :
  existsb stops consumed = false -> existsb ip_item consumed = false.
Proof.
  induction consumed as [|q l IH]; cbn; [reflexivity|].
  unfold stops at 1. intros H.
  apply orb_false_iff in H as [H1 H2]. apply orb_false_iff in H1 as [H1 _].
  rewrite H1. auto.
Qed.

Lemma failure_item_not_ip x : failure_item x = true -> ip_item x = false.
Proof.
  destruct x as [wait line|e]; cbn; [|reflexivity].
  destruct (OneShot.is_ip_assigned line); [discriminate|reflexivity].
Qed.

(** C2, as the code has it.  With no signal pending and the negotiation
    process running, the supervisor's wait ends.  Every item it takes from
    the queue is taken by a [get] that began before the deadline, and it
    stops at the first item that is an IP-assignment line, a failure line or
    an empty queue with the process gone.  The outcome is success exactly
    when a link-up line and an IP-assignment line are among the items taken;
    the [get] that delivers the IP-assignment line may return after the
    deadline, less than half a second after it.  A failure line that does
    not also carry an IP-assignment text, and the process found gone, end
    the wait as failure with nothing taken after them; so does the deadline
    when no stopping item came before it. *)
Theorem wait_for_link_classifies (pid : nat) (timeout : Z) (fuel : nat)
    (w : world)
    (Hquiet : sigint_at w = None)
    (Hrun : running pid w)
    (Hpos : (0 < fuel)%nat)
    (Hfuel : timeout - now w <=
             500 * (Z.of_nat fuel - 2 - Z.of_nat (List.length (queue w)))) :
  exists connected ip w' consumed,
    OneShot.wait_for_link pid timeout false false fuel w =
      Ret (connected, ip) w' /\
    queue w = (consumed ++ queue w')%list /\
    (connected && ip = true <->
     existsb link_up_item consumed = true /\ existsb ip_item consumed = true) /\
    (forall pre x post,
        consumed = (pre ++ x :: post)%list -> stops x = true -> post = []) /\
    (forall x, In x consumed -> failure_item x = true ->
               connected && ip = false) /\
    (forall pre x post,
        consumed = (pre ++ x :: post)%list -> now w + elapsed pre < timeout) /\
    (connected && ip = true ->
     now w' = now w + elapsed consumed /\ now w' < timeout + 500) /\
    (existsb stops consumed = false ->
     timeout <= now w' /\ connected && ip = false).
Proof.
  destruct (wait_for_link_run pid timeout fuel false w Hquiet Hrun Hpos Hfuel)
    as (c & ip & w' & consumed & Hr & Hqueue & Hc & Hip & Hfirst & Hbegun &
        Hle & Hexact & Hd).
  exists c, ip, w', consumed. cbn [orb] in Hc.
  split; [exact Hr|]. split; [exact Hqueue|].
  split; [rewrite andb_true_iff; subst c ip; tauto|].
  split; [exact Hfirst|].
  split.
  { intros x Hin Hfail. apply andb_false_iff. right.
    destruct ip; [|reflexivity]. exfalso.
    symmetry in Hip. apply existsb_exists in Hip as (y & Hy & Hyip).
    apply in_split in Hin as (pre & post & E).
    apply in_split in Hy as (pre' & post' & E').
    assert (Hsx : stops x = true) by (unfold stops; rewrite Hfail; apply orb_true_r).
    assert (Hsy : stops y = true) by (unfold stops; rewrite Hyip; reflexivity).
    pose proof (Hfirst _ _ _ E Hsx) as ->.
    pose proof (Hfirst _ _ _ E' Hsy) as ->.
    rewrite E in E'. apply app_inj_tail in E' as [_ ->].
    rewrite (failure_item_not_ip _ Hfail) in Hyip. discriminate. }
  split; [exact Hbegun|].
  split.
  - intros H. apply andb_true_iff in H as [_ H]. subst ip.
    pose proof H as Hy. apply existsb_exists in Hy as (y & Hy & Hyip).
    assert (Hsy : stops y = true) by (unfold stops; rewrite Hyip; reflexivity).
    assert (Hst : existsb stops consumed = true)
      by (apply existsb_exists; exists y; split; assumption).
    specialize (Hexact Hst). split; [exact Hexact|].
    apply in_split in Hy as (pre & post & E).
    pose proof (Hfirst _ _ _ E Hsy) as ->.
    pose proof (Hbegun _ _ _ E) as Hb.
    rewrite Hexact, E, elapsed_app. cbn [elapsed fold_right].
    pose proof (item_time_bounds y). lia.
  - intros H. split; [auto|].
    apply andb_false_iff. right. rewrite Hip. apply ip_item_stops. exact H.
Qed.

Lemma wait_for_link_classifies_witness :
  let w := set_queue [Got 0 (lit "Connect: ppp0 <--> /dev/ttyS0"); Empty false;
                      Got 250 (lit "local  IP address 10.64.64.64")]
             (set_procs [Running] boot) in
  exists connected ip w' consumed,
    OneShot.wait_for_link 0 90000 false false 200 w =
      Ret (connected, ip) w' /\
    queue w = (consumed ++ queue w')%list /\
    (connected && ip = true <->
     existsb link_up_item consumed = true /\ existsb ip_item consumed = true) /\
    (forall pre x post,
        consumed = (pre ++ x :: post)%list -> stops x = true -> post = []) /\
    (forall x, In x consumed -> failure_item x = true ->
               connected && ip = false) /\
    (forall pre x post,
        consumed = (pre ++ x :: post)%list -> now w + elapsed pre < 90000) /\
    (connected && ip = true ->
     now w' = now w + elapsed consumed /\ now w' < 90000 + 500) /\
    (existsb stops consumed = false ->
     90000 <= now w' /\ connected && ip = false).
Proof.
  intros w.
  apply (wait_for_link_classifies 0 90000 200 w);
    [reflexivity|reflexivity|lia|cbn; lia].
Defined.

(** C2 as stated fails on its second clause: a line with the text
    [LCP: timeout] that also carries an IP-assignment text ends the wait as
    success when the link is up. *)
Lemma failure_text_in_ip_line_succeeds :
  let line := lit "local  IP address 10.64.64.64 (after LCP: timeout)" in
  OneShot.is_lcp_failure line = true /\
  exists w',
    OneShot.wait_for_link 0 90000 false false 200
      (set_queue [Got 0 (lit "Connect: ppp0 <--> /dev/ttyS0"); Got 0 line]
         (set_procs [Running] boot)) = Ret (true, true) w'.
Proof. split; [reflexivity|eexists; vm_compute; reflexivity]. Qed.

(** It also fails on [before the deadline]: the deadline is tested before
    each [get], not after it, so an IP-assignment line that a [get] begun
    0.1 s before the deadline delivers 0.3 s after it ends the wait as
    success. *)
Example ip_line_after_deadline_succeeds :
  exists w',
    OneShot.wait_for_link 0 90000 false false 400
      (set_queue
         (Got 0 (lit "Connect: ppp0 <--> /dev/ttyS0") ::
          repeat (Empty false) 179 ++
          [Got 400 (lit "sent [LCP ConfReq id=0x1]");
           Got 400 (lit "local  IP address 10.64.64.64")])%list
         (set_procs [Running] boot)) = Ret (true, true) w' /\
    now w' = 90300.
Proof. eexists. vm_compute. split; reflexivity. Qed.

Example wait_for_link_samples :
  let run q := match OneShot.wait_for_link 0 90000 false false 400
                       (set_queue q (set_procs [Running] boot)) with
               | Ret (c, ip) w' => Some (c && ip, List.length (queue w'), now w')
               | _ => None
               end in
  run [Got 0 (lit "Connect: ppp0 <--> /dev/ttyS0");
       Got 120 (lit "remote IP address 10.0.0.1"); Got 0 (lit "more")] =
    Some (true, 1%nat, 120) /\
  run [Got 0 (lit "Connect: ppp0 <--> /dev/ttyS0"); Got 0 (lit "LCP: timeout sending");
       Got 0 (lit "local  IP address 10.0.0.1")] = Some (false, 1%nat, 0) /\
  run [Got 0 (lit "local  IP address 10.0.0.1")] = Some (false, 0%nat, 0) /\
  run [Empty false; Empty true; Got 0 (lit "Connect: ppp0")] =
    Some (false, 1%nat, 1000) /\
  run [Got 0 (lit "Connect: ppp0 <--> /dev/ttyS0")] = Some (false, 0%nat, 90000).
Proof. vm_compute. repeat split. Qed.

(** ** Teardown *)

Lemma remove_chat_script_run p w :
  remove_chat_script p w =
  Ret tt match truthy_path p with
         | Some q => if file_exists q w then removed q w else w
         | None => w
         end.
Proof.
  unfold remove_chat_script. destruct (truthy_path p) as [q|]; [|reflexivity].
  unfold bind, os_path_exists, os_remove, ret.
  destruct (file_exists q w) eqn:E; [|reflexivity].
  rewrite E. reflexivity.
Qed.

Lemma file_exists_removed q w : file_exists q (removed q w) = false.
Proof.
  unfold file_exists, removed. cbn. induction (files w) as [|f l IH]; cbn; [reflexivity|].
  destruct (String.eqb q f) eqn:E; cbn; [exact IH|].
  rewrite E. exact IH.
Qed.

Lemma not_running_stays pid w :
  nth_error (procs w) pid <> Some Running -> OneShot.terminate (Some pid) w = Ret tt w.
Proof.
  intros H. unfold OneShot.terminate, bind, still_running.
  destruct (nth_error (procs w) pid) as [[|]|]; [congruence|reflexivity|reflexivity].
Qed.

Lemma set_proc_not_running pid w :
  nth_error (procs (set_proc pid Exited w)) pid <> Some Running.
Proof.
  unfold set_proc. cbn. generalize (procs w) as l.
  induction pid as [|pid IH]; intros [|p l]; cbn; try discriminate.
  apply IH.
Qed.

(** The [try] block of [cleanup_ppp] ends with the process not running,
    unless a signal cuts its pause short. *)
Lemma terminate_spec process w :
  match OneShot.terminate process w with
  | Ret _ w' =>
      (forall pid, process = Some pid ->
                   nth_error (procs w') pid <> Some Running) /\
      files w' = files w
  | Raise e _ => ~ is_error e
  | OutOfFuel => False
  end.
Proof.
  destruct process as [pid|]; [|cbn; split; [discriminate|reflexivity]].
  unfold OneShot.terminate, bind at 1, still_running at 1.
  destruct (nth_error (procs w) pid) as [[|]|] eqn:Ep;
    try (cbn; split; [intros ? [= <-]; congruence|reflexivity]).
  unfold bind at 1, send_sigterm. unfold bind at 1.
  match goal with |- context [sleep 2000 ?x] =>
    pose proof (sleep_spec 2000 x) as Hs; destruct (sleep 2000 x) as [[] w2|e w2|]
  end; [|apply Hs|exact Hs].
  unfold bind, still_running. subst w2.
  destruct (obeys_term w) eqn:Eo; cbn [procs set_log set_now set_blocked].
  - pose proof (set_proc_not_running pid (set_log (Sigterm pid :: log w) w)) as Hn.
    match goal with |- context [nth_error ?l pid] =>
      change (nth_error l pid)
        with (nth_error (procs (set_proc pid Exited
                                  (set_log (Sigterm pid :: log w) w))) pid)
    end.
    destruct (nth_error (procs (set_proc pid Exited
                                  (set_log (Sigterm pid :: log w) w))) pid)
      as [[|]|] eqn:E2; [congruence| |].
    + cbn. split; [intros ? [= <-]; cbn|reflexivity].
      change (nth_error (procs (set_proc pid Exited
                (set_log (Sigterm pid :: log w) w))) pid <> Some Running).
      rewrite E2. discriminate.
    + cbn. split; [intros ? [= <-]; cbn|reflexivity].
      change (nth_error (procs (set_proc pid Exited
                (set_log (Sigterm pid :: log w) w))) pid <> Some Running).
      rewrite E2. discriminate.
  - cbn [procs]. rewrite Ep. unfold kill.
    split; [intros ? [= <-]; apply set_proc_not_running|reflexivity].
Qed.

Lemma cleanup_ppp_spec process path stop_event w :
  match OneShot.cleanup_ppp process path stop_event w with
  | Ret _ w1 =>
      (forall pid, process = Some pid ->
                   nth_error (procs w1) pid <> Some Running) /\
      (forall q, truthy_path path = Some q -> file_exists q w1 = false)
  | Raise e _ => ~ is_error e
  | OutOfFuel => False
  end.
Proof.
  unfold OneShot.cleanup_ppp. unfold bind at 1.
  set (w0 := if stop_event then set_log (StopReader :: log w) w else w).
  assert (E0 : (if stop_event then emit StopReader else ret tt) w = Ret tt w0)
    by (subst w0; destruct stop_event; reflexivity).
  rewrite E0. unfold bind at 1, try_except.
  pose proof (terminate_spec process w0) as Ht.
  destruct (OneShot.terminate process w0) as [[] w1|e w1|]; [| |exact Ht].
  2:{ destruct e as [msg| |code]; [exfalso; apply Ht; eexists; reflexivity| |];
        intros [m Hm]; discriminate. }
  destruct Ht as [Hp Hf].
  unfold bind at 1, subprocess_run, emit. unfold bind at 1. unfold bind.
  rewrite remove_chat_script_run.
  split.
  - intros pid Hpid. specialize (Hp pid Hpid).
    destruct (truthy_path path) as [q|]; [|exact Hp].
    match goal with |- context [file_exists q ?x] =>
      destruct (file_exists q x) end; exact Hp.
  - intros q Hq. rewrite Hq.
    match goal with |- context [if file_exists q ?x then _ else _] =>
      destruct (file_exists q x) eqn:E end;
      [apply file_exists_removed|exact E].
Qed.

Lemma cleanup_ppp_again process path stop_event w1 :
  (forall pid, process = Some pid ->
               nth_error (procs w1) pid <> Some Running) ->
  (forall q, truthy_path path = Some q -> file_exists q w1 = false) ->
  exists w2 delta,
    OneShot.cleanup_ppp process path stop_event w1 = Ret tt w2 /\
    performed w1 w2 delta /\
    forallb (fun a => negb (is_remove a || is_signal a)) delta = true /\
    files w2 = files w1 /\ procs w2 = procs w1.
Proof.
  intros Hp Hf.
  unfold OneShot.cleanup_ppp. unfold bind at 1.
  set (w0 := if stop_event then set_log (StopReader :: log w1) w1 else w1).
  assert (E0 : (if stop_event then emit StopReader else ret tt) w1 = Ret tt w0)
    by (subst w0; destruct stop_event; reflexivity).
  rewrite E0. unfold bind at 1, try_except.
  assert (Et : OneShot.terminate process w0 = Ret tt w0).
  { destruct process as [pid|]; [|reflexivity].
    apply not_running_stays. subst w0.
    destruct stop_event; apply Hp; reflexivity. }
  rewrite Et.
  unfold bind at 1, subprocess_run, emit. unfold bind at 1. unfold bind.
  rewrite remove_chat_script_run.
  assert (Hno : match truthy_path path with
                | Some q => file_exists q w1 = false
                | None => True
                end)
    by (destruct (truthy_path path); auto).
  exists (set_log
            ([Run ["sudo"; "rm"; "-f"; "/var/lock/LCK..ttyS0"]%string;
              Run ["sudo"; "pkill"; "-f"; "pppd"]%string;
              Run ["sudo"; "poff"; "-a"]%string] ++
             (if stop_event then [StopReader] else []) ++ log w1)%list w1).
  exists ([Run ["sudo"; "rm"; "-f"; "/var/lock/LCK..ttyS0"]%string;
           Run ["sudo"; "pkill"; "-f"; "pppd"]%string;
           Run ["sudo"; "poff"; "-a"]%string] ++
          (if stop_event then [StopReader] else []))%list.
  subst w0. destruct stop_event; (destruct (truthy_path path) as [q|];
    [match goal with |- context [if file_exists q ?x then _ else _] =>
       change (file_exists q x) with (file_exists q w1) end;
     rewrite Hno|]; repeat split).
Qed.

Lemma cleanup_connection_run w :
  cleanup_connection w =
  let w1 := set_log (Run ["sudo"; "pkill"; "-f"; "pppd"]%string ::
                     Run ["sudo"; "poff"; "-a"]%string :: log w) w in
  Ret tt match truthy_path (tmp_chat_path w) with
         | Some q => if file_exists q w then removed q w1 else w1
         | None => w1
         end.
Proof.
  unfold cleanup_connection, bind, subprocess_run, emit, load_tmp_chat_path.
  rewrite remove_chat_script_run. cbn. reflexivity.
Qed.

Lemma cleanup_connection_again w :
  exists w1 w2 delta,
    cleanup_connection w = Ret tt w1 /\
    cleanup_connection w1 = Ret tt w2 /\
    signal_handler w1 = Raise (SystemExit 0) w2 /\
    performed w1 w2 delta /\
    forallb (fun a => negb (is_remove a)) delta = true /\
    files w2 = files w1.
Proof.
  assert (Hsecond : forall w1,
      match truthy_path (tmp_chat_path w1) with
      | Some q => file_exists q w1 = false
      | None => True
      end ->
      exists w2 delta,
        cleanup_connection w1 = Ret tt w2 /\
        signal_handler w1 = Raise (SystemExit 0) w2 /\
        performed w1 w2 delta /\
        forallb (fun a => negb (is_remove a)) delta = true /\
        files w2 = files w1).
  { intros w1 H. unfold signal_handler, bind. rewrite cleanup_connection_run.
    cbv zeta. destruct (truthy_path (tmp_chat_path w1)) as [q|].
    - rewrite H. eexists. eexists [_; _]. repeat split.
    - eexists. eexists [_; _]. repeat split. }
  rewrite (cleanup_connection_run w). cbv zeta.
  destruct (truthy_path (tmp_chat_path w)) as [q|] eqn:Ep.
  - destruct (file_exists q w) eqn:Ef.
    + match goal with |- context [Ret tt ?x = Ret tt _] =>
        destruct (Hsecond x) as (w2 & delta & H1 & H2 & H3)
      end.
      { change (tmp_chat_path (removed q _)) with (tmp_chat_path w).
        rewrite Ep. apply file_exists_removed. }
      eexists. exists w2, delta. split; [reflexivity|]. tauto.
    + match goal with |- context [Ret tt ?x = Ret tt _] =>
        destruct (Hsecond x) as (w2 & delta & H1 & H2 & H3)
      end.
      { cbn [tmp_chat_path set_log]. rewrite Ep. exact Ef. }
      eexists. exists w2, delta. split; [reflexivity|]. tauto.
  - match goal with |- context [Ret tt ?x = Ret tt _] =>
      destruct (Hsecond x) as (w2 & delta & H1 & H2 & H3)
    end.
    { cbn [tmp_chat_path set_log]. rewrite Ep. exact I. }
    eexists. exists w2, delta. split; [reflexivity|]. tauto.
Qed.

(** C6. Teardown is idempotent.  [cleanup_ppp] raises no error for any
    process handle and path (only a signal arriving during its pause of 2 s
    leaves it by an exception); run a second time after it returned, it
    returns again, sends no signal to the process and removes no file: the
    chat script is already gone and [os.remove] is not called.  The same
    holds for [cleanup_connection] of the persistent script, also when the
    second run is the one of [signal_handler]. *)
Theorem teardown_idempotent (process : option nat) (path : option string)
    (stop_event stop_event' : bool) (w : world) :
  match OneShot.cleanup_ppp process path stop_event w with
  | Ret _ _ => True
  | Raise e _ => ~ is_error e
  | OutOfFuel => False
  end /\
  (forall w1,
     OneShot.cleanup_ppp process path stop_event w = Ret tt w1 ->
     exists w2 delta,
       OneShot.cleanup_ppp process path stop_event' w1 = Ret tt w2 /\
       performed w1 w2 delta /\
       forallb (fun a => negb (is_remove a || is_signal a)) delta = true /\
       files w2 = files w1) /\
  (exists w1 w2 delta,
     cleanup_connection w = Ret tt w1 /\
     cleanup_connection w1 = Ret tt w2 /\
     signal_handler w1 = Raise (SystemExit 0) w2 /\
     performed w1 w2 delta /\
     forallb (fun a => negb (is_remove a)) delta = true /\
     files w2 = files w1).
Proof.
  pose proof (cleanup_ppp_spec process path stop_event w) as Hs.
  split; [destruct (OneShot.cleanup_ppp process path stop_event w); tauto|].
  split; [|apply cleanup_connection_again].
  intros w1 E. rewrite E in Hs. destruct Hs as [Hp Hf].
  destruct (cleanup_ppp_again process path stop_event' w1 Hp Hf)
    as (w2 & delta & H1 & H2 & H3 & H4 & _).
  exists w2, delta. auto.
Qed.

Lemma teardown_idempotent_witness :
  exists w1 w2 delta,
    OneShot.cleanup_ppp (Some O) (Some "/tmp/tmpq1w2e3"%string) false
      negotiating = Ret tt w1 /\
    OneShot.cleanup_ppp (Some O) (Some "/tmp/tmpq1w2e3"%string) true w1 =
      Ret tt w2 /\
    performed w1 w2 delta /\
    forallb (fun a => negb (is_remove a || is_signal a)) delta = true /\
    files w2 = files w1.
Proof.
  destruct (OneShot.cleanup_ppp (Some O) (Some "/tmp/tmpq1w2e3"%string) false
              negotiating) as [[] w1|e w1|] eqn:E;
    [|vm_compute in E; discriminate|vm_compute in E; discriminate].
  destruct (proj1 (proj2 (teardown_idempotent (Some O)
                            (Some "/tmp/tmpq1w2e3"%string) false true
                            negotiating)) w1 E)
    as (w2 & delta & H).
  exists w1, w2, delta. split; [reflexivity|exact H].
Defined.

Example teardown_twice :
  exists w1 w2,
    OneShot.cleanup_ppp (Some O) (Some "/tmp/tmpq1w2e3"%string) false
      negotiating = Ret tt w1 /\
    history w1 =
      [Sigterm 0; Sleep 2000; Kill 0; Run ["sudo"; "poff"; "-a"]%string;
       Run ["sudo"; "pkill"; "-f"; "pppd"]%string;
       Run ["sudo"; "rm"; "-f"; "/var/lock/LCK..ttyS0"]%string;
       Remove "/tmp/tmpq1w2e3"] /\
    files w1 = [] /\ procs w1 = [Exited] /\
    OneShot.cleanup_ppp (Some O) (Some "/tmp/tmpq1w2e3"%string) true w1 =
      Ret tt w2 /\
    skipn 7 (history w2) =
      [StopReader; Run ["sudo"; "poff"; "-a"]%string;
       Run ["sudo"; "pkill"; "-f"; "pppd"]%string;
       Run ["sudo"; "rm"; "-f"; "/var/lock/LCK..ttyS0"]%string].
Proof. do 2 eexists. vm_compute. repeat split. Qed.

(** ** Relations kept along a computation *)

Section Invariant.

Variable R : world -> world -> Prop.
Hypothesis R_refl : forall w, R w w.
Hypothesis R_trans : forall w1 w2 w3, R w1 w2 -> R w2 w3 -> R w1 w3.

Lemma respects_ret {A} (a : A) : respects R (ret a).
Proof. intros w. apply R_refl. Qed.

Lemma respects_raise {A} (e : exn) : respects R (@raise A e).
Proof. intros w. apply R_refl. Qed.

Lemma respects_bind {A B} (c : M A) (k : A -> M B) :
  respects R c -> (forall a, respects R (k a)) -> respects R (bind c k).
Proof.
  intros Hc Hk w. unfold bind. specialize (Hc w).
  destruct (c w) as [a w1|e w1|]; [|exact Hc|exact I].
  specialize (Hk a w1). destruct (k a w1); eauto.
Qed.

Lemma respects_try_except {A} (body : M A) (h : string -> M A) :
  respects R body -> (forall msg, respects R (h msg)) ->
  respects R (try_except body h).
Proof.
  intros Hb Hh w. unfold try_except. specialize (Hb w).
  destruct (body w) as [a w1|[msg| |code] w1|]; auto.
  specialize (Hh msg w1). destruct (h msg w1); eauto.
Qed.

Lemma respects_time_time : respects R time_time.
Proof. intros w. apply R_refl. Qed.

Hypothesis sleep_R : forall ms, respects R (sleep ms).
Hypothesis read_R : respects R ser_read_waiting.
Hypothesis close_R : respects R ser_close.
Hypothesis write_R : forall data, respects R (ser_write data).
Hypothesis captured_R : forall argv, respects R (subprocess_run_captured argv).
Hypothesis status_R : respects R Service.print_status_line.

Lemma respects_read_response h fuel : forall start_time timeout response,
  respects R (read_response h fuel start_time timeout response).
Proof.
  induction fuel as [|fuel IH]; intros start_time timeout response;
    [intros w; exact I|].
  cbn [read_response]. apply respects_bind; [apply respects_time_time|].
  intros t. destruct (t - start_time <? timeout); [|apply respects_ret].
  apply respects_bind; [apply read_R|]. intros [|b bs].
  - apply respects_bind; [apply sleep_R|]. intros _. apply IH.
  - destruct (has_final_token _); [apply respects_ret|].
    apply respects_bind; [apply sleep_R|]. intros _. apply IH.
Qed.








End Invariant.

(** ** The cached signal reading *)



Lemma snapshot_kept_trans w1 w2 w3 :
  snapshot_kept w1 w2 -> snapshot_kept w2 w3 -> snapshot_kept w1 w3.
Proof.
  intros [H1 (d1 & P1 & F1)] [H2 (d2 & P2 & F2)].
  split; [congruence|]. exists (d2 ++ d1)%list. split.
  - unfold performed in *. rewrite P2, P1, app_assoc. reflexivity.
  - apply Forall_app. split; [rewrite <- H1; exact F2|exact F1].
Qed.


Lemma blocking_call_keeps_snapshot : respects snapshot_kept blocking_call.
Proof.
  intros w. unfold blocking_call.
  assert (Hb : snapshot_kept w (set_blocked (S (blocked w)) w)).
  { split; [reflexivity|]. exists []. split; [reflexivity|constructor]. }
  destruct (sigint_at w) as [n|]; [|exact Hb].
  destruct (Nat.eqb n (blocked w)); [|exact Hb].
  destruct (handler w); [|exact Hb].
  unfold signal_handler, bind. rewrite cleanup_connection_run. cbv zeta.
  unfold sys_exit, raise.
  destruct (truthy_path _) as [q|];
    [match goal with |- context [if ?b then _ else _] => destruct b end|];
    (split; [reflexivity|]).
  - exists [Remove q; Run ["sudo"; "pkill"; "-f"; "pppd"]%string;
            Run ["sudo"; "poff"; "-a"]%string].
    split; [reflexivity|repeat constructor].
  - exists [Run ["sudo"; "pkill"; "-f"; "pppd"]%string;
            Run ["sudo"; "poff"; "-a"]%string].
    split; [reflexivity|repeat constructor].
  - exists [Run ["sudo"; "pkill"; "-f"; "pppd"]%string;
            Run ["sudo"; "poff"; "-a"]%string].
    split; [reflexivity|repeat constructor].
Qed.

Lemma sleep_keeps_snapshot ms : respects snapshot_kept (sleep ms).
Proof.
  intros w. unfold sleep, bind.
  pose proof (blocking_call_keeps_snapshot w) as Hb.
  destruct (blocking_call w) as [[] w1|e w1|]; [|exact Hb|exact I].
  eapply snapshot_kept_trans; [exact Hb|].
  split; [reflexivity|]. exists [Sleep ms]. split; [reflexivity|].
  repeat constructor.
Qed.








Lemma bind_ret_inv {A B} (c : M A) (k : A -> M B) w b w' :
  bind c k w = Ret b w' -> exists a w1, c w = Ret a w1 /\ k a w1 = Ret b w'.
Proof.
  unfold bind. destruct (c w) as [a w1|e w1|]; try discriminate. eauto.
Qed.

Lemma check_in_stores_reading fuel w w0 :
  Service.check_in fuel w = Ret tt w0 ->
  exists w1 w2 info,
    get_signal_strength_at_init fuel w1 = Ret info w2 /\
    w0 = set_last_signal_info info w2.
Proof.
  unfold Service.check_in. intros H.
  apply bind_ret_inv in H as (_ & wa & _ & H).
  apply bind_ret_inv in H as (_ & wb & _ & H).
  apply bind_ret_inv in H as (_ & wc & _ & H).
  apply bind_ret_inv in H as (_ & w1 & _ & H).
  apply bind_ret_inv in H as (info & w2 & Hq & H).
  unfold Service.store_last_signal_info in H. injection H as <-.
  exists w1, w2, info. split; [exact Hq|reflexivity].
Qed.

















(** Three ticks of the monitor after a successful start: each status line
    shows the reading taken during bring-up. *)
Example monitor_shows_cached_reading :
  exists w',
    (Service.install_handler ;;
     _ <- Service.start_persistent_connection 400 "airtelgprs.com" ;;
     Service.monitor_ticks 3 0)
      (set_captured [(1, []); (0, lit "inet 10.0.0.1")]
         (set_wire cooperative_line_service boot)) = Ret 3%nat w' /\
    filter (fun a => match a with StatusLine _ _ _ => true | _ => false end)
      (history w') = repeat (StatusLine (Some 18) "Good" "✓") 3 /\
    writes (history w') =
      map (fun c => (c ++ CRLF)%string)
        ["ATZ"; "ATE0"; "AT+CSQ"; "AT+CREG?"; "AT+COPS?"; "AT+CGATT=1";
         "AT+CGATT?"]%string.
Proof. eexists. vm_compute. repeat split. Qed.

(** ** Exits that skip the cleanup *)

(** C8, where the code departs from it.  A transport error after the device
    was opened takes [initialize_modem] to its [except] branch, which
    returns failure without calling [ser.close()]: the run opens the device
    and performs no close, where the registration-timeout exit of the same
    function ends with one.  (The port is then released only when the
    [Serial] object is finalized, which is not in the code and not in the
    model.)  The persistent script does the same, and so does its signal
    query for the device it opens itself. *)
Theorem bring_up_error_skips_close :
  (exists w',
     OneShot.initialize_modem 60 60000 (set_wire [Broken] boot) = Ret false w' /\
     existsb is_close (log w') = false /\
     history w' = [SerialOpen; Sleep 1000; SerialWrite ("ATZ" ++ CRLF); Sleep 200]) /\
  (exists w',
     Service.initialize_modem 60 60000
       (set_wire [reply "OK"; reply "OK"; Broken; Broken] boot) = Ret false w' /\
     existsb is_close (log w') = false /\
     history w' =
       [SerialOpen; Sleep 1000; SerialWrite ("ATZ" ++ CRLF); Sleep 200;
        SerialWrite ("ATE0" ++ CRLF); Sleep 200;
        SerialOpen; SerialWrite ("AT+CSQ" ++ CRLF); Sleep 200;
        SerialWrite ("AT+CREG?" ++ CRLF); Sleep 200]) /\
  (exists w',
     OneShot.initialize_modem 60 60000 (set_wire (searching_line 40) boot) =
       Ret false w' /\
     hd SerialOpen (log w') = SerialClose).
Proof. repeat split; eexists; vm_compute; repeat split. Qed.

(** The other fatal exits of bring-up do close the device, and a failed
    negotiation ends with the process terminated: SIGTERM, and SIGKILL when
    it is still running two seconds later. *)
Example negotiation_failure_kills_process :
  exists w',
    OneShot.main 400
      (set_obeys_term false
         (set_queue [Got 0 (lit "LCP: timeout sending Config-Requests")]
            (set_wire cooperative_line boot))) = Ret tt w' /\
    procs w' = [Exited] /\ file_exists "/tmp/tmpq1w2e3" w' = false /\
    handles w' = O /\
    filter (fun a => is_signal a || is_remove a) (history w') =
      [Sigterm 0; Kill 0; Remove "/tmp/tmpq1w2e3"].
Proof. eexists. vm_compute. repeat split. Qed.

(** C5, where the code departs from it.  In the one-shot script an
    interrupt that arrives while [start_ppp] waits on the output queue, after
    the chat script was created, is caught nowhere: the script ends with
    [KeyboardInterrupt], no teardown runs, the chat script is still there
    and the negotiation process still runs. *)
Theorem interrupt_during_wait_leaves_chat_script :
  exists w',
    OneShot.main 400
      (set_sigint_at (Some 10%nat)
         (set_queue good_negotiation (set_wire cooperative_line boot))) =
      Raise KeyboardInterrupt w' /\
    files w' = ["/tmp/tmpq1w2e3"%string] /\
    existsb is_remove (log w') = false /\
    procs w' = [Running] /\
    hd SerialOpen (log w') =
      Popen (OneShot.ppp_cmd "/tmp/tmpq1w2e3").
Proof. eexists. vm_compute. repeat split. Qed.

(** Whenever they run, both teardown routines leave no chat script. *)
Lemma teardown_removes_chat_script :
  (forall process path stop_event w w',
     OneShot.cleanup_ppp process (Some path) stop_event w = Ret tt w' ->
     path <> ""%string -> file_exists path w' = false) /\
  (forall path w,
     tmp_chat_path w = Some path -> path <> ""%string ->
     exists w', signal_handler w = Raise (SystemExit 0) w' /\
                file_exists path w' = false).
Proof.
  split.
  - intros process path ev w w' E Hne.
    pose proof (cleanup_ppp_spec process (Some path) ev w) as H.
    rewrite E in H. apply H. unfold truthy_path.
    destruct (String.eqb_spec path ""); [contradiction|reflexivity].
  - intros path w Hp Hne. unfold signal_handler, bind.
    rewrite cleanup_connection_run. cbv zeta. rewrite Hp. unfold truthy_path.
    destruct (String.eqb_spec path ""); [contradiction|].
    eexists. split; [reflexivity|].
    destruct (file_exists path w) eqn:E; [apply file_exists_removed|exact E].
Qed.

(** The exits the scripts do cover.  In the one-shot script: a failed
    negotiation, a success followed by the hold, an interrupt during the
    hold. *)
Example oneshot_covered_exits :
  chat_script_gone
    (OneShot.main 400
       (set_queue [Got 0 (lit "Connect script failed")]
          (set_wire cooperative_line boot))) = true /\
  chat_script_gone
    (OneShot.main 400
       (set_queue good_negotiation (set_wire cooperative_line boot))) = true /\
  chat_script_gone
    (OneShot.main 400
       (set_sigint_at (Some 14%nat)
          (set_queue good_negotiation (set_wire cooperative_line boot)))) = true.
Proof. repeat split; vm_compute; reflexivity. Qed.

(** In the persistent script: a signal while the interface is awaited, a
    signal during the monitor loop, and a start that fails. *)
Example service_covered_exits :
  chat_script_gone
    (Service.main 400 3
       (set_sigint_at (Some 10%nat)
          (set_captured interface_comes_up
             (set_wire cooperative_line_service boot)))) = true /\
  chat_script_gone
    (Service.main 400 3
       (set_sigint_at (Some 13%nat)
          (set_captured interface_comes_up
             (set_wire cooperative_line_service boot)))) = true /\
  chat_script_gone
    (Service.main 400 3 (set_wire cooperative_line_service boot)) = true.
Proof. repeat split; vm_compute; reflexivity. Qed.

(** * Further properties of the two scripts *)

(** ** The reader thread *)

Lemma lstrip_split s :
  exists p, s = (p ++ lstrip s)%list /\ forallb is_space p = true.
Proof.
  induction s as [|c s IH]; [exists []; split; reflexivity|].
  cbn [lstrip]. destruct (is_space c) eqn:E.
  - destruct IH as (p & Hs & Hp). exists (c :: p). split.
    + cbn. rewrite <- Hs. reflexivity.
    + cbn. rewrite E. exact Hp.
  - exists []. split; reflexivity.
Qed.

Lemma lstrip_head s c t : lstrip s = c :: t -> is_space c = false.
Proof.
  induction s as [|d s IH]; cbn [lstrip]; [discriminate|].
  destruct (is_space d) eqn:E; [exact IH|].
  intros H. injection H as <- _. exact E.
Qed.

(** A stripped string starts and ends with a code point that is no space. *)
Lemma strip_ends s c t :
  strip s = c :: t ->
  is_space c = false /\ is_space (last (c :: t) c) = false.
Proof.
  unfold strip, rstrip. intros H.
  set (u := lstrip s) in *.
  destruct (lstrip_split (rev u)) as (p & Hrev & Hp).
  set (v := lstrip (rev u)) in *.
  assert (Hu : u = (rev v ++ rev p)%list).
  { rewrite <- (rev_involutive u), Hrev, rev_app_distr. reflexivity. }
  split.
  - rewrite H in Hu. cbn in Hu. apply (lstrip_head s c (t ++ rev p)%list).
    fold u. exact Hu.
  - assert (Hv : v = rev (c :: t)) by (rewrite <- H, rev_involutive; reflexivity).
    destruct (rev (c :: t)) as [|d r] eqn:Er.
    + apply (f_equal (@rev N)) in Er. rewrite rev_involutive in Er. discriminate.
    + assert (Hl : last (c :: t) c = d).
      { apply (f_equal (@rev N)) in Er. rewrite rev_involutive in Er.
        rewrite Er. cbn. apply last_last. }
      rewrite Hl. apply (lstrip_head (rev u) d r). fold v. exact Hv.
Qed.

(** X1. Every line the reader thread puts on the queue is non-empty and has
    no white space at either end, and the thread queues at most one line per
    turn of its loop. *)
Theorem reader_queues_stripped_lines (reads : list (bool * rx)) :
  Forall (fun line =>
            exists c t, line = c :: t /\ is_space c = false /\
                        is_space (last line c) = false)
         (read_pppd_output reads) /\
  (List.length (read_pppd_output reads) <= List.length reads)%nat.
Proof.
  induction reads as [|[stop r] rest [IH1 IH2]]; [split; [constructor|cbn; lia]|].
  cbn [read_pppd_output].
  destruct stop; [split; [constructor|cbn; lia]|].
  destruct r as [[|b bs]|]; try (split; [constructor|cbn; lia]).
  destruct (strip (decode Replace (b :: bs))) as [|c line] eqn:E.
  - split; [exact IH1|cbn; lia].
  - split; [|cbn; lia]. constructor; [|exact IH1].
    exists c, line. destruct (strip_ends _ _ _ E) as [H1 H2]. auto.
Qed.

(** X2. The reader thread stops for good at the first turn that finds the
    stop event set, the stream at its end or a read error: what the later
    turns would have read is not queued. *)
Theorem reader_stops_at_end (before after : list (bool * rx)) (stop : bool)
    (r : rx)
    (Hend : stop = true \/ r = Bytes [] \/ r = Broken) :
  read_pppd_output (before ++ (stop, r) :: after) =
  read_pppd_output (before ++ [(stop, r)]).
Proof.
  induction before as [|[s0 r0] before IH]; cbn [app read_pppd_output].
  - destruct stop; [reflexivity|].
    destruct Hend as [H|[->| ->]]; [discriminate|reflexivity|reflexivity].
  - destruct s0; [reflexivity|].
    destruct r0 as [[|b bs]|]; try reflexivity.
    destruct (strip (decode Replace (b :: bs))); rewrite IH; reflexivity.
Qed.

Lemma reader_stops_at_end_witness :
  read_pppd_output
    ([(false, Bytes (bytes_of "Connect: ppp0"))] ++
     (false, Bytes []) :: [(false, Bytes (bytes_of "late"))]) =
  read_pppd_output
    ([(false, Bytes (bytes_of "Connect: ppp0"))] ++ [(false, Bytes [])]).
Proof.
  apply (reader_stops_at_end _ _ false (Bytes [])). right. left. reflexivity.
Defined.

Example reader_sample :
  read_pppd_output
    [(false, Bytes (bytes_of "  Connect: ppp0 <--> /dev/ttyS0"));
     (false, Bytes [x0a]);
     (false, Bytes [xff; x4f; x4b; x0a]);
     (false, Bytes []);
     (false, Bytes (bytes_of "never read"))] =
  [lit "Connect: ppp0 <--> /dev/ttyS0"; 65533%N :: lit "OK"].
Proof. reflexivity. Qed.

(** ** The signal-quality field *)









(** ** The AT channel on any line *)

Lemma no_write_refl w : no_write w w.
Proof. exists []. split; reflexivity. Qed.

Lemma no_write_trans w1 w2 w3 : no_write w1 w2 -> no_write w2 w3 -> no_write w1 w3.
Proof.
  intros (d1 & P1 & W1) (d2 & P2 & W2). exists (d2 ++ d1)%list. split.
  - unfold performed in *. rewrite P2, P1, app_assoc. reflexivity.
  - unfold writes in *. rewrite flat_map_app, W1, W2. reflexivity.
Qed.

Lemma sleep_no_write ms : respects no_write (sleep ms).
Proof.
  intros w. pose proof (sleep_keeps_snapshot ms w) as H.
  destruct (sleep ms w) as [[] w'|e w'|]; [| |exact I];
    destruct H as [_ (delta & P & F)]; exists delta; (split; [exact P|]);
    clear P; induction F as [|a l Ha Hl IH]; try reflexivity;
    destruct a; cbn in *; try contradiction; exact IH.
Qed.

Lemma read_no_write : respects no_write ser_read_waiting.
Proof.
  intros w. unfold ser_read_waiting.
  destruct (wire w) as [|[bs|] rest]; exists []; split; reflexivity.
Qed.

(** X4. Whatever the line does, [send_at_command] with enough fuel for its
    timeout ends.  It returns at least 0.2 s and less than the timeout plus
    0.3 s after the call, having touched nothing but the clock, the line and
    the log; otherwise it raises, on a transport error or a signal only.
    Either way the command was written exactly once: there is no retry. *)
Theorem send_at_command_any_line (fuel : nat) (command : string) (timeout : Z)
    (w : world)
    (Hfuel : 0 <= timeout <= 100 * (Z.of_nat fuel - 1)) :
  match send_at_command fuel command timeout w with
  | Ret _ w' =>
      only_serial w w' /\
      now w + 200 <= now w' < now w + timeout + 300 /\
      writes (firstn (List.length (log w') - List.length (log w)) (log w')) =
        [(command ++ CRLF)%string]
  | Raise e w' =>
      (is_error e \/ sigint_at w <> None) /\
      writes (firstn (List.length (log w') - List.length (log w)) (log w')) =
        [(command ++ CRLF)%string]
  | OutOfFuel => False
  end.
Proof.
  pose proof (send_at_command_safe Ignore fuel command timeout w Hfuel) as Hs.
  fold send_at_command in Hs.
  assert (Hw : match send_at_command fuel command timeout w with
               | Ret _ w' | Raise _ w' =>
                   exists delta,
                     log w' = (delta ++ SerialWrite (command ++ CRLF) :: log w)%list /\
                     writes delta = []
               | OutOfFuel => True
               end).
  { unfold send_at_command, send_at_command_with, bind at 1, ser_write, emit.
    cbv beta iota.
    set (w1 := set_log (SerialWrite (command ++ CRLF) :: log w) w).
    assert (Hrest : respects no_write
                      (sleep 200 ;;
                       start_time <- time_time ;;
                       response <- read_response Ignore fuel start_time timeout [] ;;
                       ret (strip response))).
    { apply respects_bind; [apply no_write_trans|apply sleep_no_write|].
      intros _. apply respects_bind;
        [apply no_write_trans|apply respects_time_time; apply no_write_refl|].
      intros t. apply respects_bind; [apply no_write_trans| |].
      - apply respects_read_response;
          [apply no_write_refl|apply no_write_trans|apply sleep_no_write
          |apply read_no_write].
      - intros r. apply respects_ret. apply no_write_refl. }
    specialize (Hrest w1).
    match goal with |- match ?c with _ => _ end =>
      match type of Hrest with match ?d with _ => _ end =>
        change c with d end end.
    match type of Hrest with match ?d with _ => _ end =>
      destruct d as [r w'|e w'|] end; auto;
      destruct Hrest as (delta & P & W); exists delta; split; auto. }
  assert (Hcut : forall w' delta,
      log w' = (delta ++ SerialWrite (command ++ CRLF) :: log w)%list ->
      writes delta = [] ->
      writes (firstn (List.length (log w') - List.length (log w)) (log w')) =
        [(command ++ CRLF)%string]).
  { intros w' delta E W. rewrite E.
    replace (List.length (delta ++ SerialWrite (command ++ CRLF) :: log w)
             - List.length (log w))%nat
      with (List.length (delta ++ [SerialWrite (command ++ CRLF)]))
      by (rewrite !length_app; cbn [List.length]; lia).
    change (SerialWrite (command ++ CRLF) :: log w)
      with ([SerialWrite (command ++ CRLF)] ++ log w)%list.
    rewrite app_assoc, firstn_app, firstn_all, Nat.sub_diag.
    cbn [firstn]. rewrite app_nil_r.
    unfold writes in *. rewrite flat_map_app, W. reflexivity. }
  destruct (send_at_command fuel command timeout w) as [r w'|e w'|];
    [| |exact Hs].
  - destruct Hs as [Hos Ht]. destruct Hw as (delta & E & W).
    split; [exact Hos|]. split; [exact Ht|]. eapply Hcut; eauto.
  - destruct Hw as (delta & E & W). split; [exact Hs|]. eapply Hcut; eauto.
Qed.

Lemma send_at_command_any_line_witness :
  0 <= 5000 <= 100 * (Z.of_nat 60 - 1) /\
  match send_at_command 60 "AT+CSQ" 5000 (set_wire [Bytes []; Broken] boot) with
  | Ret _ w' =>
      only_serial (set_wire [Bytes []; Broken] boot) w' /\
      now (set_wire [Bytes []; Broken] boot) + 200 <= now w' <
        now (set_wire [Bytes []; Broken] boot) + 5000 + 300 /\
      writes (firstn (List.length (log w') -
                      List.length (log (set_wire [Bytes []; Broken] boot)))
                (log w')) = [("AT+CSQ" ++ CRLF)%string]
  | Raise e w' =>
      (is_error e \/ sigint_at (set_wire [Bytes []; Broken] boot) <> None) /\
      writes (firstn (List.length (log w') -
                      List.length (log (set_wire [Bytes []; Broken] boot)))
                (log w')) = [("AT+CSQ" ++ CRLF)%string]
  | OutOfFuel => False
  end.
Proof.
  assert (H : 0 <= 5000 <= 100 * (Z.of_nat 60 - 1)) by lia.
  split; [exact H|].
  apply (send_at_command_any_line 60 "AT+CSQ" 5000
           (set_wire [Bytes []; Broken] boot) H).
Defined.

(** ** How many registration queries *)

Lemma sleep_ret_now ms w w' : sleep ms w = Ret tt w' -> now w' = now w + ms.
Proof.
  intros H. pose proof (sleep_spec ms w) as Hs. rewrite H in Hs.
  subst w'. reflexivity.
Qed.

Lemma send_at_command_ret_now fuel command timeout w response w' :
  0 <= timeout <= 100 * (Z.of_nat fuel - 1) ->
  send_at_command fuel command timeout w = Ret response w' ->
  now w + 200 <= now w' < now w + timeout + 300.
Proof.
  intros Hf H. pose proof (send_at_command_safe Ignore fuel command timeout w Hf) as Hs.
  fold send_at_command in Hs. rewrite H in Hs. apply Hs.
Qed.

(** X5. Every unsuccessful registration query costs its 0.2 s and the pause
    that follows, and a query is only started before the deadline; so the
    number of unsuccessful queries is bounded by the deadline: with the
    deadline of 60 s there are at most 28 of them in the one-shot script and
    at most 12 in the persistent script. *)
Theorem registration_polls_bounded (interval : Z) (fuel : nat)
    (start_time max_wait : Z) (k : nat) (w w' : world)
    (Hfuel : (51 <= fuel)%nat) (Hint : 0 <= interval)
    (Hpolls : failed_polls interval fuel start_time max_wait k w w') :
  now w + Z.of_nat k * (200 + interval) <= now w' /\
  ((0 < k)%nat ->
   (Z.of_nat k - 1) * (200 + interval) < max_wait - (now w - start_time)) /\
  (now w = start_time -> max_wait = 60000 ->
   (interval = 2000 -> (k <= 28)%nat) /\ (interval = 5000 -> (k <= 12)%nat)).
Proof.
  assert (H : now w + Z.of_nat k * (200 + interval) <= now w' /\
              ((0 < k)%nat ->
               (Z.of_nat k - 1) * (200 + interval)
               < max_wait - (now w - start_time))).
  { induction Hpolls as [w|k w r w1 w2 w3 Hlt Hs Hr Hsl Hp [IH1 IH2]].
    - split; [cbn; lia|lia].
    - pose proof (send_at_command_ret_now fuel _ 5000 _ _ _ ltac:(lia) Hs) as Ht.
      pose proof (sleep_ret_now _ _ _ Hsl) as Ht2.
      rewrite Nat2Z.inj_succ. split; [nia|]. intros _.
      destruct k as [|k]; [cbn; lia|].
      specialize (IH2 ltac:(lia)). rewrite Nat2Z.inj_succ in *. nia. }
  destruct H as [H1 H2]. split; [exact H1|]. split; [exact H2|].
  intros Hstart Hmw. split; intros Hi; subst;
    (destruct k as [|k]; [lia|]; specialize (H2 ltac:(lia));
     rewrite Nat2Z.inj_succ in H2; lia).
Qed.

Lemma registration_polls_bounded_witness :
  exists w' : world,
    now boot + Z.of_nat 1 * (200 + 2000) <= now w'.
Proof.
  destruct (send_at_command 60 "AT+CREG?" 5000 boot) as [r w1|e w1|] eqn:Es;
    [|vm_compute in Es; discriminate|vm_compute in Es; discriminate].
  destruct (sleep 2000 w1) as [[] w2|e w2|] eqn:Esl;
    [|vm_compute in Es; injection Es as _ <-; vm_compute in Esl; discriminate
     |vm_compute in Es; injection Es as _ <-; vm_compute in Esl; discriminate].
  exists w2.
  assert (Hr : is_registered r = false)
    by (vm_compute in Es; injection Es as <- _; reflexivity).
  assert (Hlt : now boot - 0 < 60000) by (cbn; lia).
  pose proof (failed_polls_S 2000 60 0 60000 0 boot r w1 w2 w2 Hlt Es Hr Esl
                (failed_polls_0 2000 60 0 60000 w2)) as Hp.
  pose proof (registration_polls_bounded 2000 60 0 60000 1 boot w2
                ltac:(lia) ltac:(lia) Hp) as H.
  destruct H as [H _]. exact H.
Defined.

(** ** How long the supervisor waits *)

Lemma wait_for_link_time pid timeout : forall fuel connected ip w,
  sigint_at w = None ->
  (0 < fuel)%nat ->
  timeout - now w <=
    500 * (Z.of_nat fuel - 2 - Z.of_nat (List.length (queue w))) ->
  exists r w',
    OneShot.wait_for_link pid timeout connected ip fuel w = Ret r w' /\
    now w <= now w' /\
    (now w' = now w \/ now w' < timeout + 500) /\
    (timeout <= now w -> queue w' = queue w) /\
    files w' = files w /\ handles w' = handles w /\
    List.length (procs w') = List.length (procs w).
Proof.
  induction fuel as [|fuel IH]; intros connected ip w Hq Hpos Hfuel; [lia|].
  rewrite Nat2Z.inj_succ in Hfuel.
  cbn [OneShot.wait_for_link]. unfold bind at 1, time_time at 1.
  destruct (Z.ltb_spec (now w) timeout) as [Hlt|Hge].
  2:{ eexists; exists w. repeat split; auto; lia. }
  unfold bind at 1. rewrite (queue_get_quiet pid w Hq).
  assert (Hlen : forall st w0,
             List.length (procs (set_proc pid st w0)) = List.length (procs w0)).
  { intros st w0. unfold set_proc. cbn [procs set_procs].
    rewrite <- (firstn_skipn pid (procs w0)) at 3.
    rewrite !length_app. destruct (skipn pid (procs w0)); reflexivity. }
  destruct (queue w) as [|[wait line|exited] rest] eqn:Equeue.
  - set (w2 := set_now (now w + 500) (set_blocked (S (blocked w)) w)).
    unfold bind at 1, still_running.
    change (procs w2) with (procs w).
    destruct (match nth_error (procs w) pid with
              | Some Running => true
              | _ => false
              end); cbn [negb].
    + destruct (IH connected ip w2 Hq) as (r & w' & Hr & H1 & H2 & H3 & H4 & H5 & H6).
      { cbn [List.length] in Hfuel. lia. }
      { change (now w2) with (now w + 500). change (queue w2) with (queue w).
        rewrite Equeue. cbn [List.length] in *. lia. }
      exists r, w'. change (now w2) with (now w + 500) in *.
      split; [exact Hr|]. split; [lia|]. split; [right; lia|].
      split; [intros; lia|]. auto.
    + eexists; exists w2. split; [reflexivity|].
      change (now w2) with (now w + 500).
      split; [lia|]. split; [right; lia|]. split; [intros; lia|].
      repeat split.
  - cbn [List.length] in Hfuel. rewrite Nat2Z.inj_succ in Hfuel.
    pose proof (get_wait_bounds wait) as Hwait.
    set (w1 := set_now (now w + get_wait wait)
                 (set_queue rest (set_blocked (S (blocked w)) w))).
    assert (Hend : forall r : bool * bool,
               exists r0 w',
                 @Ret (bool * bool) r w1 = Ret r0 w' /\ now w <= now w' /\
                 (now w' = now w \/ now w' < timeout + 500) /\
                 (timeout <= now w -> queue w' = queue w) /\
                 files w' = files w /\ handles w' = handles w /\
                 List.length (procs w') = List.length (procs w)).
    { intros r. exists r, w1. split; [reflexivity|].
      change (now w1) with (now w + get_wait wait).
      split; [lia|]. split; [right; lia|].
      split; [intros; lia|]. repeat split. }
    rewrite Equeue in Hend.
    destruct (OneShot.is_ip_assigned line); [unfold ret; apply Hend|].
    destruct (OneShot.is_lcp_failure line); [unfold ret; apply Hend|].
    destruct (OneShot.is_script_failure line); [unfold ret; apply Hend|].
    match goal with |- context [OneShot.wait_for_link pid timeout ?c ip fuel w1] =>
      destruct (IH c ip w1 Hq) as (r & w' & Hr & H1 & H2 & H3 & H4 & H5 & H6)
    end.
    { lia. }
    { change (now w1) with (now w + get_wait wait).
      change (queue w1) with rest. lia. }
    exists r, w'. change (now w1) with (now w + get_wait wait) in *.
    split; [exact Hr|]. split; [lia|]. split; [right; lia|].
    split; [intros; lia|]. auto.
  - cbn [List.length] in Hfuel. rewrite Nat2Z.inj_succ in Hfuel. cbv zeta.
    match goal with |- context [Ret None ?x] => set (w1 := x) end.
    assert (Hn1 : now w1 = now w + 500) by (subst w1; destruct exited; reflexivity).
    assert (Hq1 : queue w1 = rest) by (subst w1; destruct exited; reflexivity).
    assert (Hs1 : sigint_at w1 = None) by (subst w1; destruct exited; exact Hq).
    assert (Hf1 : files w1 = files w) by (subst w1; destruct exited; reflexivity).
    assert (Hh1 : handles w1 = handles w)
      by (subst w1; destruct exited; reflexivity).
    assert (Hp1 : List.length (procs w1) = List.length (procs w)).
    { subst w1; destruct exited; [|reflexivity]. rewrite Hlen. reflexivity. }
    unfold bind at 1, still_running.
    destruct (match nth_error (procs w1) pid with
              | Some Running => true
              | _ => false
              end); cbn [negb].
    + destruct (IH connected ip w1 Hs1) as (r & w' & Hr & H1 & H2 & H3 & H4 & H5 & H6).
      { lia. }
      { rewrite Hn1, Hq1. lia. }
      exists r, w'. rewrite Hn1 in *.
      split; [exact Hr|]. split; [lia|]. split; [right; lia|].
      split; [intros; lia|]. split; [congruence|]. split; congruence.
    + eexists; exists w1. split; [reflexivity|]. rewrite Hn1.
      split; [lia|]. split; [right; lia|]. split; [intros; lia|]. auto.
Qed.

(** X6. With no signal pending, the supervisor's wait ends at most half a
    second after its deadline, whatever the negotiation process prints and
    whether or not it is alive; once the deadline has passed it takes nothing
    more from the queue.  The wait creates and removes no file and spawns no
    process. *)
Theorem wait_for_link_bounded (pid : nat) (timeout : Z) (fuel : nat)
    (connected ip : bool) (w : world)
    (Hquiet : sigint_at w = None)
    (Hpos : (0 < fuel)%nat)
    (Hfuel : timeout - now w <=
             500 * (Z.of_nat fuel - 2 - Z.of_nat (List.length (queue w)))) :
  exists r w',
    OneShot.wait_for_link pid timeout connected ip fuel w = Ret r w' /\
    now w <= now w' /\
    (now w' = now w \/ now w' < timeout + 500) /\
    (timeout <= now w -> queue w' = queue w) /\
    files w' = files w /\ handles w' = handles w /\
    List.length (procs w') = List.length (procs w).
Proof. apply wait_for_link_time; assumption. Qed.

Lemma wait_for_link_bounded_witness :
  exists r w',
    OneShot.wait_for_link 0 90000 false false 200 boot = Ret r w' /\
    now boot <= now w' /\
    (now w' = now boot \/ now w' < 90000 + 500) /\
    (90000 <= now boot -> queue w' = queue boot) /\
    files w' = files boot /\ handles w' = handles boot /\
    List.length (procs w') = List.length (procs boot).
Proof.
  apply (wait_for_link_bounded 0 90000 200 false false boot);
    [reflexivity|lia|cbn; lia].
Defined.

(** ** How teardown treats the process and the files *)

Lemma terminate_quiet (process : option nat) (w : world) :
  sigint_at w = None ->
  exists w',
    OneShot.terminate process w = Ret tt w' /\
    files w' = files w /\ handles w' = handles w /\
    match process with
    | Some pid =>
        match nth_error (procs w) pid with
        | Some Running =>
            nth_error (procs w') pid = Some Exited /\
            now w' = now w + 2000 /\
            log w' =
              ((if obeys_term w then [] else [Kill pid]) ++
               [Sleep 2000; Sigterm pid] ++ log w)%list
        | _ => w' = w
        end
    | None => w' = w
    end.
Proof.
  intros Hquiet.
  destruct process as [pid|]; [|exists w; repeat split; reflexivity].
  destruct (nth_error (procs w) pid) as [[|]|] eqn:Ep;
    try (exists w; split; [apply not_running_stays; congruence|repeat split; reflexivity]).
  unfold OneShot.terminate, bind at 1, still_running at 1. rewrite Ep.
  unfold bind at 1, send_sigterm. unfold bind at 1.
  rewrite sleep_quiet
    by (destruct (obeys_term w); exact Hquiet).
  unfold bind, still_running.
  destruct (obeys_term w) eqn:Eo.
  - pose proof (set_proc_exited pid (set_log (Sigterm pid :: log w) w) Ep) as He.
    cbn [procs set_log set_now set_blocked].
    match goal with |- context [nth_error ?l pid] =>
      change (nth_error l pid)
        with (nth_error (procs (set_proc pid Exited
                                  (set_log (Sigterm pid :: log w) w))) pid)
    end.
    rewrite He. eexists. split; [reflexivity|].
    split; [reflexivity|]. split; [reflexivity|].
    split; [exact He|]. split; reflexivity.
  - cbn [procs set_log set_now set_blocked]. rewrite Ep. unfold kill.
    eexists. split; [reflexivity|].
    split; [reflexivity|]. split; [reflexivity|].
    split; [apply set_proc_exited; exact Ep|]. split; reflexivity.
Qed.

(** X7. With no signal pending, [cleanup_ppp] terminates a running process
    by escalation: SIGTERM first, two seconds later SIGKILL exactly when the
    process ignored SIGTERM, and the process has exited afterwards.  A
    process that is not running (or no process at all) gets no signal and
    costs no time. *)
Theorem terminate_escalates (process : option nat) (w : world)
    (Hquiet : sigint_at w = None) :
  exists w',
    OneShot.terminate process w = Ret tt w' /\
    match process with
    | Some pid =>
        match nth_error (procs w) pid with
        | Some Running =>
            nth_error (procs w') pid = Some Exited /\
            now w' = now w + 2000 /\
            log w' =
              ((if obeys_term w then [] else [Kill pid]) ++
               [Sleep 2000; Sigterm pid] ++ log w)%list
        | _ => w' = w
        end
    | None => w' = w
    end.
Proof.
  destruct (terminate_quiet process w Hquiet) as (w' & H1 & _ & _ & H2).
  exists w'. split; assumption.
Qed.

Lemma terminate_escalates_witness :
  exists w',
    OneShot.terminate (Some O) negotiating = Ret tt w' /\
    match nth_error (procs negotiating) O with
    | Some Running =>
        nth_error (procs w') O = Some Exited /\
        now w' = now negotiating + 2000 /\
        log w' =
          ((if obeys_term negotiating then [] else [Kill O]) ++
           [Sleep 2000; Sigterm O] ++ log negotiating)%list
    | _ => w' = negotiating
    end.
Proof. apply (terminate_escalates (Some O) negotiating). reflexivity. Defined.

Lemma filter_absent q l :
  existsb (String.eqb q) l = false ->
  filter (fun f => negb (String.eqb q f)) l = l.
Proof.
  induction l as [|f l IH]; cbn; [reflexivity|].
  destruct (String.eqb q f); cbn; [discriminate|].
  intros H. rewrite IH by exact H. reflexivity.
Qed.

Lemma terminate_ret process w w' :
  OneShot.terminate process w = Ret tt w' ->
  files w' = files w /\ handles w' = handles w /\
  exists delta,
    performed w w' delta /\ filter is_remove delta = [] /\
    forall a, In a (signals delta) ->
              exists pid, process = Some pid /\ running pid w /\
                          (a = Sigterm pid \/ a = Kill pid).
Proof.
  assert (Hnone : forall w0 : world,
             files w0 = files w0 /\ handles w0 = handles w0 /\
             exists delta,
               performed w0 w0 delta /\ filter is_remove delta = [] /\
               forall a, In a (signals delta) ->
                         exists pid, process = Some pid /\ running pid w0 /\
                                     (a = Sigterm pid \/ a = Kill pid)).
  { intros w0. split; [reflexivity|]. split; [reflexivity|]. exists [].
    split; [reflexivity|]. split; [reflexivity|]. intros a []. }
  destruct process as [pid|]; [|intros [= <-]; apply Hnone].
  unfold OneShot.terminate, bind at 1, still_running at 1.
  destruct (nth_error (procs w) pid) as [[|]|] eqn:Ep;
    try (intros [= <-]; apply Hnone).
  unfold bind at 1, send_sigterm. unfold bind at 1.
  match goal with |- context [sleep 2000 ?x] =>
    pose proof (sleep_spec 2000 x) as Hs; destruct (sleep 2000 x) as [[] w2|e w2|]
  end; [|discriminate|discriminate].
  subst w2. unfold bind, still_running.
  destruct (obeys_term w) eqn:Eo.
  - pose proof (set_proc_exited pid (set_log (Sigterm pid :: log w) w) Ep) as He.
    cbn [procs set_log set_now set_blocked].
    match goal with |- context [nth_error ?l pid] =>
      change (nth_error l pid)
        with (nth_error (procs (set_proc pid Exited
                                  (set_log (Sigterm pid :: log w) w))) pid)
    end.
    rewrite He. unfold ret. intros [= <-].
    split; [reflexivity|]. split; [reflexivity|].
    exists [Sleep 2000; Sigterm pid].
    split; [reflexivity|]. split; [reflexivity|].
    intros a [<-|[]]. exists pid. split; [reflexivity|].
    split; [exact Ep|left; reflexivity].
  - cbn [procs set_log set_now set_blocked]. rewrite Ep. unfold kill.
    intros [= <-]. split; [reflexivity|]. split; [reflexivity|].
    exists [Kill pid; Sleep 2000; Sigterm pid].
    split; [reflexivity|]. split; [reflexivity|].
    intros a [<-|[<-|[]]]; exists pid; (split; [reflexivity|]);
      (split; [exact Ep|]); [right|left]; reflexivity.
Qed.

(** X8. Whenever [cleanup_ppp] returns, the chat script it was given does
    not exist any more; the only file it has removed itself is that chat
    script, by one [os.remove], made exactly when the file existed; every
    signal it has sent through a process handle went to its own process,
    which was running; and it has opened and closed no [Serial] object.
    Whenever [cleanup_connection] returns, the same holds for the path in
    [tmp_chat_path], and it has sent no signal through a process handle. *)
Theorem teardown_touches_only_its_own (process : option nat)
    (path : option string) (stop_event : bool) (w w' : world)
    (Hret : OneShot.cleanup_ppp process path stop_event w = Ret tt w') :
  (exists delta,
     performed w w' delta /\
     filter is_remove delta =
       match truthy_path path with
       | Some q => if file_exists q w then [Remove q] else []
       | None => []
       end /\
     (forall a, In a (signals delta) ->
                exists pid, process = Some pid /\ running pid w /\
                            (a = Sigterm pid \/ a = Kill pid)) /\
     (forall q, truthy_path path = Some q -> file_exists q w' = false) /\
     handles w' = handles w) /\
  (forall v v1,
     cleanup_connection v = Ret tt v1 ->
     exists delta,
       performed v v1 delta /\
       filter is_remove delta =
         match truthy_path (tmp_chat_path v) with
         | Some q => if file_exists q v then [Remove q] else []
         | None => []
         end /\
       signals delta = [] /\
       (forall q, truthy_path (tmp_chat_path v) = Some q ->
                  file_exists q v1 = false) /\
       handles v1 = handles v).
Proof.
  split.
  - revert Hret. unfold OneShot.cleanup_ppp. unfold bind at 1.
    set (w0 := if stop_event then set_log (StopReader :: log w) w else w).
    set (d0 := if stop_event then [StopReader] else []).
    assert (E0 : (if stop_event then emit StopReader else ret tt) w = Ret tt w0)
      by (subst w0; destruct stop_event; reflexivity).
    assert (P0 : performed w w0 d0)
      by (subst w0 d0; destruct stop_event; reflexivity).
    assert (R0 : filter is_remove d0 = [] /\ signals d0 = [])
      by (subst d0; destruct stop_event; split; reflexivity).
    assert (F0 : files w0 = files w /\ handles w0 = handles w /\
                 procs w0 = procs w)
      by (subst w0; destruct stop_event; repeat split).
    clearbody w0 d0. rewrite E0. unfold bind at 1, try_except.
    pose proof (terminate_spec process w0) as Ht.
    destruct (OneShot.terminate process w0) as [[] w1|e w1|] eqn:Et;
      [| |destruct Ht].
    2:{ destruct e as [msg| |code]; [exfalso; apply Ht; eexists; reflexivity| |];
          discriminate. }
    destruct (terminate_ret process w0 w1 Et)
      as (Tf & Th & d1 & P1 & R1 & S1).
    unfold bind at 1, subprocess_run, emit. unfold bind at 1. unfold bind.
    rewrite remove_chat_script_run. intros [= <-].
    destruct F0 as (F0f & F0h & F0p). destruct R0 as [R0r R0s].
    unfold performed in *.
    assert (Hex : forall q,
               file_exists q
                 (set_log
                    (Run ["sudo"; "rm"; "-f"; "/var/lock/LCK..ttyS0"]%string
                     :: Run ["sudo"; "pkill"; "-f"; "pppd"]%string
                     :: Run ["sudo"; "poff"; "-a"]%string :: log w1) w1) =
               file_exists q w).
    { intros q. unfold file_exists. cbn [files set_log]. congruence. }
    assert (Hsig : forall a,
               In a (signals (d1 ++ d0)) ->
               exists pid, process = Some pid /\ running pid w /\
                           (a = Sigterm pid \/ a = Kill pid)).
    { intros a Ha. unfold signals in Ha. rewrite filter_app in Ha.
      fold (signals d0) in Ha. rewrite R0s, app_nil_r in Ha.
      destruct (S1 a Ha) as (pid & Hp & Hr & Hk). exists pid.
      split; [exact Hp|]. split; [|exact Hk].
      unfold running in *. congruence. }
    destruct (truthy_path path) as [q|].
    + rewrite Hex. destruct (file_exists q w) eqn:Ee.
      * exists (Remove q ::
                Run ["sudo"; "rm"; "-f"; "/var/lock/LCK..ttyS0"]%string ::
                Run ["sudo"; "pkill"; "-f"; "pppd"]%string ::
                Run ["sudo"; "poff"; "-a"]%string :: d1 ++ d0)%list.
        split; [cbn; rewrite P1, P0, <- app_assoc; reflexivity|].
        split; [cbn; rewrite filter_app, R1, R0r; reflexivity|].
        split; [exact Hsig|].
        split; [intros q' [= <-]; apply file_exists_removed|].
        cbn. congruence.
      * exists (Run ["sudo"; "rm"; "-f"; "/var/lock/LCK..ttyS0"]%string ::
                Run ["sudo"; "pkill"; "-f"; "pppd"]%string ::
                Run ["sudo"; "poff"; "-a"]%string :: d1 ++ d0)%list.
        split; [cbn; rewrite P1, P0, <- app_assoc; reflexivity|].
        split; [cbn; rewrite filter_app, R1, R0r; reflexivity|].
        split; [exact Hsig|].
        split; [intros q' [= <-]; rewrite Hex; exact Ee|].
        cbn. congruence.
    + exists (Run ["sudo"; "rm"; "-f"; "/var/lock/LCK..ttyS0"]%string ::
              Run ["sudo"; "pkill"; "-f"; "pppd"]%string ::
              Run ["sudo"; "poff"; "-a"]%string :: d1 ++ d0)%list.
      split; [cbn; rewrite P1, P0, <- app_assoc; reflexivity|].
      split; [cbn; rewrite filter_app, R1, R0r; reflexivity|].
      split; [exact Hsig|].
      split; [discriminate|]. cbn. congruence.
  - intros v v1. rewrite cleanup_connection_run. cbv zeta. intros [= <-].
    destruct (truthy_path (tmp_chat_path v)) as [q|].
    + destruct (file_exists q v) eqn:Ee.
      * exists [Remove q; Run ["sudo"; "pkill"; "-f"; "pppd"]%string;
                Run ["sudo"; "poff"; "-a"]%string].
        split; [reflexivity|]. split; [reflexivity|]. split; [reflexivity|].
        split; [intros q' [= <-]; apply file_exists_removed|reflexivity].
      * exists [Run ["sudo"; "pkill"; "-f"; "pppd"]%string;
                Run ["sudo"; "poff"; "-a"]%string].
        split; [reflexivity|]. split; [reflexivity|]. split; [reflexivity|].
        split; [intros q' [= <-]; exact Ee|reflexivity].
    + exists [Run ["sudo"; "pkill"; "-f"; "pppd"]%string;
              Run ["sudo"; "poff"; "-a"]%string].
      split; [reflexivity|]. split; [reflexivity|]. split; [reflexivity|].
      split; [discriminate|reflexivity].
Qed.

Lemma teardown_touches_only_its_own_witness :
  exists w' delta,
    OneShot.cleanup_ppp (Some O) (Some "/tmp/tmpq1w2e3"%string) true
      negotiating = Ret tt w' /\
    performed negotiating w' delta /\
    filter is_remove delta = [Remove "/tmp/tmpq1w2e3"] /\
    (forall a, In a (signals delta) -> a = Sigterm O \/ a = Kill O) /\
    file_exists "/tmp/tmpq1w2e3" w' = false.
Proof.
  assert (H : exists w',
             OneShot.cleanup_ppp (Some O) (Some "/tmp/tmpq1w2e3"%string) true
               negotiating = Ret tt w') by (eexists; vm_compute; reflexivity).
  destruct H as [w' H].
  destruct (teardown_touches_only_its_own _ _ _ _ _ H)
    as [(delta & Hp & Hr & Hs & Hf & _) _].
  exists w', delta. split; [exact H|]. split; [exact Hp|].
  split; [exact Hr|].
  split; [intros a Ha; destruct (Hs a Ha) as (pid & [= <-] & _ & Hk); exact Hk|].
  apply Hf. reflexivity.
Defined.

(** ** Waiting for the interface *)

Lemma captured_run argv w :
  exists w',
    subprocess_run_captured argv w = Ret (hd (1, []) (captured w)) w' /\
    captured w' = tl (captured w) /\ now w' = now w /\
    sigint_at w' = sigint_at w /\ files w' = files w /\ procs w' = procs w /\
    handles w' = handles w /\ tmp_chat_path w' = tmp_chat_path w /\
    last_signal_info w' = last_signal_info w /\
    log w' = Run argv :: log w.
Proof.
  unfold subprocess_run_captured.
  destruct (captured w) as [|r rest] eqn:Ec; eexists; (split; [reflexivity|]);
    cbn; rewrite ?Ec; repeat split; reflexivity.
Qed.

Lemma sleep_quiet_fields ms w :
  sigint_at w = None ->
  exists w',
    sleep ms w = Ret tt w' /\
    captured w' = captured w /\ now w' = now w + ms /\
    sigint_at w' = None /\ files w' = files w /\ procs w' = procs w /\
    handles w' = handles w /\ tmp_chat_path w' = tmp_chat_path w /\
    last_signal_info w' = last_signal_info w /\
    log w' = Sleep ms :: log w.
Proof.
  intros Hq. rewrite sleep_quiet by exact Hq. eexists. split; [reflexivity|].
  cbn. repeat split; try reflexivity. exact Hq.
Qed.

Lemma wait_for_interface_quiet (n : nat) (w : world)
    (Hquiet : sigint_at w = None) :
  exists w',
    Service.wait_for_interface n w =
      Ret (existsb interface_up (firstn n (captured w))) w' /\
    now w <= now w' <= now w + 2000 * Z.of_nat n /\
    (existsb interface_up (firstn n (captured w)) = false ->
     now w' = now w + 2000 * Z.of_nat n) /\
    files w' = files w /\ procs w' = procs w /\ handles w' = handles w /\
    tmp_chat_path w' = tmp_chat_path w.
Proof.
  revert w Hquiet. induction n as [|n IH]; intros w Hquiet.
  - exists w. cbn. repeat split; lia.
  - cbn [Service.wait_for_interface]. unfold bind at 1.
    destruct (sleep_quiet_fields 2000 w Hquiet)
      as (w1 & -> & Sc & Sn & Sq & Sf & Sp & Sh & St & _ & _).
    unfold bind at 1.
    destruct (captured_run ["ifconfig"; "ppp0"]%string w1)
      as (w2 & -> & Cc & Cn & Cq & Cf & Cp & Ch & Ct & _ & _).
    rewrite Sc in *. rewrite Nat2Z.inj_succ.
    fold (interface_up (hd (1, []) (captured w))).
    destruct (captured w) as [|r rest] eqn:Ec.
    + cbn [hd tl firstn existsb] in *.
      change (interface_up (1, [])) with false. cbv iota.
      destruct (IH w2) as (w' & Hrun & Ht & Hf & H1 & H2 & H3 & H4);
        [congruence|].
      rewrite Cc in Hrun, Hf.
      assert (En : existsb interface_up (firstn n []) = false)
        by (destruct n; reflexivity).
      rewrite En in Hrun. exists w'. split; [exact Hrun|].
      split; [lia|]. split; [intros _; rewrite Hf by exact En; lia|].
      repeat split; congruence.
    + cbn [hd tl firstn existsb] in *.
      destruct (interface_up r) eqn:Eup.
      * cbn [orb]. unfold Service.test_ping_with_latency, bind.
        destruct (captured_run
                    ["ping"; "-I"; "ppp0"; "-c"; "1"; "-W"; "3"; "8.8.8.8"]%string w2)
          as (w3 & -> & _ & Pn & _ & Pf & Pp & Ph & Pt & _ & _).
        exists w3. split; [reflexivity|].
        split; [lia|]. split; [discriminate|]. repeat split; congruence.
      * cbn [orb].
        destruct (IH w2) as (w' & Hrun & Ht & Hf & H1 & H2 & H3 & H4);
          [congruence|].
        rewrite Cc in Hrun, Hf.
        exists w'. split; [exact Hrun|].
        split; [lia|]. split; [intros En; rewrite Hf by exact En; lia|].
        repeat split; congruence.
Qed.

(** X9. With no signal pending, the wait of [start_persistent_connection]
    for the interface always returns: it polls [ifconfig ppp0] every two
    seconds, at most [n] times (30 in the script), and answers [True] exactly
    when one of these polls exits with code 0 and shows an [inet ] address.
    A [False] comes after exactly [2 n] seconds.  In either case the wait
    signals no process, removes no file and touches no serial handle: on a
    timeout the negotiation process and the chat script are left as they
    are. *)
Theorem wait_for_interface_bounded (n : nat) (w : world)
    (Hquiet : sigint_at w = None) :
  exists w',
    Service.wait_for_interface n w =
      Ret (existsb interface_up (firstn n (captured w))) w' /\
    now w <= now w' <= now w + 2000 * Z.of_nat n /\
    (existsb interface_up (firstn n (captured w)) = false ->
     now w' = now w + 2000 * Z.of_nat n) /\
    files w' = files w /\ procs w' = procs w /\ handles w' = handles w /\
    tmp_chat_path w' = tmp_chat_path w.
Proof.
  exact (wait_for_interface_quiet n w Hquiet).
Qed.

Lemma wait_for_interface_bounded_witness :
  exists w',
    Service.wait_for_interface 30 (set_captured interface_comes_up boot) =
      Ret (existsb interface_up
             (firstn 30 (captured (set_captured interface_comes_up boot)))) w' /\
    now (set_captured interface_comes_up boot) <= now w' <=
      now (set_captured interface_comes_up boot) + 2000 * Z.of_nat 30 /\
    (existsb interface_up
       (firstn 30 (captured (set_captured interface_comes_up boot))) = false ->
     now w' = now (set_captured interface_comes_up boot) + 2000 * Z.of_nat 30) /\
    files w' = files (set_captured interface_comes_up boot) /\
    procs w' = procs (set_captured interface_comes_up boot) /\
    handles w' = handles (set_captured interface_comes_up boot) /\
    tmp_chat_path w' = tmp_chat_path (set_captured interface_comes_up boot).
Proof.
  apply (wait_for_interface_bounded 30 (set_captured interface_comes_up boot)).
  reflexivity.
Defined.

(** ** The schedule of the monitor loop *)

Lemma status_line_fields w :
  exists w' rssi quality icon,
    Service.print_status_line w = Ret tt w' /\
    captured w' = captured w /\ now w' = now w /\
    sigint_at w' = sigint_at w /\ files w' = files w /\ procs w' = procs w /\
    handles w' = handles w /\ tmp_chat_path w' = tmp_chat_path w /\
    last_signal_info w' = last_signal_info w /\
    log w' = StatusLine rssi quality icon :: log w.
Proof.
  unfold Service.print_status_line.
  destruct (last_signal_info w) as [[rssi quality] icon] eqn:E.
  eexists _, rssi, quality, icon. split; [reflexivity|].
  cbn. rewrite E. repeat split; reflexivity.
Qed.

Lemma next_counter lc :
  (lc < 20)%nat ->
  (if Nat.leb 20 (S lc) then O else S lc) = (S lc mod 20)%nat.
Proof.
  intros H. destruct (Nat.leb 20 (S lc)) eqn:E.
  - apply Nat.leb_le in E. assert (lc = 19%nat) by lia. subst. reflexivity.
  - apply Nat.leb_gt in E. symmetry. apply Nat.mod_small. exact E.
Qed.

Lemma monitor_tick_quiet lc w :
  sigint_at w = None ->
  exists w' delta,
    Service.monitor_tick lc w =
      Ret (if Nat.leb 20 (S lc) then O else S lc) w' /\
    now w' = now w + 30000 /\
    sigint_at w' = None /\
    performed w w' delta /\
    status_lines delta = 1%nat /\ writes delta = [] /\ signals delta = [] /\
    files w' = files w /\ procs w' = procs w /\ handles w' = handles w /\
    last_signal_info w' = last_signal_info w.
Proof.
  intros Hq. unfold Service.monitor_tick, Service.get_uptime,
    Service.get_connection_stats, Service.test_ping_with_latency.
  unfold bind at 1. unfold bind at 1.
  destruct (captured_run ["ps"; "-eo"; "pid,etime,cmd"]%string w)
    as (w1 & -> & _ & An & Aq & Af & Ap & Ah & _ & Al & Alog).
  unfold ret at 1. unfold bind at 1. unfold bind at 1.
  destruct (captured_run ["ifconfig"; "ppp0"]%string w1)
    as (w2 & -> & _ & Bn & Bq & Bf & Bp & Bh & _ & Bl & Blog).
  unfold ret at 1. unfold bind at 1. unfold bind at 1.
  destruct (captured_run
              ["ping"; "-I"; "ppp0"; "-c"; "1"; "-W"; "3"; "8.8.8.8"]%string w2)
    as (w3 & -> & _ & Cn & Cq & Cf & Cp & Ch & _ & Cl & Clog).
  unfold ret at 1. unfold bind at 1.
  destruct (status_line_fields w3)
    as (w4 & rssi & quality & icon & -> & _ & Dn & Dq & Df & Dp & Dh & _ & Dl & Dlog).
  unfold bind at 1.
  destruct (sleep_quiet_fields 30000 w4)
    as (w5 & -> & _ & En & Eq & Ef & Ep & Eh & _ & El & Elog); [congruence|].
  exists w5. eexists. split; [reflexivity|].
  split; [lia|]. split; [exact Eq|].
  split; [unfold performed; rewrite Elog, Dlog, Clog, Blog, Alog;
          change (?a :: ?b :: ?c :: ?d :: ?e :: log w)
            with ([a; b; c; d; e] ++ log w)%list; reflexivity|].
  repeat split; try reflexivity; congruence.
Qed.

Lemma status_lines_app a b :
  status_lines (a ++ b) = (status_lines a + status_lines b)%nat.
Proof. unfold status_lines. rewrite filter_app, length_app. reflexivity. Qed.

Lemma writes_app a b : writes (a ++ b) = (writes a ++ writes b)%list.
Proof. unfold writes. apply flat_map_app. Qed.

Lemma signals_app a b : signals (a ++ b) = (signals a ++ signals b)%list.
Proof. unfold signals. apply filter_app. Qed.

(** X10. With no signal pending, [n] turns of the monitor loop take exactly
    [30 n] seconds and print exactly [n] status lines; the line counter that
    decides when the header is printed again runs modulo 20.  The loop never
    writes to the serial device and never signals a process, and it leaves
    the files, the processes, the serial handles and the cached signal
    reading as they are. *)
Theorem monitor_ticks_schedule (n line_counter : nat) (w : world)
    (Hquiet : sigint_at w = None) (Hcounter : (line_counter < 20)%nat) :
  exists w' delta,
    Service.monitor_ticks n line_counter w =
      Ret ((line_counter + n) mod 20)%nat w' /\
    now w' = now w + 30000 * Z.of_nat n /\
    performed w w' delta /\
    status_lines delta = n /\ writes delta = [] /\ signals delta = [] /\
    files w' = files w /\ procs w' = procs w /\ handles w' = handles w /\
    last_signal_info w' = last_signal_info w.
Proof.
  revert line_counter w Hquiet Hcounter.
  induction n as [|n IH]; intros lc w Hquiet Hlc.
  - exists w, []. cbn [Service.monitor_ticks]. rewrite Nat.add_0_r.
    rewrite Nat.mod_small by exact Hlc.
    split; [reflexivity|]. split; [cbn; lia|]. repeat split; reflexivity.
  - cbn [Service.monitor_ticks]. unfold bind.
    destruct (monitor_tick_quiet lc w Hquiet)
      as (w1 & d1 & -> & Tn & Tq & Tp & Ts & Tw & Tg & Tf & Tpr & Th & Tl).
    rewrite next_counter by exact Hlc.
    destruct (IH (S lc mod 20)%nat w1 Tq)
      as (w' & d & Hrun & Hn & Hp & Hs & Hw & Hg & Hf & Hpr & Hh & Hl).
    { apply Nat.mod_upper_bound. discriminate. }
    exists w', (d ++ d1)%list. split.
    { rewrite Hrun. f_equal.
      rewrite Nat.Div0.add_mod_idemp_l. f_equal. lia. }
    split; [rewrite Nat2Z.inj_succ; lia|].
    split; [unfold performed in *; rewrite Hp, Tp, app_assoc; reflexivity|].
    split; [rewrite status_lines_app, Hs, Ts; lia|].
    split; [rewrite writes_app, Hw, Tw; reflexivity|].
    split; [rewrite signals_app, Hg, Tg; reflexivity|].
    repeat split; congruence.
Qed.

Lemma monitor_ticks_schedule_witness :
  exists w' delta,
    Service.monitor_ticks 25 0 boot = Ret ((0 + 25) mod 20)%nat w' /\
    now w' = now boot + 30000 * Z.of_nat 25 /\
    performed boot w' delta /\
    status_lines delta = 25%nat /\ writes delta = [] /\ signals delta = [] /\
    files w' = files boot /\ procs w' = procs boot /\
    handles w' = handles boot /\
    last_signal_info w' = last_signal_info boot.
Proof.
  apply (monitor_ticks_schedule 25 0 boot); [reflexivity|lia].
Defined.

(** ** Bring-up on a line without transport errors *)

Lemma only_modem_refl w : only_modem w w.
Proof. unfold only_modem. repeat split; lia. Qed.

Lemma only_modem_trans w1 w2 w3 :
  only_modem w1 w2 -> only_modem w2 w3 -> only_modem w1 w3.
Proof.
  unfold only_modem; intros H1 H2.
  repeat match goal with H : _ /\ _ |- _ => destruct H end.
  repeat split; try congruence; lia.
Qed.

Lemma only_serial_modem w w' :
  only_serial w w' -> only_modem w w' /\ handles w' = handles w.
Proof.
  unfold only_serial, only_modem; intros H.
  repeat match goal with H : _ /\ _ |- _ => destruct H end.
  repeat split; assumption.
Qed.

Lemma quiet_closed w : quiet_line w -> quiet_line (closed w).
Proof. intros [H1 H2]. split; [exact H1|exact H2]. Qed.

Lemma only_modem_closed w : only_modem w (closed w).
Proof. unfold only_modem. cbn. repeat split; lia. Qed.

Lemma attach_confirm_bound fuel n : forall w,
  quiet_line w -> (51 <= fuel)%nat ->
  exists b w',
    attach_confirm fuel n w = Ret b w' /\ quiet_line w' /\
    only_serial w w' /\ now w' <= now w + 7300 * Z.of_nat n.
Proof.
  induction n as [|n IH]; intros w Hq Hfuel.
  - exists false, w. split; [reflexivity|]. split; [exact Hq|].
    split; [apply only_serial_refl|cbn; lia].
  - cbn [attach_confirm]. unfold bind at 1. rewrite Nat2Z.inj_succ.
    destruct (send_at_command_quiet fuel "AT+CGATT?" 5000 w Hq ltac:(lia))
      as (r & w1 & -> & Hq1 & Hos1 & Ht1).
    destruct (is_attached r).
    { exists true, w1. split; [reflexivity|]. split; [exact Hq1|].
      split; [exact Hos1|lia]. }
    unfold bind.
    destruct (sleep_quiet_line 2000 w1 Hq1)
      as [w2 [(Hsl & Hq2 & Hos2)|(Hneg & _)]]; [|lia].
    pose proof (sleep_ret_now 2000 w1 w2 Hsl) as Hn2. rewrite Hsl.
    destruct (IH w2 Hq2 Hfuel) as (b & w' & Hrun & Hq' & Hos' & Ht').
    exists b, w'. split; [exact Hrun|]. split; [exact Hq'|].
    split; [eapply only_serial_trans; [exact Hos1|];
            eapply only_serial_trans; eassumption|lia].
Qed.

Lemma registration_wait_bound interval fuel start_time max_wait :
  forall loop_fuel w,
    quiet_line w ->
    (51 <= fuel)%nat -> 0 <= interval -> (0 < loop_fuel)%nat ->
    max_wait - (now w - start_time) <=
      (200 + interval) * (Z.of_nat loop_fuel - 1) ->
    exists b w',
      registration_wait interval fuel start_time max_wait loop_fuel w =
        Ret b w' /\ quiet_line w' /\ only_serial w w' /\
      (now w' = now w \/ now w' < start_time + max_wait + 5300 + interval).
Proof.
  induction loop_fuel as [|lf IH]; intros w Hq Hfuel Hint Hpos Hlf; [lia|].
  rewrite Nat2Z.inj_succ in Hlf.
  cbn [registration_wait]. unfold bind at 1, time_time at 1.
  destruct (Z.ltb_spec (now w - start_time) max_wait) as [Hlt|Hge].
  2:{ exists false, w. split; [reflexivity|]. split; [exact Hq|].
      split; [apply only_serial_refl|left; reflexivity]. }
  unfold bind at 1.
  destruct (send_at_command_quiet fuel "AT+CREG?" 5000 w Hq ltac:(lia))
    as (r & w1 & -> & Hq1 & Hos1 & Ht1).
  destruct (is_registered r).
  { exists true, w1. split; [reflexivity|]. split; [exact Hq1|].
    split; [exact Hos1|right; lia]. }
  unfold bind at 1.
  destruct (sleep_quiet_line interval w1 Hq1)
    as [w2 [(Hsl & Hq2 & Hos2)|(Hneg & _)]]; [|lia].
  pose proof (sleep_ret_now interval w1 w2 Hsl) as Hn2. rewrite Hsl.
  destruct (IH w2 Hq2 Hfuel Hint) as (b & w' & Hrun & Hq' & Hos' & Ht');
    [nia|nia|].
  exists b, w'. split; [exact Hrun|]. split; [exact Hq'|].
  split; [eapply only_serial_trans; [exact Hos1|];
          eapply only_serial_trans; eassumption|right; lia].
Qed.

Lemma quiet_opened w :
  quiet_line w ->
  quiet_line (set_log (SerialOpen :: log w) (set_handles (S (handles w)) w)).
Proof. intros [H1 H2]. split; [exact H1|exact H2]. Qed.

Lemma oneshot_check_in_bound fuel w :
  quiet_line w -> can_open w = true -> (51 <= fuel)%nat ->
  exists w',
    OneShot.check_in fuel w = Ret tt w' /\ quiet_line w' /\
    only_modem w w' /\ handles w' = S (handles w) /\
    last_signal_info w' = last_signal_info w /\
    now w' < now w + 16900.
Proof.
  intros Hq Hcan Hfuel. unfold OneShot.check_in.
  unfold bind at 1. unfold serial_open. rewrite Hcan. cbv beta iota.
  pose proof (quiet_opened w Hq) as Hq0.
  set (w0 := set_log (SerialOpen :: log w) (set_handles (S (handles w)) w)) in *.
  assert (Hm0 : only_modem w w0) by (unfold only_modem; cbn; repeat split; lia).
  assert (Hh0 : handles w0 = S (handles w)) by reflexivity.
  assert (Hl0 : last_signal_info w0 = last_signal_info w) by reflexivity.
  assert (Hn0 : now w0 = now w) by reflexivity.
  clearbody w0.
  unfold bind at 1.
  destruct (sleep_quiet_line 1000 w0 Hq0)
    as [w1 [(Hsl & Hq1 & Hos1)|(Hneg & _)]]; [|lia].
  pose proof (sleep_ret_now 1000 w0 w1 Hsl) as Hn1. rewrite Hsl.
  unfold bind at 1.
  destruct (send_at_command_quiet fuel "ATZ" 5000 w1 Hq1 ltac:(lia))
    as (r2 & w2 & -> & Hq2 & Hos2 & Ht2).
  unfold bind at 1.
  destruct (send_at_command_quiet fuel "ATE0" 5000 w2 Hq2 ltac:(lia))
    as (r3 & w3 & -> & Hq3 & Hos3 & Ht3).
  unfold bind at 1.
  destruct (send_at_command_quiet fuel "AT+CSQ" 5000 w3 Hq3 ltac:(lia))
    as (r4 & w4 & -> & Hq4 & Hos4 & Ht4).
  pose proof (only_serial_trans _ _ _ Hos1
                (only_serial_trans _ _ _ Hos2
                   (only_serial_trans _ _ _ Hos3 Hos4))) as Hos.
  destruct (only_serial_modem _ _ Hos) as [Hm Hh].
  assert (Hl : last_signal_info w4 = last_signal_info w0)
    by (unfold only_serial in Hos; tauto).
  destruct (report_signal r4) as [rep|].
  - eexists. split; [reflexivity|].
    split; [destruct Hq4 as [A B]; split; [exact A|exact B]|].
    split; [eapply only_modem_trans; [exact Hm0|];
            eapply only_modem_trans; [exact Hm|];
            unfold only_modem; cbn; repeat split; lia|].
    split; [cbn; congruence|]. split; [cbn; congruence|cbn; lia].
  - exists w4. split; [reflexivity|]. split; [exact Hq4|].
    split; [eapply only_modem_trans; eassumption|].
    split; [congruence|]. split; [congruence|lia].
Qed.

Lemma oneshot_initialize_modem_quiet (fuel : nat) (max_wait : Z)
    (w : world)
    (Hquiet : quiet_line w)
    (Hfuel : (301 <= fuel)%nat)
    (Hwait : 0 <= max_wait <= 2200 * (Z.of_nat fuel - 1)) :
  exists b w',
    OneShot.initialize_modem fuel max_wait w = Ret b w' /\
    handles w' = handles w /\ only_modem w w' /\ quiet_line w' /\
    last_signal_info w' = last_signal_info w /\
    now w' < now w + max_wait + 133800 /\
    (can_open w = false -> b = false /\ now w' = now w).
Proof.
  unfold OneShot.initialize_modem, try_except, OneShot.bring_up.
  destruct (can_open w) eqn:Hcan.
  2:{ unfold OneShot.check_in, bind, serial_open. rewrite Hcan.
      exists false, w. split; [reflexivity|]. split; [reflexivity|].
      split; [apply only_modem_refl|]. split; [exact Hquiet|].
      split; [reflexivity|]. split; [lia|]. intros _. split; reflexivity. }
  unfold bind at 1.
  destruct (oneshot_check_in_bound fuel w Hquiet Hcan ltac:(lia))
    as (w0 & -> & Hq0 & Hm0 & Hh0 & Hl0 & Ht0).
  assert (Hn0 : now w <= now w0) by (unfold only_modem in Hm0; tauto).
  unfold bind at 1, time_time at 1. unfold bind at 1.
  destruct (registration_wait_bound 2000 fuel (now w0) max_wait fuel w0 Hq0
              ltac:(lia) ltac:(lia) ltac:(lia) ltac:(nia))
    as (b1 & w1 & -> & Hq1 & Hos1 & Ht1).
  destruct (only_serial_modem _ _ Hos1) as [Hm1 Hh1].
  assert (Hl1 : last_signal_info w1 = last_signal_info w0)
    by (unfold only_serial in Hos1; tauto).
  assert (Ht1' : now w1 < now w + max_wait + 24200) by lia.
  destruct b1; cbn [negb].
  2:{ unfold bind, ser_close, ret. exists false. eexists.
      split; [reflexivity|]. split; [cbn; rewrite Hh1, Hh0; reflexivity|].
      split; [eapply only_modem_trans; [exact Hm0|];
              eapply only_modem_trans; [exact Hm1|apply only_modem_closed]|].
      split; [apply (quiet_closed w1 Hq1)|].
      split; [cbn; congruence|]. split; [cbn; lia|discriminate]. }
  unfold OneShot.attach_phase. unfold bind at 1.
  destruct (send_at_command_quiet fuel "AT+CGATT=1" 30000 w1 Hq1 ltac:(lia))
    as (r2 & w2 & -> & Hq2 & Hos2 & Ht2).
  unfold bind at 1.
  destruct (attach_confirm_bound fuel 10 w2 Hq2 ltac:(lia))
    as (b3 & w3 & -> & Hq3 & Hos3 & Ht3).
  pose proof (only_serial_trans _ _ _ Hos2 Hos3) as Hos23.
  destruct (only_serial_modem _ _ Hos23) as [Hm3 Hh3].
  assert (Hl3 : last_signal_info w3 = last_signal_info w1)
    by (unfold only_serial in Hos23; tauto).
  change (Z.of_nat 10) with 10 in Ht3.
  destruct b3; cbn [negb].
  2:{ unfold bind, ser_close, ret. exists false. eexists.
      split; [reflexivity|].
      split; [cbn; rewrite Hh3, Hh1, Hh0; reflexivity|].
      split; [eapply only_modem_trans; [exact Hm0|];
              eapply only_modem_trans; [exact Hm1|];
              eapply only_modem_trans; [exact Hm3|apply only_modem_closed]|].
      split; [apply (quiet_closed w3 Hq3)|].
      split; [cbn; congruence|]. split; [cbn; lia|discriminate]. }
  unfold bind at 1.
  destruct (send_at_command_quiet fuel "AT+COPS?" 5000 w3 Hq3 ltac:(lia))
    as (r4 & w4 & -> & Hq4 & Hos4 & Ht4).
  destruct (only_serial_modem _ _ Hos4) as [Hm4 Hh4].
  assert (Hl4 : last_signal_info w4 = last_signal_info w3)
    by (unfold only_serial in Hos4; tauto).
  unfold bind at 1, ser_close at 1. fold (closed w4). unfold bind at 1.
  destruct (sleep_quiet_line 1000 (closed w4) (quiet_closed w4 Hq4))
    as [w5 [(Hsl & Hq5 & Hos5)|(Hneg & _)]]; [|lia].
  pose proof (sleep_ret_now 1000 _ w5 Hsl) as Hn5. rewrite Hsl.
  destruct (only_serial_modem _ _ Hos5) as [Hm5 Hh5].
  assert (Hl5 : last_signal_info w5 = last_signal_info (closed w4))
    by (unfold only_serial in Hos5; tauto).
  exists true, w5. split; [reflexivity|].
  split; [rewrite Hh5; cbn; rewrite Hh4, Hh3, Hh1, Hh0; reflexivity|].
  split; [eapply only_modem_trans; [exact Hm0|];
          eapply only_modem_trans; [exact Hm1|];
          eapply only_modem_trans; [exact Hm3|];
          eapply only_modem_trans; [exact Hm4|];
          eapply only_modem_trans; [apply only_modem_closed|exact Hm5]|].
  split; [exact Hq5|].
  split; [rewrite Hl5; cbn; congruence|].
  split; [cbn in Hn5; lia|discriminate].
Qed.

(** X11. On a line without transport errors and with no signal pending,
    [initialize_modem] of the one-shot script always returns, whatever the
    modem answers or fails to answer, and it has closed the port it opened:
    the number of open serial handles is as before.  Nothing but the modem
    side is touched (no file, no process), and the call takes less than
    [max_wait] plus 133.8 seconds.  When the port cannot be opened the answer
    is [False] at once. *)
Theorem oneshot_initialize_modem_releases_port (fuel : nat) (max_wait : Z)
    (w : world)
    (Hquiet : quiet_line w)
    (Hfuel : (301 <= fuel)%nat)
    (Hwait : 0 <= max_wait <= 2200 * (Z.of_nat fuel - 1)) :
  exists b w',
    OneShot.initialize_modem fuel max_wait w = Ret b w' /\
    handles w' = handles w /\ only_modem w w' /\ quiet_line w' /\
    last_signal_info w' = last_signal_info w /\
    now w' < now w + max_wait + 133800 /\
    (can_open w = false -> b = false /\ now w' = now w).
Proof.
  exact (oneshot_initialize_modem_quiet fuel max_wait w Hquiet Hfuel Hwait).
Qed.

Lemma oneshot_initialize_modem_releases_port_witness :
  exists b w',
    OneShot.initialize_modem 301 60000 boot = Ret b w' /\
    handles w' = handles boot /\ only_modem boot w' /\ quiet_line w' /\
    last_signal_info w' = last_signal_info boot /\
    now w' < now boot + 60000 + 133800 /\
    (can_open boot = false -> b = false /\ now w' = now boot).
Proof.
  apply (oneshot_initialize_modem_releases_port 301 60000 boot);
    [exact boot_quiet|lia|lia].
Defined.

Lemma signal_query_bound fuel w :
  quiet_line w -> can_open w = true -> (51 <= fuel)%nat ->
  exists info w',
    get_signal_strength_at_init fuel w = Ret info w' /\ quiet_line w' /\
    only_modem w w' /\ handles w' = handles w /\
    last_signal_info w' = last_signal_info w /\
    now w' < now w + 5300.
Proof.
  intros Hq Hcan Hfuel.
  unfold get_signal_strength_at_init, try_except.
  unfold bind at 1. unfold serial_open. rewrite Hcan. cbv beta iota.
  pose proof (quiet_opened w Hq) as Hq0.
  set (w0 := set_log (SerialOpen :: log w) (set_handles (S (handles w)) w)) in *.
  assert (Hm0 : only_modem w w0) by (unfold only_modem; cbn; repeat split; lia).
  assert (Hh0 : handles w0 = S (handles w)) by reflexivity.
  assert (Hl0 : last_signal_info w0 = last_signal_info w) by reflexivity.
  assert (Hn0 : now w0 = now w) by reflexivity.
  clearbody w0.
  unfold bind at 1.
  destruct (send_at_command_quiet fuel "AT+CSQ" 5000 w0 Hq0 ltac:(lia))
    as (r & w1 & -> & Hq1 & Hos1 & Ht1).
  destruct (only_serial_modem _ _ Hos1) as [Hm1 Hh1].
  assert (Hl1 : last_signal_info w1 = last_signal_info w0)
    by (unfold only_serial in Hos1; tauto).
  unfold bind at 1, ser_close at 1. fold (closed w1).
  assert (Hend : quiet_line (closed w1) /\ only_modem w (closed w1) /\
                 handles (closed w1) = handles w /\
                 last_signal_info (closed w1) = last_signal_info w /\
                 now (closed w1) < now w + 5300).
  { split; [apply (quiet_closed w1 Hq1)|].
    split; [eapply only_modem_trans; [exact Hm0|];
            eapply only_modem_trans; [exact Hm1|apply only_modem_closed]|].
    split; [cbn; rewrite Hh1, Hh0; reflexivity|].
    split; [cbn; congruence|cbn; lia]. }
  destruct (signal_of_response_cases r (closed w1))
    as [[rssi ->]|[->|[msg ->]]]; eexists; exists (closed w1);
    (split; [reflexivity|exact Hend]).
Qed.

Lemma service_check_in_bound fuel w :
  quiet_line w -> can_open w = true -> (51 <= fuel)%nat ->
  exists w',
    Service.check_in fuel w = Ret tt w' /\ quiet_line w' /\
    only_modem w w' /\ handles w' = S (handles w) /\
    now w' < now w + 16900.
Proof.
  intros Hq Hcan Hfuel. unfold Service.check_in.
  unfold bind at 1. unfold serial_open. rewrite Hcan. cbv beta iota.
  pose proof (quiet_opened w Hq) as Hq0.
  set (w0 := set_log (SerialOpen :: log w) (set_handles (S (handles w)) w)) in *.
  assert (Hm0 : only_modem w w0) by (unfold only_modem; cbn; repeat split; lia).
  assert (Hh0 : handles w0 = S (handles w)) by reflexivity.
  assert (Hn0 : now w0 = now w) by reflexivity.
  clearbody w0.
  unfold bind at 1.
  destruct (sleep_quiet_line 1000 w0 Hq0)
    as [w1 [(Hsl & Hq1 & Hos1)|(Hneg & _)]]; [|lia].
  pose proof (sleep_ret_now 1000 w0 w1 Hsl) as Hn1. rewrite Hsl.
  unfold bind at 1.
  destruct (send_at_command_quiet fuel "ATZ" 5000 w1 Hq1 ltac:(lia))
    as (r2 & w2 & -> & Hq2 & Hos2 & Ht2).
  unfold bind at 1.
  destruct (send_at_command_quiet fuel "ATE0" 5000 w2 Hq2 ltac:(lia))
    as (r3 & w3 & -> & Hq3 & Hos3 & Ht3).
  pose proof (only_serial_trans _ _ _ Hos1
                (only_serial_trans _ _ _ Hos2 Hos3)) as Hos.
  destruct (only_serial_modem _ _ Hos) as [Hm Hh].
  assert (Hcan3 : can_open w3 = true)
    by (unfold only_modem in Hm, Hm0; intuition congruence).
  unfold bind at 1.
  destruct (signal_query_bound fuel w3 Hq3 Hcan3 Hfuel)
    as (info & w4 & -> & Hq4 & Hm4 & Hh4 & _ & Ht4).
  unfold Service.store_last_signal_info. eexists. split; [reflexivity|].
  split; [destruct Hq4 as [A B]; split; [exact A|exact B]|].
  split; [eapply only_modem_trans; [exact Hm0|];
          eapply only_modem_trans; [exact Hm|];
          eapply only_modem_trans; [exact Hm4|];
          unfold only_modem; cbn; repeat split; lia|].
  split; [cbn; congruence|cbn; lia].
Qed.

Lemma service_initialize_modem_quiet (fuel : nat) (max_wait : Z)
    (w : world)
    (Hquiet : quiet_line w)
    (Hfuel : (301 <= fuel)%nat)
    (Hwait : 0 <= max_wait <= 5200 * (Z.of_nat fuel - 1)) :
  exists b w',
    Service.initialize_modem fuel max_wait w = Ret b w' /\
    handles w' = handles w /\ only_modem w w' /\ quiet_line w' /\
    now w' < now w + max_wait + 135800 /\
    (can_open w = false ->
     b = false /\ now w' = now w /\
     last_signal_info w' = last_signal_info w).
Proof.
  unfold Service.initialize_modem, try_except, Service.bring_up.
  destruct (can_open w) eqn:Hcan.
  2:{ unfold Service.check_in, bind, serial_open. rewrite Hcan.
      exists false, w. split; [reflexivity|]. split; [reflexivity|].
      split; [apply only_modem_refl|]. split; [exact Hquiet|].
      split; [lia|]. intros _. repeat split; reflexivity. }
  unfold bind at 1.
  destruct (service_check_in_bound fuel w Hquiet Hcan ltac:(lia))
    as (w0 & -> & Hq0 & Hm0 & Hh0 & Ht0).
  assert (Hn0 : now w <= now w0) by (unfold only_modem in Hm0; tauto).
  unfold bind at 1, time_time at 1. unfold bind at 1.
  destruct (registration_wait_bound 5000 fuel (now w0) max_wait fuel w0 Hq0
              ltac:(lia) ltac:(lia) ltac:(lia) ltac:(nia))
    as (b1 & w1 & -> & Hq1 & Hos1 & Ht1).
  destruct (only_serial_modem _ _ Hos1) as [Hm1 Hh1].
  assert (Ht1' : now w1 < now w + max_wait + 27200) by lia.
  destruct b1; cbn [negb].
  2:{ unfold bind, ser_close, ret. exists false. eexists.
      split; [reflexivity|]. split; [cbn; rewrite Hh1, Hh0; reflexivity|].
      split; [eapply only_modem_trans; [exact Hm0|];
              eapply only_modem_trans; [exact Hm1|apply only_modem_closed]|].
      split; [apply (quiet_closed w1 Hq1)|].
      split; [cbn; lia|discriminate]. }
  unfold Service.attach_phase. unfold bind at 1.
  destruct (send_at_command_quiet fuel "AT+COPS?" 5000 w1 Hq1 ltac:(lia))
    as (r2 & w2 & -> & Hq2 & Hos2 & Ht2).
  unfold bind at 1.
  destruct (send_at_command_quiet fuel "AT+CGATT=1" 30000 w2 Hq2 ltac:(lia))
    as (r3 & w3 & -> & Hq3 & Hos3 & Ht3).
  unfold bind at 1.
  destruct (attach_confirm_bound fuel 10 w3 Hq3 ltac:(lia))
    as (b4 & w4 & -> & Hq4 & Hos4 & Ht4).
  pose proof (only_serial_trans _ _ _ Hos2
                (only_serial_trans _ _ _ Hos3 Hos4)) as Hos24.
  destruct (only_serial_modem _ _ Hos24) as [Hm4 Hh4].
  change (Z.of_nat 10) with 10 in Ht4.
  exists b4, (closed w4).
  split; [destruct b4; reflexivity|].
  split; [cbn; rewrite Hh4, Hh1, Hh0; reflexivity|].
  split; [eapply only_modem_trans; [exact Hm0|];
          eapply only_modem_trans; [exact Hm1|];
          eapply only_modem_trans; [exact Hm4|apply only_modem_closed]|].
  split; [apply (quiet_closed w4 Hq4)|].
  split; [cbn; lia|discriminate].
Qed.

(** X12. On a line without transport errors and with no signal pending,
    [initialize_modem] of the persistent script always returns, whatever the
    modem answers, with every serial handle it opened closed again (its own
    and the one of the signal query).  Nothing but the modem side is touched,
    and the call takes less than [max_wait] plus 135.8 seconds.  When the
    port cannot be opened the answer is [False] at once and no signal
    reading is stored. *)
Theorem service_initialize_modem_releases_port (fuel : nat) (max_wait : Z)
    (w : world)
    (Hquiet : quiet_line w)
    (Hfuel : (301 <= fuel)%nat)
    (Hwait : 0 <= max_wait <= 5200 * (Z.of_nat fuel - 1)) :
  exists b w',
    Service.initialize_modem fuel max_wait w = Ret b w' /\
    handles w' = handles w /\ only_modem w w' /\ quiet_line w' /\
    now w' < now w + max_wait + 135800 /\
    (can_open w = false ->
     b = false /\ now w' = now w /\
     last_signal_info w' = last_signal_info w).
Proof.
  exact (service_initialize_modem_quiet fuel max_wait w Hquiet Hfuel Hwait).
Qed.

Lemma service_initialize_modem_releases_port_witness :
  exists b w',
    Service.initialize_modem 301 60000
      (set_wire cooperative_line_service boot) = Ret b w' /\
    handles w' = handles (set_wire cooperative_line_service boot) /\
    only_modem (set_wire cooperative_line_service boot) w' /\
    quiet_line w' /\
    now w' < now (set_wire cooperative_line_service boot) + 60000 + 135800 /\
    (can_open (set_wire cooperative_line_service boot) = false ->
     b = false /\ now w' = now (set_wire cooperative_line_service boot) /\
     last_signal_info w' =
       last_signal_info (set_wire cooperative_line_service boot)).
Proof.
  apply (service_initialize_modem_releases_port 301 60000
           (set_wire cooperative_line_service boot));
    [split; [reflexivity|]|lia|lia].
  exists (map bytes_of
            ["OK"; "OK"; "+CSQ: 18,0 OK"; "+CREG: 0,1 OK"; "+COPS: 0 OK";
             "OK"; "+CGATT: 1 OK"]%string).
  reflexivity.
Defined.

(** ** What a failed start leaves behind *)

Lemma set_proc_other pid p st w :
  p <> pid ->
  nth_error (procs (set_proc pid st w)) p = nth_error (procs w) p.
Proof.
  unfold set_proc. cbn [procs set_procs]. generalize (procs w) as l.
  revert p. induction pid as [|pid IH]; intros p l Hp.
  - destruct l as [|x l]; [reflexivity|]. destruct p; [congruence|reflexivity].
  - destruct l as [|x l]; [reflexivity|]. destruct p as [|p]; [reflexivity|].
    cbn. apply IH. congruence.
Qed.

Lemma wait_for_link_frame pid timeout : forall fuel connected ip w r w',
  sigint_at w = None ->
  OneShot.wait_for_link pid timeout connected ip fuel w = Ret r w' ->
  sigint_at w' = None /\ files w' = files w /\ handles w' = handles w /\
  fresh w' = fresh w /\ obeys_term w' = obeys_term w /\
  captured w' = captured w /\
  (forall p, p <> pid -> nth_error (procs w') p = nth_error (procs w) p).
Proof.
  induction fuel as [|fuel IH]; intros connected ip w r w' Hq Hrun;
    [discriminate|].
  cbn [OneShot.wait_for_link] in Hrun. unfold bind at 1, time_time at 1 in Hrun.
  destruct (now w <? timeout).
  2:{ injection Hrun as _ <-. repeat split; auto. }
  unfold bind at 1 in Hrun. rewrite (queue_get_quiet pid w Hq) in Hrun.
  destruct (queue w) as [|[wait line|exited] rest] eqn:Equeue.
  - set (w2 := set_now (now w + 500) (set_blocked (S (blocked w)) w)) in *.
    unfold bind at 1, still_running in Hrun.
    destruct (match nth_error (procs w2) pid with
              | Some Running => true
              | _ => false
              end); cbn [negb] in Hrun.
    + apply IH in Hrun; [|exact Hq]. exact Hrun.
    + injection Hrun as _ <-. repeat split; auto.
  - set (w1 := set_now (now w + get_wait wait)
                 (set_queue rest (set_blocked (S (blocked w)) w))) in *.
    assert (Hend : forall x : bool * bool,
               @Ret (bool * bool) x w1 = Ret r w' ->
               sigint_at w' = None /\ files w' = files w /\
               handles w' = handles w /\ fresh w' = fresh w /\
               obeys_term w' = obeys_term w /\ captured w' = captured w /\
               (forall p, p <> pid ->
                          nth_error (procs w') p = nth_error (procs w) p)).
    { intros x Hx. injection Hx as _ <-. repeat split; auto. }
    destruct (OneShot.is_ip_assigned line); [eapply Hend; exact Hrun|].
    destruct (OneShot.is_lcp_failure line); [eapply Hend; exact Hrun|].
    destruct (OneShot.is_script_failure line); [eapply Hend; exact Hrun|].
    apply IH in Hrun; [|exact Hq]. exact Hrun.
  - cbv zeta in Hrun.
    match type of Hrun with context [Ret None ?x] => set (w1 := x) in * end.
    assert (Hs1 : sigint_at w1 = None) by (subst w1; destruct exited; exact Hq).
    assert (Hf1 : files w1 = files w) by (subst w1; destruct exited; reflexivity).
    assert (Hh1 : handles w1 = handles w)
      by (subst w1; destruct exited; reflexivity).
    assert (Hfr1 : fresh w1 = fresh w)
      by (subst w1; destruct exited; reflexivity).
    assert (Ho1 : obeys_term w1 = obeys_term w)
      by (subst w1; destruct exited; reflexivity).
    assert (Hc1 : captured w1 = captured w)
      by (subst w1; destruct exited; reflexivity).
    assert (Hp1 : forall p, p <> pid ->
                            nth_error (procs w1) p = nth_error (procs w) p).
    { intros p Hp. subst w1; destruct exited; [|reflexivity].
      rewrite set_proc_other by exact Hp. reflexivity. }
    clearbody w1.
    unfold bind at 1, still_running in Hrun.
    destruct (match nth_error (procs w1) pid with
              | Some Running => true
              | _ => false
              end); cbn [negb] in Hrun.
    + apply IH in Hrun; [|exact Hs1].
      destruct Hrun as (A & B & C & D & E & F & G).
      repeat split; try congruence.
      intros p Hp. rewrite G by exact Hp. apply Hp1. exact Hp.
    + injection Hrun as _ <-. repeat split; auto.
Qed.

Lemma terminate_frame pid w w' :
  sigint_at w = None ->
  OneShot.terminate (Some pid) w = Ret tt w' ->
  sigint_at w' = None /\
  forall p, p <> pid -> nth_error (procs w') p = nth_error (procs w) p.
Proof.
  intros Hq. unfold OneShot.terminate, bind at 1, still_running at 1.
  destruct (match nth_error (procs w) pid with
            | Some Running => true
            | _ => false
            end); [|intros [= <-]; split; [exact Hq|reflexivity]].
  unfold bind at 1, send_sigterm. unfold bind at 1.
  rewrite sleep_quiet by (destruct (obeys_term w); exact Hq).
  unfold bind, still_running, kill, ret.
  match goal with |- context [if ?b then _ else _] => destruct b end;
    intros [= <-]; (split; [destruct (obeys_term w); exact Hq|]);
    intros p Hp; destruct (obeys_term w); cbn [procs set_log set_now set_blocked];
    rewrite ?set_proc_other by exact Hp; cbn [procs set_log set_now set_blocked];
    rewrite ?set_proc_other by exact Hp; reflexivity.
Qed.

Lemma cleanup_ppp_quiet pid path w :
  sigint_at w = None -> path <> ""%string ->
  exists w',
    OneShot.cleanup_ppp (Some pid) (Some path) false w = Ret tt w' /\
    files w' = filter (fun f => negb (String.eqb path f)) (files w) /\
    handles w' = handles w /\
    nth_error (procs w') pid <> Some Running /\
    (forall p, p <> pid -> nth_error (procs w') p = nth_error (procs w) p).
Proof.
  intros Hq Hpath.
  unfold OneShot.cleanup_ppp. unfold bind at 1, ret at 1.
  unfold bind at 1, try_except.
  destruct (terminate_quiet (Some pid) w Hq) as (w1 & Et & Hf & Hh & _).
  pose proof (terminate_spec (Some pid) w) as Hs. rewrite Et in Hs.
  destruct Hs as [Hnr _]. specialize (Hnr pid eq_refl).
  destruct (terminate_frame pid w w1 Hq Et) as [Hq1 Hfr].
  rewrite Et.
  unfold bind at 1, subprocess_run, emit. unfold bind at 1. unfold bind.
  rewrite remove_chat_script_run.
  assert (Htp : truthy_path (Some path) = Some path).
  { unfold truthy_path. destruct (String.eqb_spec path ""); [contradiction|].
    reflexivity. }
  rewrite Htp. eexists. split; [reflexivity|].
  match goal with |- context [if file_exists path ?x then _ else _] =>
    change (file_exists path x) with (existsb (String.eqb path) (files w1));
    destruct (existsb (String.eqb path) (files w1)) eqn:Ee
  end.
  - cbn. rewrite Hf, Hh. repeat split; auto.
  - cbn. rewrite Hh. split; [|repeat split; auto].
    rewrite <- Hf. symmetry. apply filter_absent. exact Ee.
Qed.

Lemma diagnostics_fields w :
  exists w',
    OneShot.diagnostics w = Ret tt w' /\
    files w' = files w /\ procs w' = procs w /\ handles w' = handles w /\
    now w' = now w /\ sigint_at w' = sigint_at w.
Proof.
  unfold OneShot.diagnostics.
  unfold bind at 1.
  destruct (captured_run ["ifconfig"; "ppp0"]%string w)
    as (w1 & -> & _ & An & Aq & Af & Ap & Ah & _).
  unfold bind at 1.
  destruct (captured_run ["ip"; "route"; "show"]%string w1)
    as (w2 & -> & _ & Bn & Bq & Bf & Bp & Bh & _).
  unfold bind at 1.
  destruct (captured_run ["cat"; "/etc/resolv.conf"]%string w2)
    as (w3 & -> & _ & Cn & Cq & Cf & Cp & Ch & _).
  unfold bind at 1.
  destruct (captured_run
              ["ping"; "-I"; "ppp0"; "-c"; "3"; "-W"; "5"; "8.8.8.8"]%string w3)
    as (w4 & -> & _ & Dn & Dq & Df & Dp & Dh & _).
  match goal with |- context [if ?b then _ else _] => destruct b end.
  - unfold bind.
    destruct (captured_run
                ["ping"; "-I"; "ppp0"; "-c"; "2"; "-W"; "5"; "google.com"]%string w4)
      as (w5 & -> & _ & En & Eq & Ef & Ep & Eh & _).
    exists w5. split; [reflexivity|]. repeat split; congruence.
  - exists w4. split; [reflexivity|]. repeat split; congruence.
Qed.

Lemma nth_error_spawned {A} (l : list A) (x y : A) p :
  p <> List.length l ->
  nth_error (l ++ [x]) p = Some y -> nth_error l p = Some y.
Proof.
  intros Hp H. destruct (Nat.lt_ge_cases p (List.length l)) as [Hlt|Hge].
  - rewrite nth_error_app1 in H by exact Hlt. exact H.
  - rewrite nth_error_app2 in H by exact Hge.
    destruct (p - List.length l)%nat as [|k] eqn:E; [lia|].
    destruct k; discriminate.
Qed.

Lemma temp_file_fields content w :
  exists w',
    named_temporary_file content w = Ret (fresh w) w' /\
    files w' = fresh w :: files w /\ sigint_at w' = sigint_at w /\
    handles w' = handles w /\ procs w' = procs w /\ queue w' = queue w /\
    captured w' = captured w /\ now w' = now w.
Proof.
  unfold named_temporary_file. eexists. split; [reflexivity|].
  cbn. repeat split; reflexivity.
Qed.

Lemma clean_environment_fields w :
  sigint_at w = None ->
  exists w',
    clean_environment w = Ret tt w' /\
    files w' = files w /\ sigint_at w' = None /\
    handles w' = handles w /\ procs w' = procs w /\ queue w' = queue w /\
    captured w' = captured w /\ now w' = now w + 1000.
Proof.
  intros Hq. unfold clean_environment, bind, subprocess_run, emit.
  rewrite sleep_quiet by exact Hq. eexists. split; [reflexivity|].
  cbn. repeat split; try reflexivity. exact Hq.
Qed.

Lemma popen_fields argv w :
  exists w',
    subprocess_Popen argv w = Ret (List.length (procs w)) w' /\
    files w' = files w /\ sigint_at w' = sigint_at w /\
    handles w' = handles w /\ procs w' = (procs w ++ [Running])%list /\
    queue w' = queue w /\ captured w' = captured w /\ now w' = now w.
Proof.
  unfold subprocess_Popen. eexists. split; [reflexivity|].
  cbn. repeat split; reflexivity.
Qed.

Lemma start_ppp_quiet (fuel : nat) (apn : string) (w : world) :
  quiet_line w ->
  file_exists (fresh w) w = false -> fresh w <> ""%string ->
  (301 <= fuel)%nat ->
  90000 <= 500 * (Z.of_nat fuel - 2 - Z.of_nat (List.length (queue w))) ->
  exists r w',
    OneShot.start_ppp fuel apn w = Ret r w' /\
    handles w' = handles w /\
    match r with
    | None =>
        files w' = files w /\
        (forall p, nth_error (procs w') p = Some Running ->
                   nth_error (procs w) p = Some Running)
    | Some (process, tmp_chat_path) =>
        process = List.length (procs w) /\ tmp_chat_path = fresh w /\
        files w' = fresh w :: files w /\
        (forall p, p <> process ->
                   nth_error (procs w') p = Some Running ->
                   nth_error (procs w) p = Some Running) /\
        sigint_at w' = None
    end.
Proof.
  intros Hquiet Hnew Hname Hfuel Hloop.
  unfold OneShot.start_ppp. unfold bind at 1.
  destruct (oneshot_initialize_modem_quiet fuel 60000 w Hquiet Hfuel ltac:(lia))
    as (ok & w1 & -> & Hh1 & Hm1 & Hq1 & _).
  destruct Hm1 as (Ms & _ & _ & Mf & Mfr & Mp & _ & Mq & _).
  destruct ok; cbn [negb].
  2:{ exists None, w1. split; [reflexivity|]. split; [exact Hh1|].
      split; [exact Mf|]. intros p. rewrite Mp. auto. }
  unfold bind at 1.
  destruct (temp_file_fields (chat_script true apn) w1)
    as (w2 & -> & Tf & Ts & Th & Tp & Tq & _).
  unfold bind at 1.
  destruct (clean_environment_fields w2) as (w3 & -> & Cf & Cs & Ch & Cp & Cq & _);
    [rewrite Ts; apply Hq1|].
  unfold bind at 1.
  destruct (popen_fields (OneShot.ppp_cmd (fresh w1)) w3)
    as (w4 & -> & Pf & Ps & Ph & Pp & Pq & _).
  assert (Hs4 : sigint_at w4 = None) by congruence.
  assert (Hf4 : files w4 = fresh w :: files w) by congruence.
  assert (Hh4 : handles w4 = handles w) by congruence.
  assert (Hp4 : procs w4 = (procs w ++ [Running])%list) by congruence.
  assert (Hq4 : queue w4 = queue w) by congruence.
  assert (Hl3 : List.length (procs w3) = List.length (procs w)) by congruence.
  rewrite Hl3, Mfr.
  unfold bind at 1, time_time at 1. unfold bind at 1.
  destruct (wait_for_link_time (List.length (procs w)) (now w4 + 90000) fuel
              false false w4 Hs4 ltac:(lia) ltac:(rewrite Hq4; lia))
    as (r & w5 & Hrun & _).
  destruct (wait_for_link_frame _ _ _ _ _ _ _ _ Hs4 Hrun)
    as (Hs5 & Hf5 & Hh5 & _ & _ & _ & Hp5).
  rewrite Hrun.
  destruct (negb (fst r) || negb (snd r)).
  - unfold bind at 1, emit at 1. unfold bind at 1.
    match goal with |- context [OneShot.cleanup_ppp _ _ _ ?x] =>
      destruct (cleanup_ppp_quiet (List.length (procs w)) (fresh w) x)
        as (w7 & -> & Hf7 & Hh7 & Hn7 & Hp7); [exact Hs5|exact Hname|]
    end.
    exists None, w7. split; [reflexivity|].
    split; [rewrite Hh7; cbn; congruence|].
    split.
    + rewrite Hf7. cbn [files set_log]. rewrite Hf5, Hf4. cbn [filter].
      rewrite String.eqb_refl. cbn [negb]. apply filter_absent. exact Hnew.
    + intros p Hp.
      destruct (Nat.eq_dec p (List.length (procs w))) as [->|Hne];
        [contradiction|].
      rewrite Hp7 in Hp by exact Hne. cbn [procs set_log] in Hp.
      rewrite Hp5, Hp4 in Hp by exact Hne.
      eapply nth_error_spawned; eassumption.
  - unfold bind at 1.
    destruct (sleep_quiet_fields 8000 w5 Hs5)
      as (w6 & -> & _ & _ & Sq & Sf & Sp & Sh & _).
    unfold bind at 1.
    destruct (diagnostics_fields w6) as (w7 & -> & Df & Dp & Dh & _ & Dq).
    eexists (Some (_, _)), w7. split; [reflexivity|].
    split; [congruence|]. split; [reflexivity|]. split; [reflexivity|].
    split; [congruence|]. split; [|congruence].
    intros p Hne Hp. rewrite Dp, Sp, Hp5, Hp4 in Hp by exact Hne.
    eapply nth_error_spawned; eassumption.
Qed.

Lemma not_running_beyond {A} (l : list A) (x : A) p :
  (List.length l <= p)%nat -> nth_error l p <> Some x.
Proof.
  intros H E. apply nth_error_None in H. congruence.
Qed.

(** X13. On a line without transport errors and with no signal pending,
    [start_ppp] always returns, with every [Serial] object it opened closed
    again.  When it answers [None] it has cleaned up after itself: no chat
    script is left (the temporary file, when it was written, has been
    removed) and no process that it spawned is left running.  When it
    answers with a process and a path, these are the process it spawned and
    the chat script it wrote, and the chat script is still there.  The name
    the temporary file gets is assumed new and not empty. *)
Theorem start_ppp_failure_cleans_up (fuel : nat) (apn : string) (w : world)
    (Hquiet : quiet_line w)
    (Hnew : file_exists (fresh w) w = false)
    (Hname : fresh w <> ""%string)
    (Hfuel : (301 <= fuel)%nat)
    (Hloop : 90000 <=
             500 * (Z.of_nat fuel - 2 - Z.of_nat (List.length (queue w)))) :
  exists r w',
    OneShot.start_ppp fuel apn w = Ret r w' /\
    handles w' = handles w /\
    match r with
    | None =>
        file_exists (fresh w) w' = false /\
        (forall p, (List.length (procs w) <= p)%nat ->
                   nth_error (procs w') p <> Some Running)
    | Some (process, tmp_chat_path) =>
        process = List.length (procs w) /\ tmp_chat_path = fresh w /\
        file_exists tmp_chat_path w' = true
    end.
Proof.
  destruct (start_ppp_quiet fuel apn w Hquiet Hnew Hname Hfuel Hloop)
    as (r & w' & Hrun & Hh & Hr).
  exists r, w'. split; [exact Hrun|]. split; [exact Hh|].
  destruct r as [[process path]|].
  - destruct Hr as (A & B & C & _). split; [exact A|]. split; [exact B|].
    subst path. unfold file_exists. rewrite C. cbn [existsb].
    rewrite String.eqb_refl. reflexivity.
  - destruct Hr as [Hf Hp]. split.
    + unfold file_exists in *. rewrite Hf. exact Hnew.
    + intros p Hle E. apply Hp in E.
      exact (not_running_beyond (procs w) Running p Hle E).
Qed.

Lemma start_ppp_failure_cleans_up_witness :
  exists r w',
    OneShot.start_ppp 301 "airtelgprs.com"
      (set_queue [Got 0 (lit "Connect script failed")]
         (set_wire cooperative_line boot)) = Ret r w' /\
    handles w' = 0%nat /\
    match r with
    | None =>
        file_exists "/tmp/tmpq1w2e3" w' = false /\
        (forall p, (0 <= p)%nat -> nth_error (procs w') p <> Some Running)
    | Some (process, tmp_chat_path) =>
        process = 0%nat /\ tmp_chat_path = "/tmp/tmpq1w2e3"%string /\
        file_exists tmp_chat_path w' = true
    end.
Proof.
  apply (start_ppp_failure_cleans_up 301 "airtelgprs.com"
           (set_queue [Got 0 (lit "Connect script failed")]
              (set_wire cooperative_line boot))).
  - split; [reflexivity|].
    exists (map bytes_of
              ["OK"; "OK"; "+CSQ: 18,0 OK"; "+CREG: 0,1 OK"; "OK";
               "+CGATT: 1 OK"; "+COPS: 0 OK"]%string).
    reflexivity.
  - reflexivity.
  - discriminate.
  - lia.
  - cbn. lia.
Defined.

(** ** Starting the persistent connection *)

Lemma start_persistent_connection_quiet (fuel : nat) (apn : string) (w : world) :
  quiet_line w -> (301 <= fuel)%nat ->
  exists b w',
    Service.start_persistent_connection fuel apn w = Ret b w' /\
    handles w' = handles w /\
    ((b = false /\ files w' = files w /\ procs w' = procs w /\
      tmp_chat_path w' = tmp_chat_path w)
     \/
     (b = existsb interface_up (firstn 30 (captured w)) /\
      files w' = fresh w :: files w /\
      procs w' = (procs w ++ [Running])%list /\
      tmp_chat_path w' = Some (fresh w))).
Proof.
  intros Hquiet Hfuel.
  unfold Service.start_persistent_connection. unfold bind at 1.
  destruct (service_initialize_modem_quiet fuel 60000 w Hquiet Hfuel ltac:(lia))
    as (ok & w1 & -> & Hh1 & Hm1 & Hq1 & _).
  destruct Hm1 as (Ms & _ & _ & Mf & Mfr & Mp & _ & Mq & Mc & Mt & _).
  destruct ok; cbn [negb].
  2:{ exists false, w1. split; [reflexivity|]. split; [exact Hh1|].
      left. repeat split; assumption. }
  set (c := Service.wait_for_interface 30).
  unfold named_temporary_file, Service.store_tmp_chat_path, clean_environment,
    subprocess_run, emit, subprocess_Popen, Service.store_ppp_process, bind.
  rewrite sleep_quiet by (cbn; apply Hq1).
  match goal with |- context [c ?x] => set (w4 := x) end.
  assert (Hs4 : sigint_at w4 = None) by (subst w4; cbn; apply Hq1).
  assert (Hf4 : files w4 = fresh w :: files w)
    by (subst w4; cbn; rewrite Mfr, Mf; reflexivity).
  assert (Hh4 : handles w4 = handles w) by (subst w4; cbn; exact Hh1).
  assert (Hp4 : procs w4 = (procs w ++ [Running])%list)
    by (subst w4; cbn; rewrite Mp; reflexivity).
  assert (Hc4 : captured w4 = captured w) by (subst w4; cbn; exact Mc).
  assert (Ht4 : tmp_chat_path w4 = Some (fresh w))
    by (subst w4; cbn; rewrite Mfr; reflexivity).
  clearbody w4. subst c.
  destruct (wait_for_interface_quiet 30 w4 Hs4)
    as (w5 & Hrun & _ & _ & If & Ip & Ih & It).
  rewrite Hc4 in Hrun.
  exists (existsb interface_up (firstn 30 (captured w))), w5.
  split; [exact Hrun|]. split; [congruence|].
  right. repeat split; congruence.
Qed.

Lemma truthy_named path : path <> ""%string -> truthy_path (Some path) = Some path.
Proof.
  intros H. unfold truthy_path.
  destruct (String.eqb_spec path ""); [contradiction|reflexivity].
Qed.

(** X14. On a line without transport errors and with no signal pending,
    [start_persistent_connection] always returns, with every [Serial] object
    it opened closed again.  Either the modem could not be initialised: the
    answer is [False], no process has been spawned and [tmp_chat_path] is as
    before.  Or the chat script has been written and recorded in
    [tmp_chat_path], one process has been spawned, and the answer is [True]
    exactly when one of the first 30 polls of [ifconfig ppp0] exits with
    code 0 and shows an [inet ] address; on a [False] of this kind too the
    function has not removed the chat script. *)
Theorem start_persistent_connection_answer (fuel : nat) (apn : string)
    (w : world)
    (Hquiet : quiet_line w) (Hfuel : (301 <= fuel)%nat) :
  exists b w',
    Service.start_persistent_connection fuel apn w = Ret b w' /\
    handles w' = handles w /\
    ((b = false /\ tmp_chat_path w' = tmp_chat_path w /\
      List.length (procs w') = List.length (procs w))
     \/
     (b = existsb interface_up (firstn 30 (captured w)) /\
      tmp_chat_path w' = Some (fresh w) /\
      file_exists (fresh w) w' = true /\
      List.length (procs w') = S (List.length (procs w)))).
Proof.
  destruct (start_persistent_connection_quiet fuel apn w Hquiet Hfuel)
    as (b & w' & Hrun & Hh & Hcase).
  exists b, w'. split; [exact Hrun|]. split; [exact Hh|].
  destruct Hcase as [(Hb & Hf & Hp & Ht)|(Hb & Hf & Hp & Ht)].
  - left. split; [exact Hb|]. split; [exact Ht|]. rewrite Hp. reflexivity.
  - right. split; [exact Hb|]. split; [exact Ht|]. split.
    + unfold file_exists. rewrite Hf. cbn [existsb].
      rewrite String.eqb_refl. reflexivity.
    + rewrite Hp, length_app. cbn [List.length]. lia.
Qed.

Lemma start_persistent_connection_answer_witness :
  exists b w',
    Service.start_persistent_connection 301 "airtelgprs.com"
      (set_captured interface_comes_up
         (set_wire cooperative_line_service boot)) = Ret b w' /\
    handles w' = 0%nat /\
    ((b = false /\ tmp_chat_path w' = None /\ List.length (procs w') = 0%nat)
     \/
     (b = true /\
      tmp_chat_path w' = Some "/tmp/tmpq1w2e3"%string /\
      file_exists "/tmp/tmpq1w2e3" w' = true /\
      List.length (procs w') = 1%nat)).
Proof.
  apply (start_persistent_connection_answer 301 "airtelgprs.com"
           (set_captured interface_comes_up
              (set_wire cooperative_line_service boot))); [|lia].
  split; [reflexivity|].
  exists (map bytes_of
            ["OK"; "OK"; "+CSQ: 18,0 OK"; "+CREG: 0,1 OK"; "+COPS: 0 OK";
             "OK"; "+CGATT: 1 OK"]%string).
  reflexivity.
Defined.

(** X15. When the connection cannot be established (the modem is not
    initialised, or no poll of the interface within the first 30 shows an
    address), the persistent script ends with exit status 1 after its
    cleanup: the chat script recorded in [tmp_chat_path], if there is one,
    does not exist any more, and every [Serial] object opened has been
    closed.  This is for a line without transport errors and no signal
    pending. *)
Theorem service_main_failure_exits_clean (fuel ticks : nat) (w : world)
    (Hquiet : quiet_line w)
    (Hfuel : (301 <= fuel)%nat)
    (Hdown : existsb interface_up (firstn 30 (captured w)) = false) :
  exists w',
    Service.main fuel ticks w = Raise (SystemExit 1) w' /\
    handles w' = handles w /\
    (forall path, tmp_chat_path w' = Some path -> path <> ""%string ->
                  file_exists path w' = false).
Proof.
  unfold Service.main. unfold bind at 1, Service.install_handler at 1.
  set (w0 := set_handler true w).
  assert (Hq0 : quiet_line w0)
    by (destruct Hquiet as [A B]; split; [exact A|exact B]).
  unfold bind at 1.
  destruct (start_persistent_connection_quiet fuel "airtelgprs.com" w0 Hq0 Hfuel)
    as (b & w1 & -> & Hh1 & Hcase).
  change (captured w0) with (captured w) in Hcase.
  change (handles w0) with (handles w) in Hh1.
  assert (Hb : b = false) by (destruct Hcase as [(-> & _)|(-> & _)]; auto).
  subst b. clear Hcase. unfold bind at 1. rewrite cleanup_connection_run.
  cbv zeta. unfold sys_exit, raise.
  eexists. split; [reflexivity|].
  split.
  - destruct (truthy_path (tmp_chat_path w1)) as [q|];
      [destruct (file_exists q w1)|]; exact Hh1.
  - intros path Hp Hne.
    assert (Ht : tmp_chat_path w1 = Some path).
    { destruct (truthy_path (tmp_chat_path w1)) as [q|];
        [destruct (file_exists q w1)|]; exact Hp. }
    rewrite Ht, (truthy_named path Hne).
    destruct (file_exists path w1) eqn:E; [apply file_exists_removed|exact E].
Qed.

Lemma service_main_failure_exits_clean_witness :
  exists w',
    Service.main 301 5
      (set_captured [(1, []); (1, [])]
         (set_wire cooperative_line_service boot)) =
      Raise (SystemExit 1) w' /\
    handles w' = 0%nat /\
    file_exists "/tmp/tmpq1w2e3" w' = false.
Proof.
  destruct (service_main_failure_exits_clean 301 5
              (set_captured [(1, []); (1, [])]
                 (set_wire cooperative_line_service boot)))
    as (w' & Hrun & Hh & Hgone).
  - split; [reflexivity|].
    exists (map bytes_of
              ["OK"; "OK"; "+CSQ: 18,0 OK"; "+CREG: 0,1 OK"; "+COPS: 0 OK";
               "OK"; "+CGATT: 1 OK"]%string).
    reflexivity.
  - lia.
  - reflexivity.
  - exists w'. split; [exact Hrun|]. split; [exact Hh|].
    apply Hgone; [|discriminate].
    vm_compute in Hrun. injection Hrun as <-. reflexivity.
Defined.

(** ** A whole run of the one-shot script *)

Lemma oneshot_main_quiet (fuel : nat) (w : world)
    (Hquiet : quiet_line w)
    (Hnew : file_exists (fresh w) w = false)
    (Hname : fresh w <> ""%string)
    (Hfuel : (301 <= fuel)%nat)
    (Hloop : 90000 <=
             500 * (Z.of_nat fuel - 2 - Z.of_nat (List.length (queue w)))) :
  exists w',
    OneShot.main fuel w = Ret tt w' /\
    files w' = files w /\ handles w' = handles w /\
    (forall p, nth_error (procs w') p = Some Running ->
               nth_error (procs w) p = Some Running).
Proof.
  unfold OneShot.main. unfold bind at 1.
  destruct (start_ppp_quiet fuel "airtelgprs.com" w Hquiet Hnew Hname Hfuel Hloop)
    as (r & w1 & -> & Hh1 & Hr).
  destruct r as [[process path]|].
  2:{ exists w1. split; [reflexivity|]. destruct Hr as [Hf Hp].
      split; [exact Hf|]. split; [exact Hh1|exact Hp]. }
  destruct Hr as (-> & -> & Hf1 & Hp1 & Hq1).
  unfold try_finally, try_except_interrupt.
  destruct (sleep_quiet_fields 60000 w1 Hq1)
    as (w2 & -> & _ & _ & Sq & Sf & Sp & Sh & _).
  unfold bind at 1.
  change (OneShot.cleanup_ppp (Some (List.length (procs w))) (Some (fresh w))
            true w2)
    with (OneShot.cleanup_ppp (Some (List.length (procs w))) (Some (fresh w))
            false (set_log (StopReader :: log w2) w2)).
  destruct (cleanup_ppp_quiet (List.length (procs w)) (fresh w)
              (set_log (StopReader :: log w2) w2))
    as (w3 & -> & Hf3 & Hh3 & Hn3 & Hp3); [exact Sq|exact Hname|].
  exists w3. split; [reflexivity|].
  split.
  { rewrite Hf3. cbn [files set_log]. rewrite Sf, Hf1. cbn [filter].
    rewrite String.eqb_refl. cbn [negb]. apply filter_absent. exact Hnew. }
  split; [rewrite Hh3; cbn; congruence|].
  intros p Hp.
  destruct (Nat.eq_dec p (List.length (procs w))) as [->|Hne]; [contradiction|].
  rewrite Hp3 in Hp by exact Hne. cbn [procs set_log] in Hp.
  rewrite Sp in Hp. apply Hp1; assumption.
Qed.

(** X16. Run to its end on a line without transport errors and with no
    signal arriving, the one-shot script returns and has cleaned up after
    itself, whether or not the connection came up: the chat script does not
    exist, every [Serial] object opened has been closed, and no process that
    the script spawned is left running.  The name the temporary file gets is
    assumed new and not empty. *)
Theorem oneshot_main_leaves_no_trace (fuel : nat) (w : world)
    (Hquiet : quiet_line w)
    (Hnew : file_exists (fresh w) w = false)
    (Hname : fresh w <> ""%string)
    (Hfuel : (301 <= fuel)%nat)
    (Hloop : 90000 <=
             500 * (Z.of_nat fuel - 2 - Z.of_nat (List.length (queue w)))) :
  exists w',
    OneShot.main fuel w = Ret tt w' /\
    file_exists (fresh w) w' = false /\ handles w' = handles w /\
    (forall p, (List.length (procs w) <= p)%nat ->
               nth_error (procs w') p <> Some Running).
Proof.
  destruct (oneshot_main_quiet fuel w Hquiet Hnew Hname Hfuel Hloop)
    as (w' & Hrun & Hf & Hh & Hp).
  exists w'. split; [exact Hrun|].
  split; [unfold file_exists in *; rewrite Hf; exact Hnew|].
  split; [exact Hh|].
  intros p Hle E. apply Hp in E.
  exact (not_running_beyond (procs w) Running p Hle E).
Qed.

Lemma oneshot_main_leaves_no_trace_witness :
  exists w',
    OneShot.main 301
      (set_queue good_negotiation (set_wire cooperative_line boot)) =
      Ret tt w' /\
    file_exists "/tmp/tmpq1w2e3" w' = false /\ handles w' = 0%nat /\
    (forall p, (0 <= p)%nat -> nth_error (procs w') p <> Some Running).
Proof.
  apply (oneshot_main_leaves_no_trace 301
           (set_queue good_negotiation (set_wire cooperative_line boot))).
  - split; [reflexivity|].
    exists (map bytes_of
              ["OK"; "OK"; "+CSQ: 18,0 OK"; "+CREG: 0,1 OK"; "OK";
               "+CGATT: 1 OK"; "+COPS: 0 OK"]%string).
    reflexivity.
  - reflexivity.
  - discriminate.
  - lia.
  - cbn. lia.
Defined.

(** ** A signal while the link is monitored *)

Lemma monitor_tick_split lc w :
  exists w1,
    Service.monitor_tick lc w =
      (sleep 30000 ;; ret (if Nat.leb 20 (S lc) then O else S lc)) w1 /\
    blocked w1 = blocked w /\ sigint_at w1 = sigint_at w /\
    handler w1 = handler w /\ tmp_chat_path w1 = tmp_chat_path w /\
    files w1 = files w /\ handles w1 = handles w.
Proof.
  unfold Service.monitor_tick, Service.get_uptime,
    Service.get_connection_stats, Service.test_ping_with_latency,
    Service.print_status_line, subprocess_run_captured.
  destruct (last_signal_info w) as [[rssi quality] icon] eqn:El.
  destruct (captured w) as [|r1 [|r2 [|r3 rest]]] eqn:Ec;
    unfold bind, ret, emit; cbn; rewrite ?Ec; cbn; rewrite ?El;
    eexists; (split; [reflexivity|]); cbn; repeat split; reflexivity.
Qed.

Lemma sleep_not_due ms w n :
  sigint_at w = Some n -> n <> blocked w ->
  exists w',
    sleep ms w = Ret tt w' /\
    blocked w' = S (blocked w) /\ sigint_at w' = sigint_at w /\
    handler w' = handler w /\ tmp_chat_path w' = tmp_chat_path w /\
    files w' = files w /\ handles w' = handles w.
Proof.
  intros Hs Hn. unfold sleep, bind, blocking_call. rewrite Hs.
  destruct (Nat.eqb_spec n (blocked w)); [contradiction|].
  eexists. split; [reflexivity|]. cbn. repeat split; try reflexivity.
  exact Hs.
Qed.

Lemma sleep_due {A} ms (k : unit -> M A) w :
  sigint_at w = Some (blocked w) -> handler w = true ->
  exists w',
    (sleep ms ;; k tt) w = Raise (SystemExit 0) w' /\
    (forall path, tmp_chat_path w = Some path -> path <> ""%string ->
                  file_exists path w' = false) /\
    handles w' = handles w.
Proof.
  intros Hs Hh. unfold sleep, bind, blocking_call. rewrite Hs, Hh.
  rewrite Nat.eqb_refl. unfold signal_handler, bind.
  rewrite cleanup_connection_run. cbv zeta. unfold sys_exit, raise.
  eexists. split; [reflexivity|].
  cbn [tmp_chat_path set_blocked].
  split.
  - intros path Hp Hne. rewrite Hp, (truthy_named path Hne).
    match goal with |- context [if ?b then _ else _] => destruct b eqn:E end;
      [apply file_exists_removed|exact E].
  - destruct (truthy_path (tmp_chat_path w)) as [q|]; [|reflexivity].
    match goal with |- context [if ?b then _ else _] => destruct b end;
      reflexivity.
Qed.

Lemma monitor_ticks_signalled : forall ticks lc w n,
  handler w = true -> sigint_at w = Some n ->
  (blocked w <= n < blocked w + ticks)%nat ->
  exists w',
    Service.monitor_ticks ticks lc w = Raise (SystemExit 0) w' /\
    (forall path, tmp_chat_path w = Some path -> path <> ""%string ->
                  file_exists path w' = false) /\
    handles w' = handles w.
Proof.
  induction ticks as [|ticks IH]; intros lc w n Hh Hs Hdue; [lia|].
  cbn [Service.monitor_ticks]. unfold bind at 1.
  destruct (monitor_tick_split lc w)
    as (w1 & -> & Bb & Bs & Bh & Bt & Bf & Bn).
  destruct (Nat.eq_dec n (blocked w)) as [->|Hne].
  - destruct (sleep_due 30000
                (fun _ => ret (if Nat.leb 20 (S lc) then O else S lc)) w1)
      as (w' & -> & Hrm & Hhd); [congruence|congruence|].
    exists w'. split; [reflexivity|].
    split; [intros path Hp; apply Hrm; congruence|congruence].
  - unfold bind at 1.
    destruct (sleep_not_due 30000 w1 n)
      as (w2 & -> & Cb & Cs & Ch & Ct & Cf & Cn); [congruence|congruence|].
    unfold ret at 1.
    destruct (IH (if Nat.leb 20 (S lc) then O else S lc) w2 n)
      as (w' & Hrun & Hrm & Hhd); [congruence|congruence|lia|].
    exists w'. split; [exact Hrun|].
    split; [intros path Hp; apply Hrm; congruence|congruence].
Qed.

(** X17. While the link is monitored with [signal_handler] installed, a
    termination or interrupt signal that arrives within the turns followed
    ends the script with exit status 0 after [cleanup_connection]: the chat
    script recorded in [tmp_chat_path] is gone and no serial handle has been
    opened.  The signal never surfaces as [KeyboardInterrupt], so the
    [except KeyboardInterrupt] branch around the loop is not what runs. *)
Theorem monitor_signal_shuts_down (ticks line_counter : nat) (w : world)
    (n : nat)
    (Hhandler : handler w = true)
    (Hsignal : sigint_at w = Some n)
    (Hdue : (blocked w <= n < blocked w + ticks)%nat) :
  exists w',
    Service.monitor_loop ticks line_counter w = Raise (SystemExit 0) w' /\
    try_except_interrupt (Service.monitor_loop ticks line_counter)
      cleanup_connection w = Raise (SystemExit 0) w' /\
    (forall path, tmp_chat_path w = Some path -> path <> ""%string ->
                  file_exists path w' = false) /\
    handles w' = handles w.
Proof.
  destruct (monitor_ticks_signalled ticks line_counter w n Hhandler Hsignal Hdue)
    as (w' & Hrun & Hrm & Hh).
  exists w'.
  assert (Hloop : Service.monitor_loop ticks line_counter w =
                  Raise (SystemExit 0) w')
    by (unfold Service.monitor_loop, bind; rewrite Hrun; reflexivity).
  split; [exact Hloop|].
  split; [unfold try_except_interrupt; rewrite Hloop; reflexivity|].
  split; assumption.
Qed.

Lemma monitor_signal_shuts_down_witness :
  exists w',
    Service.monitor_loop 5 0
      (set_sigint_at (Some 2%nat)
         (set_handler true
            (set_tmp_chat_path (Some "/tmp/tmpq1w2e3"%string)
               (set_files ["/tmp/tmpq1w2e3"%string] boot)))) =
      Raise (SystemExit 0) w' /\
    files w' = [].
Proof.
  destruct (monitor_signal_shuts_down 5 0
              (set_sigint_at (Some 2%nat)
                 (set_handler true
                    (set_tmp_chat_path (Some "/tmp/tmpq1w2e3"%string)
                       (set_files ["/tmp/tmpq1w2e3"%string] boot))))
              2 eq_refl eq_refl ltac:(cbn; lia))
    as (w' & Hrun & _).
  exists w'. split; [exact Hrun|].
  vm_compute in Hrun. injection Hrun as <-. reflexivity.
Defined.

(** ** The two scripts read the same signal *)

(** X18. The two scripts read the same number from a signal response and
    draw the same two lines, at 99 and at 10, but they name the readings
    from 10 up differently.  Where the one-shot script reports nothing the
    persistent one caches [Unknown]; where the one-shot script cannot parse
    the reading the persistent one's parse raises; a reading of 99 is no
    signal in both; a reading the one-shot script calls weak is below 10 and
    cached as [Poor].  Every other reading the one-shot script prints as
    [(good)], while the persistent script calls it [Fair] below 15, [Good]
    from 15 to 19 and [Excellent] from 20: the two use the same word exactly
    for the readings 15 to 19. *)
Theorem signal_readings_compared (response : pystr) (w : world) :
  match report_signal response with
  | None =>
      signal_of_response response w = Ret (None, "Unknown", "?")%string w
  | Some CouldNotParse =>
      exists msg, signal_of_response response w = Raise (Error msg) w
  | Some NoSignalDetected =>
      signal_of_response response w = Ret (Some 99, "No Signal", "❌")%string w
  | Some (WeakSignal rssi) =>
      rssi < 10 /\
      signal_of_response response w = Ret (Some rssi, "Poor", "⚠️")%string w
  | Some (SignalStrengthGood rssi) =>
      10 <= rssi /\ rssi <> 99 /\
      signal_of_response response w = Ret (classify rssi) w /\
      rssi_of (classify rssi) = Some rssi /\
      (rssi < 15 -> quality_of (classify rssi) = "Fair"%string) /\
      (15 <= rssi < 20 -> quality_of (classify rssi) = "Good"%string) /\
      (20 <= rssi -> quality_of (classify rssi) = "Excellent"%string) /\
      (quality_of (classify rssi) = "Good"%string <-> 15 <= rssi < 20)
  end.
Proof.
  unfold report_signal, signal_of_response, parse_rssi, bind, raise, ret.
  destruct (contains (lit "+CSQ:") response); [|reflexivity].
  destruct (nth_error (split (lit "+CSQ:") response) 1) as [after|];
    [|eexists; reflexivity].
  destruct (nth_error (split (lit ",") after) 0) as [field|];
    [|eexists; reflexivity].
  destruct (py_int (strip field)) as [rssi|]; [|eexists; reflexivity].
  unfold classify, rssi_of, quality_of.
  destruct (rssi =? 99) eqn:E99.
  { apply Z.eqb_eq in E99. subst rssi. reflexivity. }
  destruct (rssi <? 10) eqn:E10; cbv beta iota; rewrite ?E99, ?E10.
  { apply Z.ltb_lt in E10. split; [exact E10|reflexivity]. }
  apply Z.eqb_neq in E99. apply Z.ltb_ge in E10.
  split; [exact E10|]. split; [exact E99|]. split; [reflexivity|].
  destruct (Z.ltb_spec rssi 15); [|destruct (Z.ltb_spec rssi 20)]; cbn;
    (split; [reflexivity|]); (split; [intros; try lia; reflexivity|]);
    (split; [intros; try lia; reflexivity|]);
    (split; [intros; try lia; reflexivity|]);
    (split; [intros E; try lia; try discriminate E|intros; try lia; reflexivity]).
Qed.

(** ** The uptime shown in the status line *)



